(** * Water-quality dashboard (testest.py): data pipeline and its properties

    The script is one flat Streamlit page.  Its computational content is a
    chain of pandas / scipy calls over the uploaded table:

      loader -> date filter -> station filter -> { yearly mean, Spearman }

    The table is modelled row by row, every cell carrying its own kind, the
    pandas and scipy operations the script calls are written out as list
    functions, and the page itself is the sequence of elements the script
    emits, with Python exceptions threaded through a small writer/error
    monad.

    Numbers are rationals.  The yearly means are computed as pandas computes
    them, in binary64: every operation rounds to the nearest float, ties to
    even.  The Spearman coefficient comes from scipy, which is not part of
    the script; it is modelled from the specification, in exact arithmetic
    (the float64 number scipy returns approximates it). *)

From Stdlib Require Import List String Ascii Bool ZArith QArith Lia.
From Stdlib Require Import Sorting.Sorted Sorting.Permutation.
From Stdlib Require Import Qreals Reals Lra Lqa Psatz.
From Stdlib Require Import OrderedTypeEx.

Import ListNotations.
Open Scope string_scope.
Open Scope Z_scope.

(* ------------------------------------------------------------------ *)
(** ** Data model: cells, rows, frames *)
(* ------------------------------------------------------------------ *)

(** One spreadsheet cell after [read_excel]: a number (int64 / float64), a
    text or other object, a timestamp in nanoseconds since the epoch, or the
    missing marker (NaN, NaT and None alike). *)
Inductive cell : Type :=
| Num (q : Q)
| Str (s : string)
| Time (t : Z)
| NaN.

Inductive dtype : Type := float64 | int64 | datetime64 | object.

(** A row maps column names to cells, in column order. *)
Definition row : Type := list (string * cell).

Record DataFrame : Type := mkDataFrame {
  columns : list (string * dtype);
  rows : list row
}.

(** [r[c]]: the cell of row [r] in column [c]; missing when the row holds
    nothing there. *)
Fixpoint get (c : string) (r : row) : cell :=
  match r with
  | [] => NaN
  | (k, v) :: r' => if String.eqb k c then v else get c r'
  end.

Definition column_names (df : DataFrame) : list string :=
  map fst (columns df).

(** ["c" in df.columns] *)
Definition has_column (c : string) (df : DataFrame) : bool :=
  existsb (String.eqb c) (column_names df).

(** [df[c]] as the list of its cells. *)
Definition column (c : string) (rs : list row) : list cell :=
  map (get c) rs.

(** Equality of cells as [isin] and [unique] see it: numbers by value,
    missing equal to missing. *)
Definition cell_eqb (a b : cell) : bool :=
  match a, b with
  | Num p, Num q => Qeq_bool p q
  | Str s, Str t => String.eqb s t
  | Time s, Time t => Z.eqb s t
  | NaN, NaN => true
  | _, _ => false
  end.

(** [Series.isin(values)] on one cell. *)
Definition isin (c : cell) (values : list cell) : bool :=
  existsb (cell_eqb c) values.

(** [Series.unique()]: distinct values in order of first appearance. *)
Fixpoint unique_from (seen : list cell) (l : list cell) : list cell :=
  match l with
  | [] => []
  | c :: l' =>
      if isin c seen then unique_from seen l'
      else c :: unique_from (c :: seen) l'
  end.

Definition unique (l : list cell) : list cell := unique_from [] l.

(** A list of cells in which no value occurs twice. *)
Inductive distinct : list cell -> Prop :=
| distinct_nil : distinct []
| distinct_cons : forall c l, isin c l = false -> distinct l -> distinct (c :: l).

(** [notna] *)
Definition notna (c : cell) : bool :=
  match c with NaN => false | _ => true end.

(* ------------------------------------------------------------------ *)
(** ** Exceptions, and what lies outside the script *)
(* ------------------------------------------------------------------ *)

(** The Python exceptions the script can meet. *)
Inductive exn : Type :=
| KeyError (key : string)
| IndexError
| TypeError (msg : string)
| OtherError (msg : string).

(** [str(e)] *)
Definition exn_str (e : exn) : string :=
  match e with
  | KeyError k => "'" ++ k ++ "'"
  | IndexError => "tuple index out of range"
  | TypeError m => m
  | OtherError m => m
  end.

(** What lies outside the script: the date parser of pandas, the texts of
    its exceptions, and the state of the sidebar and page widgets. *)
Record session : Type := mkSession {
  (** [pd.to_datetime(v, errors='coerce')] on one value *)
  parse_date : cell -> option Z;
  (** [str(e)] of the TypeError pandas raises on a column it can neither
      average nor sort *)
  type_error : list cell -> string;
  (** [st.sidebar.date_input] given the default (and bounds) [min_data],
      [max_data]: the tuple of dates picked, or the exception it raises *)
  date_input : option Z -> option Z -> exn + list Z;
  (** [st.sidebar.multiselect] given its options, which are its default *)
  multiselect : list cell -> list cell;
  (** positions picked in the three select boxes *)
  bar_index : nat;
  x_index : nat;
  y_index : nat
}.

(* ------------------------------------------------------------------ *)
(** ** Dates *)
(* ------------------------------------------------------------------ *)

(** A calendar date is a day number; a timestamp counts nanoseconds. *)
Definition ns_per_day : Z := 86400000000000.

(** [pd.to_datetime(d)] for a date [d]: midnight of that day. *)
Definition to_datetime (d : Z) : Z := d * ns_per_day.

(** [Timestamp.date()]; NaT stays NaT. *)
Definition date_of (c : cell) : option Z :=
  match c with
  | Time t => Some (t / ns_per_day)
  | _ => None
  end.

(* ------------------------------------------------------------------ *)
(** ** Filter stage (lines 43-54) *)
(* ------------------------------------------------------------------ *)

(** [(df['Data'] >= s) & (df['Data'] <= e)] on one row.  A comparison with
    NaT is false. *)
Definition date_mask (s e : Z) (r : row) : bool :=
  match get "Data" r with
  | Time t => (to_datetime s <=? t) && (t <=? to_datetime e)
  | _ => false
  end.

(** Line 43: boolean-mask selection by the period. *)
Definition filter_periodo (s e : Z) (rs : list row) : list row :=
  filter (date_mask s e) rs.

(** Line 46: the options of the station widget. *)
Definition estacoes (s e : Z) (rs : list row) : list cell :=
  unique (column "Estação" (filter_periodo s e rs)).

(** Line 54: selection by station. *)
Definition filter_estacao (sel : list cell) (rs : list row) : list row :=
  filter (fun r => isin (get "Estação" r) sel) rs.

(** Lines 43 and 54 together: [df_filtrado]. *)
Definition df_filtrado (s e : Z) (sel : list cell) (rs : list row) : list row :=
  filter_estacao sel (filter_periodo s e rs).

(** Two cells hold the same value. *)
Definition same_value (a b : cell) : Prop :=
  match a, b with
  | Num p, Num q => (p == q)%Q
  | Str s, Str t => s = t
  | Time s, Time t => s = t
  | NaN, NaN => True
  | _, _ => False
  end.

(** The station of row [r] is one of the selected ones. *)
Definition station_selected (sel : list cell) (r : row) : Prop :=
  exists c, In c sel /\ same_value (get "Estação" r) c.

(** The date of row [r] lies in the closed interval [s, e]: the day of its
    timestamp, 86400000000000 nanoseconds to the day. *)
Definition dated_within (s e : Z) (r : row) : Prop :=
  exists t, get "Data" r = Time t /\ s <= t / 86400000000000 <= e.

(** The timestamp of row [r] lies between midnight of day [s] and midnight
    of day [e], both included. *)
Definition stamped_within (s e : Z) (r : row) : Prop :=
  exists t, get "Data" r = Time t
            /\ s * 86400000000000 <= t <= e * 86400000000000.

(** Subsequence: [l1] is [l2] with some elements left out, order kept. *)
Inductive subseq {A : Type} : list A -> list A -> Prop :=
| subseq_nil : subseq [] []
| subseq_skip : forall x l1 l2, subseq l1 l2 -> subseq l1 (x :: l2)
| subseq_keep : forall x l1 l2, subseq l1 l2 -> subseq (x :: l1) (x :: l2).

(* ------------------------------------------------------------------ *)
(** ** Aggregator (line 104) *)
(* ------------------------------------------------------------------ *)

(** The float held by a cell of a numeric column; NaN holds none. *)
Definition as_num (c : cell) : option Q :=
  match c with
  | Num q => Some q
  | _ => None
  end.

(** The values a column holds, missing ones skipped. *)
Definition present (cs : list cell) : list Q :=
  flat_map (fun c => match as_num c with Some q => [q] | None => [] end) cs.

Definition Qsum (l : list Q) : Q := fold_right Qplus 0%Q l.

Definition Qlen {A : Type} (l : list A) : Q := inject_Z (Z.of_nat (List.length l)).

(** The binary64 number nearest to [q], ties to even: [q] is scaled by a
    power of two to a significand of 53 bits (fewer below 2^-1022, where
    the exponent stops at -1074) and rounded there.  Overflow to infinity
    is outside the model. *)
Definition round64 (q : Q) : Q :=
  let q := Qred q in
  let a := Z.abs (Qnum q) in
  let d := Zpos (Qden q) in
  if a =? 0 then 0%Q
  else
    let l := Z.log2 a - Z.log2 d in
    let magnitude :=
      if (if 0 <=? l then d * 2 ^ l <=? a else d <=? a * 2 ^ (- l))
      then l else l - 1 in
    let e := Z.max (magnitude - 52) (-1074) in
    let n := if 0 <=? e then a else a * 2 ^ (- e) in
    let m := if 0 <=? e then d * 2 ^ e else d in
    let k := n / m in
    let r := n mod m in
    let k' := if (m <? 2 * r) || ((m =? 2 * r) && Z.odd k) then k + 1 else k in
    Qred (Qmake (Z.sgn (Qnum q) * k' * (if 0 <=? e then 2 ^ e else 1))
                (if 0 <=? e then 1%positive else Z.to_pos (2 ^ (- e)))).

(** float64 addition, subtraction and division. *)
Definition fadd (a b : Q) : Q := round64 (a + b).
Definition fsub (a b : Q) : Q := round64 (a - b).
Definition fdiv (a b : Q) : Q := round64 (a / b).

(** The sum of a group as pandas' [group_mean] accumulates it: compensated
    (Kahan) summation, in the order of the rows. *)
Fixpoint kahan (sumx compensation : Q) (vs : list Q) : Q :=
  match vs with
  | [] => sumx
  | val :: vs' =>
      let y := fsub val compensation in
      let t := fadd sumx y in
      kahan t (fsub (fsub t sumx) y) vs'
  end.

(** The mean of one group: the values are cast to float64, missing ones
    are skipped, the sum is divided by the number of values; NaN when none
    is left. *)
Definition mean (cs : list cell) : cell :=
  match present cs with
  | [] => NaN
  | vs => Num (fdiv (kahan 0 0 (map round64 vs)) (Qlen vs))
  end.

Definition is_num (c : cell) : bool :=
  match c with Num _ => true | _ => false end.

Definition is_time (c : cell) : bool :=
  match c with Time _ => true | _ => false end.

(** A column of numbers: every cell is a number or missing. *)
Definition numeric_cells (cs : list cell) : bool :=
  forallb (fun c => match c with Num _ | NaN => true | _ => false end) cs.

(** The order of the group keys ([sort=True]): numbers by value and
    timestamps by time, text after them in the order of its characters. *)
Definition label_compare (a b : cell) : comparison :=
  match a, b with
  | Num p, Num q => (p ?= q)%Q
  | Num _, _ => Lt
  | Time _, Num _ => Gt
  | Time s, Time t => (s ?= t)%Z
  | Time _, _ => Lt
  | Str _, Num _ => Gt
  | Str _, Time _ => Gt
  | Str s, Str t => String.compare s t
  | Str _, NaN => Lt
  | NaN, NaN => Eq
  | NaN, _ => Gt
  end.

(** Group keys are kept ascending and distinct. *)
Fixpoint insert_key (k : cell) (l : list cell) : list cell :=
  match l with
  | [] => [k]
  | h :: t =>
      match label_compare k h with
      | Lt => k :: l
      | Eq => l
      | Gt => h :: insert_key k t
      end
  end.

(** The keys of [groupby]: rows with a missing key are in no group
    ([dropna=True]). *)
Definition group_keys (cs : list cell) : list cell :=
  fold_right (fun c acc => if notna c then insert_key c acc else acc) [] cs.

(** Numbers and timestamps cannot be compared: keys of both kinds cannot be
    sorted. *)
Definition unsortable (cs : list cell) : bool :=
  existsb is_num cs && existsb is_time cs.

(** The rows of the group of key [k]. *)
Definition group (key : string) (k : cell) (rs : list row) : list row :=
  filter (fun r => cell_eqb (get key r) k) rs.

(** [df.groupby(key)[param].mean().reset_index()] as (key, mean) rows.
    Sorting keys that cannot be compared raises TypeError, and so does the
    mean of a group that holds anything but numbers. *)
Definition groupby_mean (ss : session) (key param : string) (rs : list row)
  : exn + list (cell * cell) :=
  let labels := column key rs in
  let values := column param (filter (fun r => notna (get key r)) rs) in
  if unsortable labels then inl (TypeError (type_error ss labels))
  else if negb (numeric_cells values) then inl (TypeError (type_error ss values))
  else inr (map (fun k => (k, mean (column param (group key k rs))))
                (group_keys labels)).

(** Line 104. *)
Definition df_barras (ss : session) (parametro_escolhido : string) (rs : list row)
  : exn + list (cell * cell) :=
  groupby_mean ss "Ano" parametro_escolhido rs.


(** The order of the year labels as the specification words it: numbers by
    value, timestamps by time, text by the order of its characters; numbers
    before timestamps before text. *)
Definition label_lt (a b : cell) : Prop :=
  match a, b with
  | Num p, Num q => (p < q)%Q
  | Num _, NaN => False
  | Num _, _ => True
  | Time s, Time t => s < t
  | Time _, Str _ => True
  | Str s, Str t => String_as_OT.lt s t
  | _, _ => False
  end.



(** The year labels of the table do not mix numbers with timestamps. *)
Definition comparable_years (rs : list row) : Prop :=
  ~ (exists r1 r2 q t, In r1 rs /\ In r2 rs
                       /\ get "Ano" r1 = Num q /\ get "Ano" r2 = Time t).

Definition Zsum (zs : list Z) : Z := fold_right Z.add 0 zs.

Definition Zabs_sum (zs : list Z) : Z :=
  fold_right (fun z acc => Z.abs z + acc) 0 zs.

(** Whole numbers whose absolute values add up to less than 2^53: every
    partial sum is a float64. *)
Definition exact_sums (vs : list Q) : Prop :=
  exists zs, Forall2 (fun v z => (v == inject_Z z)%Q) vs zs
             /\ Zabs_sum zs < 2 ^ 53.

(* ------------------------------------------------------------------ *)
(** ** Correlation stage (lines 128-151) *)
(* ------------------------------------------------------------------ *)

(** [df.dropna(subset=cols)] *)
Definition dropna (subset : list string) (rs : list row) : list row :=
  filter (fun r => forallb (fun c => notna (get c r)) subset) rs.

(** Line 128. *)
Definition df_corr (x_axis y_axis : string) (rs : list row) : list row :=
  dropna [x_axis; y_axis] rs.

(** The result of [spearmanr]: a real coefficient, or nan. *)
Inductive coefficient : Type :=
| nan
| rho (r : R).

(** A column as an array of floats; [None] when a cell holds no number. *)
Fixpoint floats (cs : list cell) : option (list Q) :=
  match cs with
  | [] => Some []
  | Num q :: cs' =>
      match floats cs' with
      | Some l => Some (q :: l)
      | None => None
      end
  | _ :: _ => None
  end.

Definition count_lt (v : Q) (l : list Q) : nat :=
  List.length (filter (fun w => match (w ?= v)%Q with Lt => true | _ => false end) l).

Definition count_eq (v : Q) (l : list Q) : nat :=
  List.length (filter (fun w => match (w ?= v)%Q with Eq => true | _ => false end) l).

(** [rankdata(method='average')]: the rank of [v] in [l] is the mean of the
    positions its ties occupy in the sorted array. *)
Definition rank (l : list Q) (v : Q) : Q :=
  (inject_Z (Z.of_nat (count_lt v l))
   + (inject_Z (Z.of_nat (count_eq v l)) + 1) / 2)%Q.

Definition rankdata (l : list Q) : list Q := map (rank l) l.

(** Sums of centred products over paired observations. *)
Definition Qmean (l : list Q) : Q := (Qsum l / Qlen l)%Q.

Definition sum_xy (mx my : Q) (l : list (Q * Q)) : Q :=
  Qsum (map (fun p => (fst p - mx) * (snd p - my))%Q l).

Definition sum_xx (mx : Q) (l : list (Q * Q)) : Q :=
  Qsum (map (fun p => (fst p - mx) * (fst p - mx))%Q l).

Definition sum_yy (my : Q) (l : list (Q * Q)) : Q :=
  Qsum (map (fun p => (snd p - my) * (snd p - my))%Q l).

(** Numerator and squared denominator of the Pearson coefficient. *)
Definition pearson_parts (l : list (Q * Q)) : Q * Q :=
  let mx := Qmean (map fst l) in
  let my := Qmean (map snd l) in
  (sum_xy mx my l, (sum_xx mx l * sum_yy my l)%Q).

(** Modelled from the spec: [scipy.stats.spearmanr] (line 147) is library
    code and not part of the script.  The specification names its result,
    Spearman's rank correlation coefficient, which is Pearson's coefficient
    of the ranks: the covariance sum over the root of the product of the two
    variance sums, taken here in exact arithmetic (zero divided by zero is
    nan, as in scipy).  The float64 number scipy returns approximates this
    value and may differ from it in the last digits. *)
Definition coefficient_of (sxy d2 : Q) : coefficient :=
  if Qeq_bool d2 0 then nan
  else rho (Q2R sxy / sqrt (Q2R d2)).

(** Modelled from the spec: Pearson's coefficient of paired values; a
    constant input divides zero by zero and gives nan. *)
Definition corrcoef (l : list (Q * Q)) : coefficient :=
  coefficient_of (fst (pearson_parts l)) (snd (pearson_parts l)).

(** Modelled from the spec: Spearman's coefficient of two float arrays,
    Pearson's coefficient of their ranks. *)
Definition spearman (xs ys : list Q) : coefficient :=
  corrcoef (combine (rankdata xs) (rankdata ys)).

(** Modelled from the spec: the coefficient [spearmanr(a, b)] stands for,
    on two columns; a missing value propagates as nan. *)
Definition spearmanr (a b : list cell) : coefficient :=
  match floats a, floats b with
  | Some xs, Some ys => spearman xs ys
  | _, _ => nan
  end.

(** Line 147: the coefficient of the paired table. *)
Definition spearman_corr (x_axis y_axis : string) (rs : list row) : coefficient :=
  let d := df_corr x_axis y_axis rs in
  spearmanr (column x_axis d) (column y_axis d).

(** Reading a cell as a float. *)
Definition num (c : cell) : Q :=
  match c with Num q => q | _ => 0%Q end.

(** A transform applied to the numbers of one column. *)
Definition map_cell (f : Q -> Q) (c : cell) : cell :=
  match c with
  | Num q => Num (f q)
  | _ => c
  end.

Fixpoint map_column (c : string) (f : Q -> Q) (r : row) : row :=
  match r with
  | [] => []
  | (k, v) :: r' =>
      if String.eqb k c then (k, map_cell f v) :: r'
      else (k, v) :: map_column c f r'
  end.

(** An array all of whose values are equal, and one with two values apart. *)
Definition constant (l : list Q) : Prop :=
  forall a b, In a l -> In b l -> (a == b)%Q.

Definition varies (l : list Q) : Prop :=
  exists a b, In a l /\ In b l /\ (a < b)%Q.

(** Strictly increasing transforms of floats. *)
Definition strictly_increasing (f : Q -> Q) : Prop :=
  (forall a b, (a == b)%Q -> (f a == f b)%Q)
  /\ (forall a b, (a < b)%Q -> (f a < f b)%Q).

(* ------------------------------------------------------------------ *)
(** ** The page: emitted elements and runs of script code *)
(* ------------------------------------------------------------------ *)

(** What the script puts on the page, in order. *)
Inductive element : Type :=
| st_title (txt : string)
| st_sidebar_header (txt : string)
| st_success (msg : string)
| st_info (msg : string)
| st_error (msg : string)
| st_warning (msg : string)
| st_header (txt : string)
| st_subheader (txt : string)
| st_write_head (rs : list row)
| st_pydeck_chart (data : list row)
| st_bar_chart (series : list (cell * cell)) (parametro : string)
| st_scatter_chart (data : list row) (x_axis y_axis : string)
| st_write_coef (c : coefficient).

(** A run of script code: the elements emitted so far and either the
    exception that stopped it or its value. *)
Definition M (A : Type) : Type := (list element * (exn + A))%type.

Definition ret {A : Type} (a : A) : M A := ([], inr a).

Definition bind {A B : Type} (m : M A) (k : A -> M B) : M B :=
  match m with
  | (out, inl e) => (out, inl e)
  | (out, inr a) => let (out', r) := k a in ((out ++ out')%list, r)
  end.

Definition emit (e : element) : M unit := ([e], inr tt).

Definition raise {A : Type} (e : exn) : M A := ([], inl e).

Definition lift {A : Type} (r : exn + A) : M A := ([], r).

(** [try: m  except Exception as e: h e] *)
Definition try_except (m : M unit) (h : exn -> M unit) : M unit :=
  match m with
  | (out, inl e) => let (out', r) := h e in ((out ++ out')%list, r)
  | (out, inr a) => (out, inr a)
  end.

Declare Scope script_scope.
Delimit Scope script_scope with script.
Notation "x <- m ;; k" := (bind m (fun x => k))
  (at level 61, m at next level, right associativity) : script_scope.
Notation "m ;; k" := (bind m (fun _ => k))
  (at level 61, right associativity) : script_scope.

(** [st.selectbox(label, options)]: the option at the position picked;
    None without options (a position past the last option picks nothing). *)
Definition selectbox (options : list string) (index : nat) : option string :=
  nth_error options index.

(* ------------------------------------------------------------------ *)
(** ** The script, section by section *)
(* ------------------------------------------------------------------ *)

Open Scope script_scope.

(** [df[c]] raises KeyError when the frame has no such column. *)
Definition getitem (c : string) (df : DataFrame) : M (list cell) :=
  if has_column c df then ret (column c (rows df)) else raise (KeyError c).

(** [t[i]] on a tuple. *)
Definition index {A : Type} (t : list A) (i : nat) : M A :=
  match nth_error t i with
  | Some a => ret a
  | None => raise IndexError
  end.

(** [r[c] = v]: the cell of column [c] replaced (added when absent). *)
Fixpoint set (c : string) (v : cell) (r : row) : row :=
  match r with
  | [] => [(c, v)]
  | (k, w) :: r' =>
      if String.eqb k c then (k, v) :: r' else (k, w) :: set c v r'
  end.

(** A value that does not parse becomes NaT. *)
Definition coerce (ss : session) (c : cell) : cell :=
  match parse_date ss c with
  | Some t => Time t
  | None => NaN
  end.

(** Line 29: [df['Data'] = pd.to_datetime(df['Data'], errors='coerce')] *)
Definition parse_Data (ss : session) (df : DataFrame) : DataFrame :=
  {| columns :=
       map (fun cd => if String.eqb (fst cd) "Data" then (fst cd, datetime64) else cd)
           (columns df);
     rows := map (fun r => set "Data" (coerce ss (get "Data" r)) r) (rows df) |}.

Definition times (cs : list cell) : list Z :=
  flat_map (fun c => match c with Time t => [t] | _ => [] end) cs.

(** [Series.min()] and [Series.max()] of a datetime column: NaT is skipped,
    NaT comes out when nothing is left. *)
Definition series_min (cs : list cell) : cell :=
  match times cs with
  | [] => NaN
  | t :: ts => Time (fold_right Z.min t ts)
  end.

Definition series_max (cs : list cell) : cell :=
  match times cs with
  | [] => NaN
  | t :: ts => Time (fold_right Z.max t ts)
  end.

(** [select_dtypes(include=["float64", "int64"]).columns] *)
Definition select_dtypes_numeric (df : DataFrame) : list string :=
  map fst
      (filter (fun cd => match snd cd with
                         | float64 | int64 => true
                         | _ => false
                         end)
              (columns df)).

(** Lines 94 and 117. *)
Definition numeric_columns (df : DataFrame) : list string :=
  filter (fun c => negb (existsb (String.eqb c) ["Ano"; "x"; "y"]))
         (select_dtypes_numeric df).

(** [df[mask]]: same columns, selected rows. *)
Definition with_rows (df : DataFrame) (rs : list row) : DataFrame :=
  {| columns := columns df; rows := rs |}.

Definition msg_missing_data : string :=
  "O arquivo Excel deve conter uma coluna chamada 'Data'.".

Definition msg_two_numeric : string :=
  "O conjunto de dados precisa ter pelo menos duas colunas numéricas.".

Definition msg_insufficient : string :=
  "Dados insuficientes para calcular a correlação ou plotar o gráfico.".

Definition msg_same_axis : string :=
  "Selecione variáveis diferentes para calcular a correlação.".

Definition msg_load_error (e : exn) : string :=
  "Erro ao carregar o arquivo: " ++ exn_str e.

(** [Series.mean()] of a coordinate column, lines 61-62.  Its value goes to
    the initial view of the map, which the page does not show; what the
    page shows is whether it raises: a column of numbers or of timestamps
    (missing values apart) has a mean, any other raises TypeError. *)
Definition averageable (cs : list cell) : bool :=
  numeric_cells cs
  || forallb (fun c => match c with Time _ | NaN => true | _ => false end) cs.

Definition Series_mean (ss : session) (cs : list cell) : M unit :=
  if averageable cs then ret tt else raise (TypeError (type_error ss cs)).

(** Lines 91-114: the bar chart of yearly means.  Without a parameter the
    select box returns None, and [groupby(...)[None]] raises KeyError. *)
Definition bar_section (ss : session) (df : DataFrame) : M unit :=
  if has_column "Ano" df then
    let parametros := numeric_columns df in
    emit (st_header "Gráfico de Barras: Ano vs Parâmetro") ;;
    match selectbox parametros (bar_index ss) with
    | Some parametro_escolhido =>
        series <- lift (df_barras ss parametro_escolhido (rows df)) ;;
        emit (st_bar_chart series parametro_escolhido)
    | None => raise (KeyError "Column not found: None")
    end
  else ret tt.

(** Lines 128-151 for the chosen axes. *)
Definition correlation_stage (x_axis y_axis : string) (rs : list row) : M unit :=
  let d := df_corr x_axis y_axis rs in
  if (List.length d <? 2)%nat then emit (st_warning msg_insufficient)
  else
    emit (st_scatter_chart d x_axis y_axis) ;;
    if negb (String.eqb x_axis y_axis) then
      emit (st_subheader "Coeficiente de Correlação de Spearman") ;;
      emit (st_write_coef (spearmanr (column x_axis d) (column y_axis d)))
    else emit (st_warning msg_same_axis).

(** Lines 60-62: the centre of the initial view of the map, the mean of
    [y] and then the mean of [x]. *)
Definition initial_view_state (ss : session) (df : DataFrame) : M unit :=
  y <- getitem "y" df ;;
  Series_mean ss y ;;
  x <- getitem "x" df ;;
  Series_mean ss x.

(** Lines 117-151: the scatter plot and the coefficient. *)
Definition scatter_section (ss : session) (df : DataFrame) : M unit :=
  let numeric := numeric_columns df in
  if (List.length numeric <? 2)%nat then emit (st_warning msg_two_numeric)
  else
    emit (st_header "Gráfico de Dispersão") ;;
    match selectbox numeric (x_index ss), selectbox numeric (y_index ss) with
    | Some x_axis, Some y_axis => correlation_stage x_axis y_axis (rows df)
    | _, _ => raise (KeyError "None")
    end.

(** Lines 17-151: everything inside [try]. *)
Definition script (ss : session) (df : DataFrame) : M unit :=
  emit (st_success "Dados carregados com sucesso!") ;;
  emit (st_subheader "Prévia dos Dados") ;;
  emit (st_write_head (firstn 5 (rows df))) ;;
  if negb (has_column "Data" df) then emit (st_error msg_missing_data)
  else
    let df := parse_Data ss df in
    let min_data := date_of (series_min (column "Data" (rows df))) in
    let max_data := date_of (series_max (column "Data" (rows df))) in
    periodo <- lift (date_input ss min_data max_data) ;;
    p0 <- index periodo 0 ;;
    p1 <- index periodo 1 ;;
    let df_f := with_rows df (filter_periodo p0 p1 (rows df)) in
    col <- getitem "Estação" df_f ;;
    let estacao_selecionada := multiselect ss (unique col) in
    let df_f := with_rows df_f (filter_estacao estacao_selecionada (rows df_f)) in
    emit (st_header "Mapa de Localização das Estações") ;;
    initial_view_state ss df_f ;;
    emit (st_pydeck_chart (rows df_f)) ;;
    bar_section ss df_f ;;
    scatter_section ss df_f.

(** The whole page for one run: [uploaded] is None without a file, else the
    outcome of [pd.read_excel]. *)
Definition page (ss : session) (uploaded : option (exn + DataFrame)) : list element :=
  ([st_title "Análise de Qualidade da Água"; st_sidebar_header "Configurações"]
  ++ match uploaded with
     | Some parsed =>
         fst (try_except (df <- lift parsed ;; script ss df)
                         (fun e => emit (st_error (msg_load_error e))))
     | None =>
         [st_info "Por favor, faça upload de um arquivo Excel com os dados de qualidade da água."]
     end)%list.

Close Scope script_scope.

(** Elements that carry the output of a stage after the loader. *)
Definition is_bar_chart (el : element) : bool :=
  match el with st_bar_chart _ _ => true | _ => false end.

Definition is_coefficient (el : element) : bool :=
  match el with st_write_coef _ => true | _ => false end.

Definition is_stage_output (el : element) : bool :=
  match el with
  | st_pydeck_chart _ | st_bar_chart _ _ | st_scatter_chart _ _ _
  | st_write_coef _ => true
  | _ => false
  end.

(** Sample tables used to evaluate the stages. *)
Definition obs (day : Z) (estacao : string) : row :=
  [("Data", Time (to_datetime day)); ("Estação", Str estacao)].

Definition yearly (ano valor : Z) : row :=
  [("Ano", Num (inject_Z ano)); ("Turbidez", Num (inject_Z valor))].

(** A reading of [tenths] tenths, as the float64 a spreadsheet holds. *)
Definition decimal (ano tenths : Z) : row :=
  [("Ano", Num (inject_Z ano)); ("Turbidez", Num (round64 (tenths # 10)))].




Definition three_year_rows : list row :=
  [yearly 2021 4; yearly 2021 6; yearly 2022 10].

Definition reading (ph od : cell) : row := [("pH", ph); ("OD", od)].

(** One row with both values present, the others with one value missing. *)
Definition one_pair_table : list row :=
  [reading (Num 7) (Num 5); reading NaN (Num 6); reading (Num 8) NaN].

(** Two paired rows in which the first column is constant. *)
Definition constant_x_table : list row :=
  [reading (Num 1) (Num 1); reading (Num 1) (Num 2)].

(** Scenario 6: X = 1, 2, 3, 4 and Y = 10, 20, 30, 40. *)
Definition monotonic_table : list row :=
  [reading (Num 1) (Num 10); reading (Num 2) (Num 20);
   reading (Num 3) (Num 30); reading (Num 4) (Num 40)].

(** A strictly increasing transform: [q |-> 2 q + 1]. *)
Definition twice_plus_one (q : Q) : Q := (2 * q + 1)%Q.

Definition single_row_table : list row := [reading (Num 7) (Num 5)].

(** A sheet whose date column is spelled in lower case. *)
Definition lowercase_sheet : DataFrame :=
  {| columns := [("data", object); ("Estação", object); ("pH", float64)];
     rows := [[("data", Str "2023-01-05"); ("Estação", Str "A"); ("pH", Num 7)]] |}.

(** A table with coordinates and two measured columns, without a year
    column. *)
Definition yearless_table : DataFrame :=
  {| columns := [("Data", datetime64); ("Estação", object);
                 ("x", float64); ("y", float64);
                 ("pH", float64); ("OD", float64)];
     rows := [[("Data", Time 0); ("Estação", Str "A");
               ("x", Num 1); ("y", Num 2); ("pH", Num 7); ("OD", Num 5)];
              [("Data", Time 86400000000000); ("Estação", Str "B");
               ("x", Num 3); ("y", Num 4); ("pH", Num 8); ("OD", Num 4)]] |}.

(** A session that picks the whole range, every station, and the first and
    second numeric columns as axes.  The text of a TypeError is a sample:
    that of pandas depends on its version and quotes the cells. *)
Definition default_session : session :=
  {| parse_date := fun c => match c with Time t => Some t | _ => None end;
     type_error := fun _ => "Could not convert to numeric";
     date_input := fun lo hi =>
       match lo, hi with
       | Some a, Some b => inr [a; b]
       | _, _ => inl (OtherError "NaTType does not support timetuple")
       end;
     multiselect := fun options => options;
     bar_index := 0;
     x_index := 0;
     y_index := 1 |}.

Definition two_station_table : list row := [obs 1 "A"; obs 5 "B"].

(* ------------------------------------------------------------------ *)
(** ** Parts of the page and of the script, named *)
(* ------------------------------------------------------------------ *)

(** Lines 8-9: what every run shows first. *)
Definition banner : list element :=
  [st_title "Análise de Qualidade da Água"; st_sidebar_header "Configurações"].

(** Lines 18-22: what every parsed table shows first. *)
Definition preview (df : DataFrame) : list element :=
  [st_success "Dados carregados com sucesso!";
   st_subheader "Prévia dos Dados";
   st_write_head (firstn 5 (rows df))].

(** Lines 152-153: the handler of the [try]. *)
Definition handler (e : exn) : M unit := emit (st_error (msg_load_error e)).

(** Lines 90-151: the two chart sections, one after the other. *)
Definition charts (ss : session) (df : DataFrame) : M unit :=
  bind (bar_section ss df) (fun _ => scatter_section ss df).

(** The frame the chart sections receive: the parsed columns with the rows
    left by the period [p0, p1] and the stations selected among the options
    of line 46. *)
Definition filtered_frame (ss : session) (df : DataFrame) (p0 p1 : Z) : DataFrame :=
  let parsed := parse_Data ss df in
  let sel := multiselect ss (estacoes p0 p1 (rows parsed)) in
  with_rows parsed (df_filtrado p0 p1 sel (rows parsed)).

(** A run with [out] emitted before it. *)
Definition prepend {A : Type} (out : list element) (m : M A) : M A :=
  ((out ++ fst m)%list, snd m).

(** Lines 32-33: the dates of the earliest and of the latest timestamp. *)
Definition min_data (ss : session) (df : DataFrame) : option Z :=
  date_of (series_min (column "Data" (rows (parse_Data ss df)))).

Definition max_data (ss : session) (df : DataFrame) : option Z :=
  date_of (series_max (column "Data" (rows (parse_Data ss df)))).

Definition is_error (el : element) : bool :=
  match el with st_error _ => true | _ => false end.

Definition is_scatter_chart (el : element) : bool :=
  match el with st_scatter_chart _ _ _ => true | _ => false end.

(** Columns that can never be a chart parameter. *)
Definition reserved_columns : list string := ["Data"; "Ano"; "x"; "y"].

(** A timestamp at midnight. *)
Definition at_midnight (t : Z) : Prop := t mod ns_per_day = 0.

(** A session whose date widget holds only the first date of a range
    being picked. *)
Definition picking_session : session :=
  {| parse_date := parse_date default_session;
     type_error := type_error default_session;
     date_input := fun lo hi =>
       match lo with
       | Some a => inr [a]
       | None => inl (OtherError "NaTType does not support timetuple")
       end;
     multiselect := fun options => options;
     bar_index := 0;
     x_index := 0;
     y_index := 1 |}.

(** Sheets with dates, with and without the columns the map needs. *)
Definition dated_sheet (names : list (string * dtype)) : DataFrame :=
  {| columns := ("Data", datetime64) :: names;
     rows := [[("Data", Time (to_datetime 1)); ("Estação", Str "A");
               ("x", Num 1); ("y", Num 2); ("Ano", Num 2021); ("pH", Num 7)];
              [("Data", Time (to_datetime 2)); ("Estação", Str "B");
               ("x", Num 3); ("y", Num 4); ("Ano", Num 2022); ("pH", Num 8)]] |}.

(** A sheet whose latitudes were typed as text. *)
Definition text_latitude_sheet : DataFrame :=
  {| columns := [("Data", datetime64); ("Estação", object);
                 ("x", float64); ("y", object); ("pH", float64)];
     rows := [[("Data", Time (to_datetime 1)); ("Estação", Str "A");
               ("x", Num 1); ("y", Str "2 S"); ("pH", Num 7)];
              [("Data", Time (to_datetime 2)); ("Estação", Str "B");
               ("x", Num 3); ("y", Str "4 S"); ("pH", Num 8)]] |}.

Definition one_parameter_sheet : DataFrame :=
  dated_sheet [("Estação", object); ("x", float64); ("y", float64); ("pH", float64)].

Definition year_only_sheet : DataFrame :=
  dated_sheet [("Estação", object); ("x", float64); ("y", float64); ("Ano", int64)].

(** More sample tables. *)
Definition stamped (t : Z) (estacao : cell) : row :=
  [("Data", Time t); ("Estação", estacao)].

(** A reading at noon of day 3. *)
Definition noon_reading : row :=
  stamped (3 * 86400000000000 + 43200000000000) (Str "A").

(** Three readings, the last one at noon of day 3. *)
Definition noon_table : list row :=
  [stamped (to_datetime 1) (Str "A");
   stamped (to_datetime 2) (Str "B");
   stamped (to_datetime 3 + 43200000000000) (Str "A")].

(** The rows of [three_year_rows] in another order. *)
Definition three_year_rows_reordered : list row :=
  [yearly 2022 10; yearly 2021 4; yearly 2021 6].

(** Readings of 0.1, 0.2 and 0.9 in one year, and the same in reverse. *)
Definition rising_decimal_rows : list row :=
  [decimal 2021 1; decimal 2021 2; decimal 2021 9].

Definition falling_decimal_rows : list row :=
  [decimal 2021 9; decimal 2021 2; decimal 2021 1].

(* ================================================================== *)
(** * Properties *)
(* ================================================================== *)

(* ------------------------------------------------------------------ *)
(** ** Lists *)
(* ------------------------------------------------------------------ *)

Open Scope list_scope.

Section ListFacts.
Context {A : Type}.
Variable f g : A -> bool.

Lemma filter_twice (l : list A) :
  filter g (filter f l) = filter (fun a => f a && g a) l.
Proof.
  induction l as [| a l IH]; simpl; [reflexivity |].
  destruct (f a); simpl; [| exact IH].
  destruct (g a); rewrite IH; reflexivity.
Qed.

Lemma filter_idem (l : list A) : filter f (filter f l) = filter f l.
Proof.
  induction l as [| a l IH]; simpl; [reflexivity |].
  destruct (f a) eqn:E; simpl; [rewrite E, IH; reflexivity | exact IH].
Qed.

Lemma filter_subseq (l : list A) : subseq (filter f l) l.
Proof.
  induction l as [| a l IH]; simpl.
  - constructor.
  - destruct (f a); constructor; exact IH.
Qed.

Lemma subseq_In (l1 l2 : list A) : subseq l1 l2 -> incl l1 l2.
Proof.
  induction 1 as [| x l1 l2 _ IH | x l1 l2 _ IH]; intros a Ha.
  - exact Ha.
  - right. apply IH, Ha.
  - destruct Ha as [-> | Ha]; [left; reflexivity | right; apply IH, Ha].
Qed.
End ListFacts.

(* ------------------------------------------------------------------ *)
(** ** Cells *)
(* ------------------------------------------------------------------ *)

Lemma cell_eqb_refl (c : cell) : cell_eqb c c = true.
Proof.
  destruct c; simpl; trivial.
  - apply Qeq_bool_iff. reflexivity.
  - apply String.eqb_refl.
  - apply Z.eqb_refl.
Qed.

Lemma cell_eqb_sym (a b : cell) : cell_eqb a b = cell_eqb b a.
Proof.
  destruct a, b; simpl; trivial.
  - destruct (Qeq_bool q q0) eqn:E1, (Qeq_bool q0 q) eqn:E2; trivial.
    + apply Qeq_bool_iff in E1. symmetry in E1. apply Qeq_bool_iff in E1. congruence.
    + apply Qeq_bool_iff in E2. symmetry in E2. apply Qeq_bool_iff in E2. congruence.
  - apply String.eqb_sym.
  - apply Z.eqb_sym.
Qed.

Lemma cell_eqb_trans (a b c : cell) :
  cell_eqb a b = true -> cell_eqb b c = true -> cell_eqb a c = true.
Proof.
  destruct a, b, c; simpl; try discriminate; trivial.
  - rewrite !Qeq_bool_iff. intros H1 H2. rewrite H1. exact H2.
  - rewrite !String.eqb_eq. congruence.
  - rewrite !Z.eqb_eq. congruence.
Qed.

Lemma isin_spec (c : cell) (l : list cell) :
  isin c l = true <-> exists d, In d l /\ cell_eqb c d = true.
Proof. unfold isin. apply existsb_exists. Qed.

Lemma isin_eqb (a b : cell) (l : list cell) :
  cell_eqb a b = true -> isin a l = isin b l.
Proof.
  intros H. destruct (isin a l) eqn:Ea, (isin b l) eqn:Eb; trivial.
  - apply isin_spec in Ea. destruct Ea as [d [Hd Had]].
    assert (isin b l = true) as X; [| congruence].
    apply isin_spec. exists d. split; trivial.
    apply cell_eqb_trans with a; trivial. rewrite cell_eqb_sym. exact H.
  - apply isin_spec in Eb. destruct Eb as [d [Hd Hbd]].
    assert (isin a l = true) as X; [| congruence].
    apply isin_spec. exists d. split; trivial.
    apply cell_eqb_trans with b; trivial.
Qed.

Lemma isin_unique_from (c : cell) (l seen : list cell) :
  isin c (unique_from seen l) = true
  <-> isin c l = true /\ isin c seen = false.
Proof.
  revert seen. induction l as [| a l IH]; intros seen; simpl.
  - split; [discriminate | intros [H _]; discriminate].
  - destruct (isin a seen) eqn:Ea.
    + rewrite IH. destruct (cell_eqb c a) eqn:Eca; simpl.
      * rewrite (isin_eqb c a seen Eca), Ea.
        split; intros [_ H]; discriminate.
      * tauto.
    + simpl. destruct (cell_eqb c a) eqn:Eca; simpl.
      * rewrite (isin_eqb c a seen Eca), Ea. tauto.
      * rewrite IH. simpl. rewrite Eca. simpl. tauto.
  Qed.

Lemma isin_unique (c : cell) (l : list cell) :
  isin c (unique l) = true <-> isin c l = true.
Proof.
  unfold unique. rewrite isin_unique_from. simpl. tauto.
Qed.

Lemma unique_from_incl (l seen : list cell) : incl (unique_from seen l) l.
Proof.
  revert seen. induction l as [| a l IH]; intros seen; simpl.
  - apply incl_refl.
  - destruct (isin a seen).
    + apply incl_tl, IH.
    + apply incl_cons; [left; reflexivity | apply incl_tl, IH].
Qed.

Lemma unique_from_distinct (l seen : list cell) : distinct (unique_from seen l).
Proof.
  revert seen. induction l as [| a l IH]; intros seen; simpl.
  - constructor.
  - destruct (isin a seen) eqn:Ea; [apply IH |].
    constructor; [| apply IH].
    destruct (isin a (unique_from (a :: seen) l)) eqn:E; trivial.
    apply isin_unique_from in E. destruct E as [_ E].
    simpl in E. rewrite cell_eqb_refl in E. discriminate.
Qed.

(* ------------------------------------------------------------------ *)
(** ** Filter stage *)
(* ------------------------------------------------------------------ *)

Lemma date_mask_spec (s e : Z) (r : row) :
  date_mask s e r = true
  <-> exists t, get "Data" r = Time t /\ to_datetime s <= t <= to_datetime e.
Proof.
  unfold date_mask. destruct (get "Data" r) as [q | str | t |].
  - split; [discriminate | intros [t [H _]]; discriminate].
  - split; [discriminate | intros [t [H _]]; discriminate].
  - rewrite andb_true_iff, !Z.leb_le. split.
    + intros H. exists t. split; [reflexivity | exact H].
    + intros [t' [H Ht]]. injection H as ->. exact Ht.
  - split; [discriminate | intros [t [H _]]; discriminate].
Qed.

Lemma df_filtrado_filter (s e : Z) (sel : list cell) (rs : list row) :
  df_filtrado s e sel rs
  = filter (fun r => date_mask s e r && isin (get "Estação" r) sel) rs.
Proof. unfold df_filtrado, filter_estacao, filter_periodo. apply filter_twice. Qed.

Lemma cell_eqb_same (a b : cell) : cell_eqb a b = true <-> same_value a b.
Proof.
  destruct a, b; simpl; try (split; [discriminate | contradiction]).
  - apply Qeq_bool_iff.
  - apply String.eqb_eq.
  - apply Z.eqb_eq.
  - tauto.
Qed.

Lemma isin_selected (sel : list cell) (r : row) :
  isin (get "Estação" r) sel = true <-> station_selected sel r.
Proof.
  rewrite isin_spec. unfold station_selected.
  split; intros [c [Hc H]]; exists c; (split; [exact Hc | apply cell_eqb_same, H]).
Qed.

Lemma date_mask_stamped (s e : Z) (r : row) :
  date_mask s e r = true <-> stamped_within s e r.
Proof. apply date_mask_spec. Qed.

Lemma keep_spec (s e : Z) (sel : list cell) (r : row) :
  date_mask s e r && isin (get "Estação" r) sel = true
  <-> stamped_within s e r /\ station_selected sel r.
Proof. rewrite andb_true_iff, date_mask_stamped, isin_selected. reflexivity. Qed.

(** Between the two midnights, in terms of the date of the row: its date
    lies in [s, e], and on the last day its time of day is 00:00. *)
Lemma stamped_within_date (s e : Z) (r : row) :
  stamped_within s e r
  <-> exists t, get "Data" r = Time t
                /\ s <= t / 86400000000000
                /\ (t / 86400000000000 < e
                    \/ (t / 86400000000000 = e /\ t mod 86400000000000 = 0)).
Proof.
  unfold stamped_within.
  split; intros [t [Ht H]]; exists t; (split; [exact Ht |]);
    pose proof (Z.div_mod t 86400000000000 ltac:(discriminate)) as E;
    pose proof (Z.mod_pos_bound t 86400000000000 eq_refl) as Hm;
    lia.
Qed.

(** C1.  The claim asks for every row whose date lies in the period.  The
    reading at noon of day 3 has its date in the period [1, 3] and its
    station selected, and the Filter Stage leaves it out: line 43 compares
    its timestamp with midnight of the last day, while the lower bound on
    the same line keeps every reading of the first day. *)
Lemma filter_stage_date_counterexample :
  In noon_reading noon_table
  /\ dated_within 1 3 noon_reading
  /\ station_selected [Str "A"; Str "B"] noon_reading
  /\ ~ In noon_reading (df_filtrado 1 3 [Str "A"; Str "B"] noon_table)
  /\ ~ (forall r, In r (df_filtrado 1 3 [Str "A"; Str "B"] noon_table)
                  <-> In r noon_table /\ dated_within 1 3 r
                      /\ station_selected [Str "A"; Str "B"] r).
Proof.
  assert (In noon_reading noon_table) as Hin by (simpl; tauto).
  assert (dated_within 1 3 noon_reading) as Hd.
  { exists (3 * 86400000000000 + 43200000000000). split; [reflexivity |].
    split; [apply Z.leb_le | apply Z.leb_le]; reflexivity. }
  assert (station_selected [Str "A"; Str "B"] noon_reading) as Hs.
  { exists (Str "A"). split; [left; reflexivity | reflexivity]. }
  assert (~ In noon_reading (df_filtrado 1 3 [Str "A"; Str "B"] noon_table)) as Hout.
  { simpl. intros [H | [H | []]]; discriminate H. }
  split; [exact Hin |]. split; [exact Hd |]. split; [exact Hs |].
  split; [exact Hout |].
  intros H. apply Hout, H. tauto.
Qed.

(** X21.  For every table, period and station set, the Filter Stage
    returns exactly the rows whose timestamp lies between midnight of the
    first and midnight of the last day of the period, both included, and
    whose station is in the set.  In terms of dates: the date of a kept row
    lies in the period, and a row dated on the last day is kept only when
    its time of day is 00:00.  The output is a subsequence of the input, the
    stage works row by row (so order and multiplicity are those of the
    input, and each kept row is the input row itself), and a row whose date
    did not parse is left out. *)
Theorem filter_stage_exact (s e : Z) (sel : list cell) (rs : list row) :
  (forall r, In r (df_filtrado s e sel rs)
             <-> In r rs /\ stamped_within s e r /\ station_selected sel r)
  /\ (forall r, stamped_within s e r
                <-> exists t, get "Data" r = Time t
                              /\ s <= t / 86400000000000
                              /\ (t / 86400000000000 < e
                                  \/ (t / 86400000000000 = e
                                      /\ t mod 86400000000000 = 0)))
  /\ subseq (df_filtrado s e sel rs) rs
  /\ (forall l1 l2, rs = l1 ++ l2 ->
        df_filtrado s e sel rs = df_filtrado s e sel l1 ++ df_filtrado s e sel l2)
  /\ (forall r, stamped_within s e r -> station_selected sel r ->
                df_filtrado s e sel [r] = [r])
  /\ (forall r, ~ (stamped_within s e r /\ station_selected sel r) ->
                df_filtrado s e sel [r] = [])
  /\ (forall r, get "Data" r = NaN -> ~ In r (df_filtrado s e sel rs)).
Proof.
  split; [| split; [| split; [| split; [| split; [| split]]]]].
  - intros r. rewrite df_filtrado_filter, filter_In, keep_spec. reflexivity.
  - intros r. apply stamped_within_date.
  - rewrite df_filtrado_filter. apply filter_subseq.
  - intros l1 l2 ->. rewrite !df_filtrado_filter. apply filter_app.
  - intros r Hp Hsel. rewrite df_filtrado_filter. simpl.
    rewrite (proj2 (keep_spec s e sel r) (conj Hp Hsel)). reflexivity.
  - intros r Hsel. rewrite df_filtrado_filter. simpl.
    destruct (date_mask s e r && isin (get "Estação" r) sel) eqn:E; trivial.
    apply keep_spec in E. contradiction.
  - intros r Hnat Hin. rewrite df_filtrado_filter in Hin.
    apply filter_In in Hin. destruct Hin as [_ Hk].
    apply keep_spec in Hk. destruct Hk as [[t [Ht _]] _]. congruence.
Qed.

(** C7.  Filtering is idempotent: the Filter Stage applied to its own output
    with the same period and station set returns that output. *)
Theorem filter_stage_idempotent (s e : Z) (sel : list cell) (rs : list row) :
  df_filtrado s e sel (df_filtrado s e sel rs) = df_filtrado s e sel rs.
Proof.
  rewrite (df_filtrado_filter s e sel (df_filtrado s e sel rs)).
  rewrite df_filtrado_filter. apply filter_idem.
Qed.

Lemma distinct_pairs (l : list cell) :
  distinct l -> ForallOrdPairs (fun a b => ~ same_value a b) l.
Proof.
  induction 1 as [| c l Hc _ IH]; constructor; [| exact IH].
  apply Forall_forall. intros d Hd Hs.
  assert (isin c l = true) as X; [| congruence].
  apply isin_spec. exists d. split; [exact Hd | apply cell_eqb_same, Hs].
Qed.

Lemma estacoes_spec (s e : Z) (rs : list row) (c : cell) :
  (exists d, In d (estacoes s e rs) /\ same_value c d)
  <-> exists r, In r rs /\ stamped_within s e r
                /\ same_value c (get "Estação" r).
Proof.
  assert ((exists d, In d (estacoes s e rs) /\ same_value c d)
          <-> isin c (estacoes s e rs) = true) as ->.
  { rewrite isin_spec. split; intros [d [Hd H]]; exists d;
      (split; [exact Hd | apply cell_eqb_same, H]). }
  unfold estacoes. rewrite isin_unique, isin_spec.
  unfold column, filter_periodo. split.
  - intros [d [Hd Hcd]]. apply in_map_iff in Hd.
    destruct Hd as [r [<- Hr]]. apply filter_In in Hr.
    exists r. rewrite <- date_mask_stamped, <- cell_eqb_same. tauto.
  - intros [r [Hin [Hm Hc]]]. exists (get "Estação" r).
    split; [| apply cell_eqb_same, Hc].
    apply in_map, filter_In. rewrite date_mask_stamped. tauto.
Qed.

(** C8, as stated, fails: in a table with station A on day 1 and station B
    on day 5, the period [1, 2] (inside the table's range) offers station A
    only, although B is a station of the loaded table; widening the period
    changes the options. *)
Lemma station_options_counterexample :
  estacoes 1 2 two_station_table = [Str "A"]
  /\ unique (column "Estação" two_station_table) = [Str "A"; Str "B"]
  /\ ~ (forall c, isin c (estacoes 1 2 two_station_table) = true
                  <-> isin c (unique (column "Estação" two_station_table)) = true)
  /\ estacoes 1 5 two_station_table <> estacoes 1 2 two_station_table.
Proof.
  split; [reflexivity |]. split; [reflexivity |]. split.
  - intros H. specialize (H (Str "B")). destruct H as [_ H].
    specialize (H eq_refl). discriminate H.
  - discriminate.
Qed.

(** C8, amended.  The stations offered (and selected by default) are the
    [Estação] values of the rows that the date filter keeps for the selected
    period: a station is offered exactly when such a row holds it.  Every
    row dated in the period before its last day is such a row, and every
    such row is dated in the period, so a station read only outside the
    period is not offered.  Each station is offered once, and each is a
    station of the loaded table. *)
Theorem station_options_of_period (s e : Z) (rs : list row) :
  (forall c, (exists d, In d (estacoes s e rs) /\ same_value c d)
             <-> exists r, In r (filter_periodo s e rs)
                           /\ same_value c (get "Estação" r))
  /\ (forall r t, In r rs -> get "Data" r = Time t ->
                  s <= t / 86400000000000 < e ->
                  exists d, In d (estacoes s e rs)
                            /\ same_value (get "Estação" r) d)
  /\ (forall c, (exists d, In d (estacoes s e rs) /\ same_value c d) ->
                exists r t, In r rs /\ get "Data" r = Time t
                            /\ s <= t / 86400000000000 <= e
                            /\ same_value c (get "Estação" r))
  /\ ForallOrdPairs (fun a b => ~ same_value a b) (estacoes s e rs)
  /\ (forall c, In c (estacoes s e rs) ->
                exists r, In r rs /\ same_value c (get "Estação" r)).
Proof.
  assert (forall r, In r (filter_periodo s e rs)
                    <-> In r rs /\ stamped_within s e r) as Hkept.
  { intros r. unfold filter_periodo. rewrite filter_In, date_mask_stamped.
    reflexivity. }
  assert (forall c, same_value c c) as Hrefl
    by (intros c; apply cell_eqb_same, cell_eqb_refl).
  split; [| split; [| split; [| split]]].
  - intros c. rewrite estacoes_spec. split.
    + intros [r [Hin [Hp Hc]]]. exists r. split; [apply Hkept; tauto | exact Hc].
    + intros [r [Hin Hc]]. apply Hkept in Hin. exists r. tauto.
  - intros r t Hin Ht Hd. apply estacoes_spec. exists r.
    split; [exact Hin |]. split; [| apply Hrefl].
    apply stamped_within_date. exists t. split; [exact Ht |]. lia.
  - intros c Hc. apply estacoes_spec in Hc. destruct Hc as [r [Hin [Hp Hc]]].
    apply stamped_within_date in Hp. destruct Hp as [t [Ht Hd]].
    exists r, t. split; [exact Hin |]. split; [exact Ht |]. split; [lia | exact Hc].
  - apply distinct_pairs, unique_from_distinct.
  - intros c Hc.
    destruct (proj1 (estacoes_spec s e rs c)) as [r [Hin [_ Hr]]].
    + exists c. split; [exact Hc | apply Hrefl].
    + exists r. tauto.
Qed.

(* ------------------------------------------------------------------ *)
(** ** Aggregator *)
(* ------------------------------------------------------------------ *)

(** *** The order of the year labels *)

Lemma label_compare_antisym (a b : cell) :
  label_compare b a = CompOpp (label_compare a b).
Proof.
  destruct a, b; simpl; trivial.
  - symmetry. apply Qcompare_antisym.
  - apply String.compare_antisym.
  - apply Z.compare_antisym.
Qed.

Lemma label_compare_eq (a b : cell) : label_compare a b = Eq <-> same_value a b.
Proof.
  destruct a, b; simpl; try (split; [discriminate | contradiction]).
  - symmetry. apply Qeq_alt.
  - apply String_as_OT.cmp_eq.
  - apply Z.compare_eq_iff.
  - tauto.
Qed.

Lemma label_compare_lt (a b : cell) :
  b <> NaN -> label_compare a b = Lt <-> label_lt a b.
Proof.
  intros Hb. destruct a, b; simpl; try contradiction;
    try (split; [discriminate | contradiction]);
    try (split; [trivial | reflexivity]).
  - symmetry. apply Qlt_alt.
  - apply String_as_OT.cmp_lt.
  - apply Z.compare_lt_iff.
Qed.

Lemma label_compare_gt (a b : cell) :
  a <> NaN -> label_compare a b = Gt -> label_lt b a.
Proof.
  intros Ha H. apply label_compare_lt; [exact Ha |].
  rewrite label_compare_antisym, H. reflexivity.
Qed.

Lemma label_lt_trans (a b c : cell) : label_lt a b -> label_lt b c -> label_lt a c.
Proof.
  destruct a, b, c; simpl; try contradiction; trivial.
  - apply Qlt_trans.
  - apply String_as_OT.lt_trans.
  - apply Z.lt_trans.
Qed.

Lemma label_lt_differ (a b : cell) : label_lt a b -> ~ same_value a b.
Proof.
  destruct a, b; simpl; try contradiction; intros H E; try contradiction.
  - rewrite E in H. apply (Qlt_irrefl _ H).
  - subst. apply (String_as_OT.lt_not_eq _ _ H). reflexivity.
  - lia.
Qed.

Lemma notna_spec (c : cell) : notna c = true <-> c <> NaN.
Proof. destruct c; simpl; split; congruence. Qed.

(** *** The keys *)

Lemma insert_key_hd (h k : cell) (l : list cell) :
  HdRel label_lt h l -> label_lt h k -> HdRel label_lt h (insert_key k l).
Proof.
  intros Hl Hk. destruct l as [| a l]; simpl.
  - constructor. exact Hk.
  - destruct (label_compare k a); [exact Hl | constructor; exact Hk |].
    inversion Hl; subst. constructor. assumption.
Qed.

Lemma insert_key_sorted (k : cell) (l : list cell) :
  k <> NaN -> Forall (fun c => c <> NaN) l ->
  Sorted label_lt l -> Sorted label_lt (insert_key k l).
Proof.
  intros Hk. induction l as [| h t IH]; intros Hna Hs; simpl.
  - repeat constructor.
  - inversion Hna as [| ? ? Hh Ht]; subst.
    destruct (label_compare k h) eqn:E.
    + exact Hs.
    + constructor; [exact Hs |]. constructor. apply label_compare_lt; assumption.
    + inversion Hs; subst. constructor; [apply IH; assumption |].
      apply insert_key_hd; [assumption |]. apply label_compare_gt; assumption.
Qed.

Lemma insert_key_In (x k : cell) (l : list cell) :
  In x (insert_key k l) -> x = k \/ In x l.
Proof.
  induction l as [| h t IH]; simpl.
  - intros [<- | []]. left. reflexivity.
  - destruct (label_compare k h); simpl.
    + intros H. right. exact H.
    + intros [<- | H]; [left; reflexivity | right; exact H].
    + intros [<- | H]; [right; left; reflexivity |].
      destruct (IH H) as [-> | H']; [left; reflexivity | right; right; exact H'].
Qed.

Lemma insert_key_keeps (x k : cell) (l : list cell) :
  In x l -> In x (insert_key k l).
Proof.
  induction l as [| h t IH]; simpl; [intros [] |].
  destruct (label_compare k h); simpl; intros [<- | H]; auto.
Qed.

Lemma insert_key_has (k : cell) (l : list cell) :
  exists x, In x (insert_key k l) /\ same_value k x.
Proof.
  induction l as [| h t IH]; simpl.
  - exists k. split; [left; reflexivity |]. apply label_compare_eq.
    destruct k; simpl; trivial.
    + apply Qeq_alt. reflexivity.
    + apply String_as_OT.cmp_eq. reflexivity.
    + apply Z.compare_refl.
  - destruct (label_compare k h) eqn:E.
    + exists h. split; [left; reflexivity | apply label_compare_eq, E].
    + exists k. split; [left; reflexivity |].
      apply cell_eqb_same, cell_eqb_refl.
    + destruct IH as [x [Hx Hs]]. exists x. split; [right; exact Hx | exact Hs].
Qed.

Lemma group_keys_notna (cs : list cell) : Forall (fun c => c <> NaN) (group_keys cs).
Proof.
  induction cs as [| c cs IH]; simpl; [constructor |].
  destruct (notna c) eqn:E; [| exact IH].
  apply Forall_forall. intros x Hx. apply insert_key_In in Hx.
  destruct Hx as [-> | Hx]; [apply notna_spec, E |].
  rewrite Forall_forall in IH. apply IH, Hx.
Qed.

Lemma group_keys_sorted (cs : list cell) : Sorted label_lt (group_keys cs).
Proof.
  induction cs as [| c cs IH]; simpl; [constructor |].
  destruct (notna c) eqn:E; [| exact IH].
  apply insert_key_sorted; [apply notna_spec, E | apply group_keys_notna | exact IH].
Qed.

Lemma group_keys_In (k : cell) (cs : list cell) :
  In k (group_keys cs) -> In k cs /\ k <> NaN.
Proof.
  intros H. split.
  - induction cs as [| c cs IH]; simpl in *; [contradiction |].
    destruct (notna c); [| right; apply IH, H].
    apply insert_key_In in H. destruct H as [-> | H]; [left; reflexivity |].
    right. apply IH, H.
  - pose proof (group_keys_notna cs) as Hna. rewrite Forall_forall in Hna.
    apply Hna, H.
Qed.

Lemma same_value_trans (a b c : cell) :
  same_value a b -> same_value b c -> same_value a c.
Proof.
  rewrite <- !cell_eqb_same. apply cell_eqb_trans.
Qed.

Lemma same_value_sym (a b : cell) : same_value a b -> same_value b a.
Proof. rewrite <- !cell_eqb_same, (cell_eqb_sym b a). trivial. Qed.

Lemma group_keys_has (c : cell) (cs : list cell) :
  In c cs -> c <> NaN -> exists k, In k (group_keys cs) /\ same_value c k.
Proof.
  intros Hin Hna. induction cs as [| a cs IH]; simpl in *; [contradiction |].
  destruct Hin as [-> | Hin].
  - rewrite (proj2 (notna_spec c) Hna). apply insert_key_has.
  - destruct (IH Hin) as [k [Hk Hs]]. exists k. split; [| exact Hs].
    destruct (notna a); [apply insert_key_keeps, Hk | exact Hk].
Qed.



(** *** When the aggregator raises *)


Lemma unsortable_spec (rs : list row) :
  unsortable (column "Ano" rs) = true
  <-> exists r1 r2 q t, In r1 rs /\ In r2 rs
                        /\ get "Ano" r1 = Num q /\ get "Ano" r2 = Time t.
Proof.
  unfold unsortable, column. rewrite andb_true_iff, !existsb_exists. split.
  - intros [[c1 [H1 E1]] [c2 [H2 E2]]].
    apply in_map_iff in H1. destruct H1 as [r1 [<- Hr1]].
    apply in_map_iff in H2. destruct H2 as [r2 [<- Hr2]].
    destruct (get "Ano" r1) as [q | | |] eqn:G1; try discriminate.
    destruct (get "Ano" r2) as [| | t |] eqn:G2; try discriminate.
    exists r1, r2, q, t. tauto.
  - intros [r1 [r2 [q [t [Hr1 [Hr2 [G1 G2]]]]]]]. split.
    + exists (get "Ano" r1). split; [apply in_map, Hr1 | rewrite G1; reflexivity].
    + exists (get "Ano" r2). split; [apply in_map, Hr2 | rewrite G2; reflexivity].
Qed.



Lemma df_barras_inr (ss : session) (p : string) (rs : list row)
  (out : list (cell * cell)) :
  df_barras ss p rs = inr out ->
  out = map (fun k => (k, mean (column p (group "Ano" k rs))))
            (group_keys (column "Ano" rs))
  /\ comparable_years rs.
Proof.
  unfold df_barras, groupby_mean.
  destruct (unsortable (column "Ano" rs)) eqn:E; [discriminate |].
  destruct (numeric_cells _); [| discriminate].
  simpl. intros H. injection H as <-. split; [reflexivity |].
  intros H. apply unsortable_spec in H. congruence.
Qed.



(** *** The float64 mean *)

Lemma Qlen_pos {A : Type} (a : A) (l : list A) : (0 < Qlen (a :: l))%Q.
Proof.
  unfold Qlen, Qlt. simpl. lia.
Qed.

Lemma Qred_inject_Z (z : Z) : Qred (inject_Z z) = inject_Z z.
Proof.
  unfold Qred, inject_Z.
  pose proof (Z.ggcd_gcd z 1) as Hg.
  pose proof (Z.ggcd_correct_divisors z 1) as Hd.
  destruct (Z.ggcd z 1) as [g [aa bb]]. simpl in Hg, Hd.
  rewrite Z.gcd_1_r in Hg. subst g. destruct Hd as [Ha Hb].
  assert (aa = z) as -> by lia. assert (bb = 1) as -> by lia. reflexivity.
Qed.

(** Rounding sees the value of a rational, not the fraction that holds it. *)
Lemma round64_Qeq (q q' : Q) : (q == q')%Q -> round64 q = round64 q'.
Proof. intros H. unfold round64. rewrite (Qred_complete q q' H). reflexivity. Qed.

(** Whole numbers below 2^53 are float64 numbers. *)
Lemma round64_inject_Z (z : Z) :
  Z.abs z < 2 ^ 53 -> round64 (inject_Z z) = inject_Z z.
Proof.
  intros Hz. unfold round64. rewrite Qred_inject_Z. cbn [Qnum Qden inject_Z].
  destruct (Z.eqb_spec (Z.abs z) 0) as [H0 | H0].
  { assert (z = 0) as -> by lia. reflexivity. }
  assert (0 < Z.abs z) as Hpos by lia.
  change (Z.log2 1) with 0. rewrite Z.sub_0_r.
  pose proof (Z.log2_nonneg (Z.abs z)) as Hl0.
  pose proof (proj1 (Z.log2_lt_pow2 (Z.abs z) 53 Hpos) Hz) as Hl1.
  pose proof (Z.log2_spec (Z.abs z) Hpos) as [Hlo _].
  set (l := Z.log2 (Z.abs z)) in *.
  cbv zeta.
  destruct (Z.leb_spec 0 l) as [_ | ?]; [| lia].
  destruct (Z.leb_spec (1 * 2 ^ l) (Z.abs z)) as [_ | ?]; [| lia].
  rewrite (Z.max_l (l - 52) (-1074)) by lia.
  transitivity (Qred (inject_Z z)); [| apply Qred_inject_Z]. apply Qred_complete.
  destruct (Z.leb_spec 0 (l - 52)) as [He | He].
  - assert (l = 52) as -> by lia. change (2 ^ (52 - 52)) with 1.
    change (1 * 1) with 1. rewrite Z.div_1_r, Z.mod_1_r. cbn [Z.ltb Z.eqb orb andb Z.mul].
    change (1 <? 0) with false. change (1 =? 0) with false. cbn [orb andb].
    unfold Qeq, inject_Z. cbn [Qnum Qden]. pose proof (Z.abs_sgn z). lia.
  - rewrite Z.div_1_r, Z.mod_1_r. cbn [Z.ltb Z.eqb orb andb Z.mul].
    change (1 <? 0) with false. change (1 =? 0) with false. cbn [orb andb].
    unfold Qeq, inject_Z. cbn [Qnum Qden].
    assert (0 < 2 ^ (- (l - 52))) as Hp by (apply Z.pow_pos_nonneg; lia).
    rewrite Z2Pos.id by exact Hp. pose proof (Z.abs_sgn z). nia.
Qed.

Lemma round64_whole (v : Q) (z : Z) :
  (v == inject_Z z)%Q -> Z.abs z < 2 ^ 53 -> round64 v = inject_Z z.
Proof.
  intros Hv Hz. rewrite (round64_Qeq v (inject_Z z) Hv). apply round64_inject_Z, Hz.
Qed.

Lemma Zabs_sum_nonneg (zs : list Z) : 0 <= Zabs_sum zs.
Proof. induction zs as [| z zs IH]; simpl; lia. Qed.

(** On whole numbers whose sums stay below 2^53 the compensated sum is the
    sum: no operation rounds, and the compensation stays zero. *)
Lemma kahan_exact (vs : list Q) (zs : list Z) :
  Forall2 (fun v z => v = inject_Z z) vs zs ->
  forall S, Z.abs S + Zabs_sum zs < 2 ^ 53 ->
            kahan (inject_Z S) 0 vs = inject_Z (S + Zsum zs).
Proof.
  induction 1 as [| v z vs zs Hv _ IH]; intros S Hb; simpl.
  - rewrite Z.add_0_r. reflexivity.
  - subst v. simpl in Hb. pose proof (Zabs_sum_nonneg zs) as H0.
    assert (fsub (inject_Z z) 0 = inject_Z z) as Ey.
    { unfold fsub. apply round64_whole; [| lia].
      unfold Qminus. rewrite Qplus_0_r. reflexivity. }
    rewrite Ey.
    assert (fadd (inject_Z S) (inject_Z z) = inject_Z (S + z)) as Et.
    { unfold fadd. apply round64_whole; [| lia].
      rewrite inject_Z_plus. reflexivity. }
    rewrite Et.
    assert (fsub (fsub (inject_Z (S + z)) (inject_Z S)) (inject_Z z) = 0%Q) as Ec.
    { assert (fsub (inject_Z (S + z)) (inject_Z S) = inject_Z z) as ->.
      { unfold fsub. apply round64_whole; [| lia].
        rewrite inject_Z_plus. ring. }
      unfold fsub. apply (round64_whole _ 0); [| reflexivity]. ring. }
    rewrite Ec, (IH (S + z)) by lia.
    f_equal. lia.
Qed.

Lemma Qsum_whole (vs : list Q) (zs : list Z) :
  Forall2 (fun v z => (v == inject_Z z)%Q) vs zs -> (Qsum vs == inject_Z (Zsum zs))%Q.
Proof.
  induction 1 as [| v z vs zs Hv _ IH]; simpl; [reflexivity |].
  rewrite inject_Z_plus, Hv, IH. reflexivity.
Qed.

Lemma round64_map_whole (vs : list Q) (zs : list Z) :
  Forall2 (fun v z => (v == inject_Z z)%Q) vs zs -> Zabs_sum zs < 2 ^ 53 ->
  Forall2 (fun v z => v = inject_Z z) (map round64 vs) zs.
Proof.
  induction 1 as [| v z vs zs Hv _ IH]; intros Hb; simpl; constructor.
  - simpl in Hb. pose proof (Zabs_sum_nonneg zs). apply round64_whole; [exact Hv | lia].
  - apply IH. simpl in Hb. lia.
Qed.

(** On such values the float64 mean is their arithmetic mean rounded once,
    to the nearest float64. *)
Lemma mean_exact_sums (cs : list cell) :
  present cs <> [] -> exact_sums (present cs) ->
  mean cs = Num (round64 (Qsum (present cs) / Qlen (present cs))).
Proof.
  intros Hne [zs [Hvs Hb]]. unfold mean.
  destruct (present cs) as [| a vs] eqn:E; [contradiction |].
  pose proof (round64_map_whole _ _ Hvs Hb) as Hr.
  pose proof (kahan_exact _ _ Hr 0) as Hk.
  change (inject_Z 0) with 0%Q in Hk. rewrite Hk by (simpl; lia).
  f_equal. unfold fdiv. apply round64_Qeq.
  rewrite (Qsum_whole _ _ Hvs). reflexivity.
Qed.

Lemma mean_NaN (cs : list cell) : mean cs = NaN <-> present cs = [].
Proof.
  unfold mean. destruct (present cs); split; congruence.
Qed.





(* ------------------------------------------------------------------ *)
(** ** Correlation stage: which branch is taken *)
(* ------------------------------------------------------------------ *)

Lemma df_corr_In (x y : string) (rs : list row) (r : row) :
  In r (df_corr x y rs) <-> In r rs /\ get x r <> NaN /\ get y r <> NaN.
Proof.
  unfold df_corr, dropna. rewrite filter_In. simpl.
  rewrite andb_true_r, andb_true_iff, !notna_spec. reflexivity.
Qed.

Lemma correlation_stage_few (x y : string) (rs : list row) :
  (List.length (df_corr x y rs) < 2)%nat ->
  correlation_stage x y rs = ([st_warning msg_insufficient], inr tt).
Proof.
  intros H. unfold correlation_stage.
  destruct (Nat.ltb_spec (List.length (df_corr x y rs)) 2); [reflexivity | lia].
Qed.

Lemma correlation_stage_same (x : string) (rs : list row) :
  (2 <= List.length (df_corr x x rs))%nat ->
  correlation_stage x x rs
  = ([st_scatter_chart (df_corr x x rs) x x; st_warning msg_same_axis], inr tt).
Proof.
  intros H. unfold correlation_stage.
  destruct (Nat.ltb_spec (List.length (df_corr x x rs)) 2); [lia |].
  rewrite String.eqb_refl. reflexivity.
Qed.

Lemma correlation_stage_coef (x y : string) (rs : list row) :
  (2 <= List.length (df_corr x y rs))%nat -> x <> y ->
  correlation_stage x y rs
  = ([st_scatter_chart (df_corr x y rs) x y;
      st_subheader "Coeficiente de Correlação de Spearman";
      st_write_coef (spearman_corr x y rs)], inr tt).
Proof.
  intros H Hxy. unfold correlation_stage.
  destruct (Nat.ltb_spec (List.length (df_corr x y rs)) 2); [lia |].
  destruct (String.eqb_spec x y); [contradiction | reflexivity].
Qed.

Lemma correlation_stage_cases (x y : string) (rs : list row) :
  ((List.length (df_corr x y rs) < 2)%nat
   /\ correlation_stage x y rs = ([st_warning msg_insufficient], inr tt))
  \/ ((2 <= List.length (df_corr x y rs))%nat /\ x = y
      /\ correlation_stage x y rs
         = ([st_scatter_chart (df_corr x y rs) x y; st_warning msg_same_axis], inr tt))
  \/ ((2 <= List.length (df_corr x y rs))%nat /\ x <> y
      /\ correlation_stage x y rs
         = ([st_scatter_chart (df_corr x y rs) x y;
             st_subheader "Coeficiente de Correlação de Spearman";
             st_write_coef (spearman_corr x y rs)], inr tt)).
Proof.
  destruct (Nat.lt_ge_cases (List.length (df_corr x y rs)) 2) as [H | H].
  - left. split; [exact H | apply correlation_stage_few, H].
  - right. destruct (String.eqb_spec x y) as [-> | Hne].
    + left. split; [exact H |]. split; [reflexivity | apply correlation_stage_same, H].
    + right. split; [exact H |]. split; [exact Hne | apply correlation_stage_coef; assumption].
Qed.

(** C4.  For every table and columns X and Y the Correlation Stage works
    on the rows in which both X and Y are present (a subsequence of the
    filtered table): when fewer than two such rows remain it emits the
    insufficient-data warning and nothing else, no scatter plot and no
    coefficient; when two or more remain it plots exactly those rows and
    does not emit that warning.  A table with exactly one row holding both
    values gets the warning. *)
Theorem insufficient_paired_rows (x y : string) (rs : list row) :
  (forall r, In r (df_corr x y rs) <-> In r rs /\ get x r <> NaN /\ get y r <> NaN)
  /\ subseq (df_corr x y rs) rs
  /\ ((List.length (df_corr x y rs) < 2)%nat ->
        correlation_stage x y rs = ([st_warning msg_insufficient], inr tt)
        /\ forall el, In el (fst (correlation_stage x y rs)) ->
                      is_coefficient el = false)
  /\ ((2 <= List.length (df_corr x y rs))%nat ->
        In (st_scatter_chart (df_corr x y rs) x y) (fst (correlation_stage x y rs))
        /\ ~ In (st_warning msg_insufficient) (fst (correlation_stage x y rs)))
  /\ ((List.length (df_corr "pH" "OD" one_pair_table) = 1)%nat
      /\ correlation_stage "pH" "OD" one_pair_table
         = ([st_warning msg_insufficient], inr tt)).
Proof.
  split; [intros r; apply df_corr_In |].
  split; [apply filter_subseq |].
  split; [| split; [| split; reflexivity]].
  - intros Hfew. rewrite (correlation_stage_few x y rs Hfew).
    split; [reflexivity |]. intros el [<- | []]. reflexivity.
  - intros Hlen. destruct (String.eqb_spec x y) as [-> | Hne].
    + rewrite (correlation_stage_same y rs Hlen). split; [left; reflexivity |].
      intros [H | [H | []]]; discriminate H.
    + rewrite (correlation_stage_coef x y rs Hlen Hne). split; [left; reflexivity |].
      intros [H | [H | [H | []]]]; discriminate H.
Qed.

(** C5, as stated, fails: with the same column on both axes and a single
    row, the stage emits the insufficient-data warning, not the warning
    about the choice of axes. *)
Lemma identical_axes_counterexample :
  correlation_stage "pH" "pH" single_row_table
  = ([st_warning msg_insufficient], inr tt)
  /\ ~ In (st_warning msg_same_axis)
          (fst (correlation_stage "pH" "pH" single_row_table)).
Proof.
  split; [reflexivity |].
  simpl. intros [H | []]. discriminate H.
Qed.

(** C5, amended.  When X and Y name the same column no coefficient is
    produced; the warning about the choice of axes is emitted (after the
    scatter plot) when at least two rows hold a value in that column, and
    with fewer than two such rows the stage emits the insufficient-data
    warning instead, and nothing else. *)
Theorem identical_axes_no_coefficient (x y : string) (rs : list row)
  (Hsame : x = y) :
  (forall el, In el (fst (correlation_stage x y rs)) -> is_coefficient el = false)
  /\ ((2 <= List.length (df_corr x y rs))%nat ->
      correlation_stage x y rs
      = ([st_scatter_chart (df_corr x y rs) x y; st_warning msg_same_axis], inr tt))
  /\ ((List.length (df_corr x y rs) < 2)%nat ->
      correlation_stage x y rs = ([st_warning msg_insufficient], inr tt)).
Proof.
  subst y. split; [| split].
  - intros el Hel.
    destruct (Nat.lt_ge_cases (List.length (df_corr x x rs)) 2) as [H | H].
    + rewrite (correlation_stage_few x x rs H) in Hel.
      destruct Hel as [<- | []]. reflexivity.
    + rewrite (correlation_stage_same x rs H) in Hel.
      destruct Hel as [<- | [<- | []]]; reflexivity.
  - apply correlation_stage_same.
  - apply correlation_stage_few.
Qed.

Lemma identical_axes_no_coefficient_witness :
  "pH" = "pH"
  /\ correlation_stage "pH" "pH" one_pair_table
     = ([st_scatter_chart (df_corr "pH" "pH" one_pair_table) "pH" "pH";
         st_warning msg_same_axis], inr tt).
Proof.
  split; [reflexivity |].
  apply (identical_axes_no_coefficient "pH" "pH" one_pair_table eq_refl).
  simpl. lia.
Defined.

(* ------------------------------------------------------------------ *)
(** ** The page: the loader guard *)
(* ------------------------------------------------------------------ *)

Lemma has_column_spec (c : string) (df : DataFrame) :
  has_column c df = true <-> In c (column_names df).
Proof.
  unfold has_column. rewrite existsb_exists. split.
  - intros [d [Hd Heq]]. apply String.eqb_eq in Heq. subst d. exact Hd.
  - intros H. exists c. split; [exact H | apply String.eqb_refl].
Qed.

Lemma has_column_false (c : string) (df : DataFrame) :
  ~ In c (column_names df) -> has_column c df = false.
Proof.
  intros H. destruct (has_column c df) eqn:E; trivial.
  apply has_column_spec in E. contradiction.
Qed.

Lemma In_bind {A B : Type} (m : M A) (k : A -> M B) (el : element) :
  In el (fst (bind m k)) ->
  In el (fst m) \/ exists a, snd m = inr a /\ In el (fst (k a)).
Proof.
  destruct m as [out [e | a]]; simpl.
  - intros H. left. exact H.
  - destruct (k a) as [out' r] eqn:E. simpl. intros H.
    apply in_app_or in H. destruct H as [H | H]; [left; exact H |].
    right. exists a. rewrite E. split; [reflexivity | exact H].
Qed.

(** C6.  A parsed table without a column named exactly [Data] gets the
    success note, the preview and then the message about the missing
    column, and nothing else: the message is not the one of the catch-all
    handler, and no map, chart or coefficient is emitted. *)
Theorem missing_data_column (ss : session) (df : DataFrame)
  (Hmissing : ~ In "Data" (column_names df)) :
  page ss (Some (inr df))
  = [st_title "Análise de Qualidade da Água";
     st_sidebar_header "Configurações";
     st_success "Dados carregados com sucesso!";
     st_subheader "Prévia dos Dados";
     st_write_head (firstn 5 (rows df));
     st_error msg_missing_data]
  /\ (forall e, msg_missing_data <> msg_load_error e)
  /\ (forall el, In el (page ss (Some (inr df))) -> is_stage_output el = false).
Proof.
  assert (page ss (Some (inr df))
          = [st_title "Análise de Qualidade da Água";
             st_sidebar_header "Configurações";
             st_success "Dados carregados com sucesso!";
             st_subheader "Prévia dos Dados";
             st_write_head (firstn 5 (rows df));
             st_error msg_missing_data]) as Hpage.
  { unfold page, script. simpl.
    rewrite (has_column_false "Data" df Hmissing). reflexivity. }
  split; [exact Hpage |]. split.
  - intros e. unfold msg_missing_data, msg_load_error. simpl. discriminate.
  - rewrite Hpage. intros el Hel. simpl in Hel.
    repeat (destruct Hel as [<- | Hel]; [reflexivity |]). contradiction.
Qed.

(** Scenario 2: the date column is named [data]. *)
Lemma missing_data_column_witness :
  ~ In "Data" (column_names lowercase_sheet)
  /\ page default_session (Some (inr lowercase_sheet))
     = [st_title "Análise de Qualidade da Água";
        st_sidebar_header "Configurações";
        st_success "Dados carregados com sucesso!";
        st_subheader "Prévia dos Dados";
        st_write_head (firstn 5 (rows lowercase_sheet));
        st_error msg_missing_data].
Proof.
  assert (~ In "Data" (column_names lowercase_sheet)) as H.
  { simpl. intros [H | [H | [H | []]]]; discriminate H. }
  split; [exact H |].
  apply (missing_data_column default_session lowercase_sheet H).
Defined.

(* ------------------------------------------------------------------ *)
(** ** Running the script: the paths through lines 17-151 *)
(* ------------------------------------------------------------------ *)

Lemma bind_ret_l {A B : Type} (a : A) (k : A -> M B) : bind (ret a) k = k a.
Proof. unfold bind, ret. destruct (k a). reflexivity. Qed.

Lemma bind_emit {B : Type} (e : element) (k : unit -> M B) :
  bind (emit e) k = prepend [e] (k tt).
Proof. unfold bind, emit, prepend. destruct (k tt). reflexivity. Qed.

Lemma bind_lift_inr {A B : Type} (a : A) (k : A -> M B) :
  bind (lift (inr a)) k = k a.
Proof. apply bind_ret_l. Qed.

Lemma prepend_prepend {A : Type} (l l' : list element) (m : M A) :
  prepend l (prepend l' m) = prepend (l ++ l') m.
Proof. unfold prepend. simpl. rewrite app_assoc. reflexivity. Qed.

Lemma column_names_parse_Data (ss : session) (df : DataFrame) :
  column_names (parse_Data ss df) = column_names df.
Proof.
  unfold column_names, parse_Data. simpl. rewrite map_map.
  apply map_ext. intros [c d]. simpl. destruct (String.eqb c "Data"); reflexivity.
Qed.

Lemma has_column_parse_Data (ss : session) (c : string) (df : DataFrame) :
  has_column c (parse_Data ss df) = has_column c df.
Proof. unfold has_column. rewrite column_names_parse_Data. reflexivity. Qed.

Lemma has_column_filtered1 (ss : session) (c : string) (df : DataFrame)
  (rs : list row) :
  has_column c (with_rows (parse_Data ss df) rs) = has_column c df.
Proof.
  change (has_column c (with_rows (parse_Data ss df) rs))
    with (has_column c (parse_Data ss df)).
  apply has_column_parse_Data.
Qed.

Lemma has_column_filtered_frame (ss : session) (c : string) (df : DataFrame)
  (p0 p1 : Z) :
  has_column c (filtered_frame ss df p0 p1) = has_column c df.
Proof.
  change (has_column c (filtered_frame ss df p0 p1))
    with (has_column c (parse_Data ss df)).
  apply has_column_parse_Data.
Qed.

(** Lines 60-62, by what stops them: the lookup of [y], its mean, the
    lookup of [x], its mean, in this order. *)
Lemma initial_view_state_cases (ss : session) (df : DataFrame) :
  (has_column "y" df = false
   /\ initial_view_state ss df = ([], inl (KeyError "y")))
  \/ (has_column "y" df = true /\ averageable (column "y" (rows df)) = false
      /\ initial_view_state ss df
         = ([], inl (TypeError (type_error ss (column "y" (rows df))))))
  \/ (has_column "y" df = true /\ averageable (column "y" (rows df)) = true
      /\ has_column "x" df = false
      /\ initial_view_state ss df = ([], inl (KeyError "x")))
  \/ (has_column "y" df = true /\ averageable (column "y" (rows df)) = true
      /\ has_column "x" df = true /\ averageable (column "x" (rows df)) = false
      /\ initial_view_state ss df
         = ([], inl (TypeError (type_error ss (column "x" (rows df))))))
  \/ (has_column "y" df = true /\ averageable (column "y" (rows df)) = true
      /\ has_column "x" df = true /\ averageable (column "x" (rows df)) = true
      /\ initial_view_state ss df = ([], inr tt)).
Proof.
  unfold initial_view_state, getitem, Series_mean.
  destruct (has_column "y" df); [| left; split; reflexivity].
  right. rewrite bind_ret_l.
  destruct (averageable (column "y" (rows df)));
    [| left; split; [| split]; reflexivity].
  right. rewrite bind_ret_l.
  destruct (has_column "x" df); [| left; repeat split; reflexivity].
  right. rewrite bind_ret_l.
  destruct (averageable (column "x" (rows df)));
    [right | left]; repeat split; reflexivity.
Qed.

Lemma text_not_averageable (cs : list cell) (txt : string) :
  In (Str txt) cs -> averageable cs = false.
Proof.
  intros H. unfold averageable, numeric_cells. apply orb_false_iff.
  split.
  - destruct (forallb _ cs) eqn:E; trivial.
    rewrite forallb_forall in E. specialize (E _ H). discriminate E.
  - destruct (forallb _ cs) eqn:E; trivial.
    rewrite forallb_forall in E. specialize (E _ H). discriminate E.
Qed.

Lemma initial_view_state_ok (ss : session) (df : DataFrame) :
  has_column "y" df = true -> averageable (column "y" (rows df)) = true ->
  has_column "x" df = true -> averageable (column "x" (rows df)) = true ->
  initial_view_state ss df = ([], inr tt).
Proof.
  intros Hy Hay Hx Hax. unfold initial_view_state, getitem, Series_mean.
  rewrite Hy, bind_ret_l, Hay, bind_ret_l, Hx, bind_ret_l, Hax. reflexivity.
Qed.

Lemma initial_view_state_no_output (ss : session) (df : DataFrame) :
  fst (initial_view_state ss df) = [].
Proof.
  destruct (initial_view_state_cases ss df)
    as [[_ E] | [[_ [_ E]] | [[_ [_ [_ E]]] | [[_ [_ [_ [_ E]]]] | [_ [_ [_ [_ E]]]]]]]];
    rewrite E; reflexivity.
Qed.

Lemma script_missing_data (ss : session) (df : DataFrame) :
  has_column "Data" df = false ->
  script ss df = (preview df ++ [st_error msg_missing_data], inr tt).
Proof.
  intros Hdata. unfold script. repeat (rewrite bind_emit; cbv beta).
  rewrite !prepend_prepend, Hdata. reflexivity.
Qed.

Lemma script_widget_raises (ss : session) (df : DataFrame) (e : exn) :
  has_column "Data" df = true ->
  date_input ss (min_data ss df) (max_data ss df) = inl e ->
  script ss df = (preview df, inl e).
Proof.
  intros Hdata Hw. unfold script. repeat (rewrite bind_emit; cbv beta).
  rewrite !prepend_prepend, Hdata. cbn [negb].
  unfold min_data, max_data in Hw. rewrite Hw. reflexivity.
Qed.

Lemma script_short_period (ss : session) (df : DataFrame) (periodo : list Z) :
  has_column "Data" df = true ->
  date_input ss (min_data ss df) (max_data ss df) = inr periodo ->
  (List.length periodo < 2)%nat ->
  script ss df = (preview df, inl IndexError).
Proof.
  intros Hdata Hw Hlen. unfold script. repeat (rewrite bind_emit; cbv beta).
  rewrite !prepend_prepend, Hdata. cbn [negb].
  unfold min_data, max_data in Hw. rewrite Hw.
  destruct periodo as [| a [| b l]]; [reflexivity | reflexivity |].
  simpl in Hlen. lia.
Qed.

Lemma script_no_station (ss : session) (df : DataFrame) (p0 p1 : Z) (rest : list Z) :
  has_column "Data" df = true ->
  date_input ss (min_data ss df) (max_data ss df) = inr (p0 :: p1 :: rest) ->
  has_column "Estação" df = false ->
  script ss df = (preview df, inl (KeyError "Estação")).
Proof.
  intros Hdata Hw Hest. unfold script. repeat (rewrite bind_emit; cbv beta).
  rewrite !prepend_prepend, Hdata. cbn [negb].
  unfold min_data, max_data in Hw. rewrite Hw.
  rewrite bind_lift_inr. unfold index. cbn [nth_error].
  repeat (rewrite bind_ret_l; cbv beta).
  unfold getitem at 1. rewrite has_column_filtered1, Hest. reflexivity.
Qed.

(** From the map header on, the script works on the filtered frame. *)
Lemma script_filtered (ss : session) (df : DataFrame) (p0 p1 : Z) (rest : list Z) :
  has_column "Data" df = true ->
  date_input ss (min_data ss df) (max_data ss df) = inr (p0 :: p1 :: rest) ->
  has_column "Estação" df = true ->
  script ss df
  = prepend (preview df ++ [st_header "Mapa de Localização das Estações"])
      (bind (initial_view_state ss (filtered_frame ss df p0 p1))
         (fun _ =>
            bind (emit (st_pydeck_chart (rows (filtered_frame ss df p0 p1))))
                 (fun _ => charts ss (filtered_frame ss df p0 p1)))).
Proof.
  intros Hdata Hw Hest.
  match goal with |- _ = ?r => set (after := r) end.
  unfold script. repeat (rewrite bind_emit; cbv beta).
  rewrite !prepend_prepend, Hdata. cbn [negb].
  unfold min_data, max_data in Hw. rewrite Hw.
  rewrite bind_lift_inr. unfold index. cbn [nth_error].
  repeat (rewrite bind_ret_l; cbv beta).
  unfold getitem at 1. rewrite has_column_filtered1, Hest.
  rewrite bind_ret_l. cbv beta. rewrite bind_emit, prepend_prepend.
  subst after. reflexivity.
Qed.

Lemma script_map_raises (ss : session) (df : DataFrame) (p0 p1 : Z)
  (rest : list Z) (e : exn) :
  has_column "Data" df = true ->
  date_input ss (min_data ss df) (max_data ss df) = inr (p0 :: p1 :: rest) ->
  has_column "Estação" df = true ->
  initial_view_state ss (filtered_frame ss df p0 p1) = ([], inl e) ->
  script ss df
  = (preview df ++ [st_header "Mapa de Localização das Estações"], inl e).
Proof.
  intros Hdata Hw Hest Hv.
  rewrite (script_filtered ss df p0 p1 rest Hdata Hw Hest), Hv.
  unfold prepend, bind. cbn [fst snd]. rewrite app_nil_r. reflexivity.
Qed.

Lemma script_charts (ss : session) (df : DataFrame) (p0 p1 : Z) (rest : list Z) :
  has_column "Data" df = true ->
  date_input ss (min_data ss df) (max_data ss df) = inr (p0 :: p1 :: rest) ->
  has_column "Estação" df = true ->
  initial_view_state ss (filtered_frame ss df p0 p1) = ([], inr tt) ->
  script ss df
  = prepend (preview df
             ++ [st_header "Mapa de Localização das Estações";
                 st_pydeck_chart (rows (filtered_frame ss df p0 p1))])
            (charts ss (filtered_frame ss df p0 p1)).
Proof.
  intros Hdata Hw Hest Hv.
  rewrite (script_filtered ss df p0 p1 rest Hdata Hw Hest), Hv.
  change (@pair (list element) (exn + unit) [] (inr tt)) with (@ret unit tt).
  rewrite bind_ret_l, bind_emit, prepend_prepend, <- app_assoc. reflexivity.
Qed.

(** Every path of the script, by what stops it. *)
Lemma script_paths (ss : session) (df : DataFrame) :
  (has_column "Data" df = false
   /\ script ss df = (preview df ++ [st_error msg_missing_data], inr tt))
  \/ (has_column "Data" df = true
      /\ exists e, script ss df = (preview df, inl e))
  \/ (has_column "Data" df = true
      /\ exists e, script ss df
                   = (preview df ++ [st_header "Mapa de Localização das Estações"],
                      inl e))
  \/ (has_column "Data" df = true
      /\ exists p0 p1,
           script ss df
           = prepend (preview df
                      ++ [st_header "Mapa de Localização das Estações";
                          st_pydeck_chart (rows (filtered_frame ss df p0 p1))])
                     (charts ss (filtered_frame ss df p0 p1))).
Proof.
  destruct (has_column "Data" df) eqn:Hdata.
  2: { left. split; [reflexivity | apply script_missing_data, Hdata]. }
  right.
  destruct (date_input ss (min_data ss df) (max_data ss df)) as [e | periodo] eqn:Hw.
  { left. split; [reflexivity |]. exists e. apply script_widget_raises; assumption. }
  destruct periodo as [| p0 [| p1 rest]].
  { left. split; [reflexivity |]. exists IndexError.
    apply (script_short_period ss df [] Hdata Hw). simpl. lia. }
  { left. split; [reflexivity |]. exists IndexError.
    apply (script_short_period ss df [p0] Hdata Hw). simpl. lia. }
  destruct (has_column "Estação" df) eqn:Hest.
  2: { left. split; [reflexivity |]. exists (KeyError "Estação").
       apply (script_no_station ss df p0 p1 rest); assumption. }
  right.
  pose proof (initial_view_state_no_output ss (filtered_frame ss df p0 p1)) as Hout.
  destruct (initial_view_state ss (filtered_frame ss df p0 p1)) as [out [e | []]] eqn:Hv;
    simpl in Hout; subst out.
  - left. split; [reflexivity |]. exists e.
    apply (script_map_raises ss df p0 p1 rest); assumption.
  - right. split; [reflexivity |]. exists p0, p1.
    apply (script_charts ss df p0 p1 rest); assumption.
Qed.

Lemma page_parsed (ss : session) (df : DataFrame) :
  page ss (Some (inr df)) = banner ++ fst (try_except (script ss df) handler).
Proof.
  unfold page, banner.
  change (bind (lift (inr df)) (fun d => script ss d))
    with (bind (ret df) (fun d => script ss d)).
  rewrite bind_ret_l. reflexivity.
Qed.

Lemma try_except_prepend (l : list element) (m : M unit) (h : exn -> M unit) :
  try_except (prepend l m) h = prepend l (try_except m h).
Proof.
  destruct m as [out [e | []]]; unfold prepend, try_except; simpl.
  - destruct (h e) as [out' r]. simpl. rewrite app_assoc. reflexivity.
  - reflexivity.
Qed.

Lemma try_except_raised (out : list element) (e : exn) :
  try_except (out, inl e) handler = (out ++ [st_error (msg_load_error e)], inr tt).
Proof. reflexivity. Qed.

Lemma In_try_except (m : M unit) (el : element) :
  In el (fst (try_except m handler)) ->
  In el (fst m) \/ exists e, snd m = inl e /\ el = st_error (msg_load_error e).
Proof.
  destruct m as [out [e | []]]; simpl.
  - intros H. apply in_app_or in H. destruct H as [H | [<- | []]].
    + left. exact H.
    + right. exists e. split; reflexivity.
  - intros H. left. exact H.
Qed.

Lemma page_raised (ss : session) (df : DataFrame) (out : list element) (e : exn) :
  script ss df = (preview df ++ out, inl e) ->
  page ss (Some (inr df))
  = banner ++ preview df ++ out ++ [st_error (msg_load_error e)].
Proof.
  intros E. rewrite page_parsed, E, try_except_raised. cbn [fst].
  rewrite <- app_assoc. reflexivity.
Qed.

Lemma page_charts (ss : session) (df : DataFrame) (p0 p1 : Z) (rest : list Z) :
  has_column "Data" df = true ->
  date_input ss (min_data ss df) (max_data ss df) = inr (p0 :: p1 :: rest) ->
  has_column "Estação" df = true ->
  initial_view_state ss (filtered_frame ss df p0 p1) = ([], inr tt) ->
  page ss (Some (inr df))
  = banner ++ preview df
    ++ [st_header "Mapa de Localização das Estações";
        st_pydeck_chart (rows (filtered_frame ss df p0 p1))]
    ++ fst (try_except (charts ss (filtered_frame ss df p0 p1)) handler).
Proof.
  intros Hdata Hw Hest Hv.
  rewrite page_parsed, (script_charts ss df p0 p1 rest Hdata Hw Hest Hv).
  rewrite try_except_prepend. unfold prepend. cbn [fst].
  rewrite <- app_assoc. reflexivity.
Qed.

(* ------------------------------------------------------------------ *)
(** ** The chart sections, and what a page can hold *)
(* ------------------------------------------------------------------ *)

Lemma selectbox_In (options : list string) (i : nat) (c : string) :
  selectbox options i = Some c -> In c options.
Proof. unfold selectbox. apply nth_error_In. Qed.

Lemma bar_section_cases (ss : session) (df : DataFrame) :
  (has_column "Ano" df = false /\ bar_section ss df = ([], inr tt))
  \/ (has_column "Ano" df = true
      /\ exists e, bar_section ss df
                   = ([st_header "Gráfico de Barras: Ano vs Parâmetro"], inl e))
  \/ (has_column "Ano" df = true
      /\ exists p s, selectbox (numeric_columns df) (bar_index ss) = Some p
                     /\ df_barras ss p (rows df) = inr s
                     /\ bar_section ss df
                        = ([st_header "Gráfico de Barras: Ano vs Parâmetro";
                            st_bar_chart s p], inr tt)).
Proof.
  unfold bar_section. destruct (has_column "Ano" df).
  2: { left. split; reflexivity. }
  right. rewrite bind_emit.
  destruct (selectbox (numeric_columns df) (bar_index ss)) as [p |].
  - destruct (df_barras ss p (rows df)) as [e | s] eqn:E.
    + left. split; [reflexivity |]. exists e. reflexivity.
    + right. split; [reflexivity |]. exists p, s.
      split; [reflexivity |]. split; [exact E | reflexivity].
  - left. split; [reflexivity |]. eexists. reflexivity.
Qed.

Lemma scatter_section_cases (ss : session) (df : DataFrame) :
  ((List.length (numeric_columns df) < 2)%nat
   /\ scatter_section ss df = ([st_warning msg_two_numeric], inr tt))
  \/ ((2 <= List.length (numeric_columns df))%nat
      /\ scatter_section ss df = ([st_header "Gráfico de Dispersão"], inl (KeyError "None")))
  \/ ((2 <= List.length (numeric_columns df))%nat
      /\ exists x_axis y_axis,
           In x_axis (numeric_columns df) /\ In y_axis (numeric_columns df)
           /\ scatter_section ss df
              = prepend [st_header "Gráfico de Dispersão"]
                        (correlation_stage x_axis y_axis (rows df))).
Proof.
  unfold scatter_section.
  destruct (Nat.ltb_spec (List.length (numeric_columns df)) 2) as [H | H].
  { left. split; [exact H | reflexivity]. }
  right. rewrite bind_emit.
  destruct (selectbox (numeric_columns df) (x_index ss)) as [x_axis |] eqn:Ex.
  2: { left. split; [exact H | reflexivity]. }
  destruct (selectbox (numeric_columns df) (y_index ss)) as [y_axis |] eqn:Ey.
  2: { left. split; [exact H | reflexivity]. }
  right. split; [exact H |]. exists x_axis, y_axis.
  split; [apply (selectbox_In _ _ _ Ex) |].
  split; [apply (selectbox_In _ _ _ Ey) | reflexivity].
Qed.

Lemma In_prepend {A : Type} (l : list element) (m : M A) (el : element) :
  In el (fst (prepend l m)) <-> In el l \/ In el (fst m).
Proof. unfold prepend. simpl. apply in_app_iff. Qed.

Lemma charts_elements (ss : session) (df : DataFrame) (el : element) :
  In el (fst (charts ss df)) ->
  (has_column "Ano" df = true
   /\ el = st_header "Gráfico de Barras: Ano vs Parâmetro")
  \/ (exists p s, In p (numeric_columns df) /\ has_column "Ano" df = true
                  /\ df_barras ss p (rows df) = inr s
                  /\ el = st_bar_chart s p)
  \/ el = st_warning msg_two_numeric
  \/ el = st_header "Gráfico de Dispersão"
  \/ (exists x_axis y_axis,
        In x_axis (numeric_columns df) /\ In y_axis (numeric_columns df)
        /\ (2 <= List.length (numeric_columns df))%nat
        /\ In el (fst (correlation_stage x_axis y_axis (rows df)))).
Proof.
  unfold charts. intros H. apply In_bind in H. destruct H as [H | [[] [_ H]]].
  - destruct (bar_section_cases ss df)
      as [[_ E] | [[Hano [e E]] | [Hano [p [s [Hp [Hs E]]]]]]];
      rewrite E in H; simpl in H.
    + contradiction.
    + destruct H as [<- | []]. left. split; [exact Hano | reflexivity].
    + destruct H as [<- | [<- | []]]; [left; split; [exact Hano | reflexivity] |].
      right. left. exists p, s. split; [apply (selectbox_In _ _ _ Hp) |]. tauto.
  - destruct (scatter_section_cases ss df)
      as [[_ E] | [[_ E] | [Hn [x_axis [y_axis [Hx [Hy E]]]]]]]; rewrite E in H.
    + destruct H as [<- | []]. right. right. left. reflexivity.
    + destruct H as [<- | []]. right. right. right. left. reflexivity.
    + apply In_prepend in H. destruct H as [[<- | []] | H].
      * right. right. right. left. reflexivity.
      * right. right. right. right. exists x_axis, y_axis. tauto.
Qed.

Lemma correlation_stage_no_bar (x y : string) (rs : list row) (el : element) :
  In el (fst (correlation_stage x y rs)) ->
  is_bar_chart el = false /\ el <> st_header "Gráfico de Barras: Ano vs Parâmetro".
Proof.
  unfold correlation_stage.
  destruct (List.length (df_corr x y rs) <? 2)%nat; simpl.
  - intros [<- | []]. split; [reflexivity | discriminate].
  - destruct (negb (String.eqb x y)); simpl;
      intros H;
      repeat (destruct H as [<- | H]; [split; [reflexivity | discriminate] |]);
      contradiction.
Qed.

Lemma correlation_stage_no_error (x y : string) (rs : list row) (el : element) :
  In el (fst (correlation_stage x y rs)) -> is_error el = false.
Proof.
  destruct (correlation_stage_cases x y rs)
    as [[_ ->] | [[_ [_ ->]] | [_ [_ ->]]]]; simpl;
    intros H; repeat (destruct H as [<- | H]; [reflexivity |]); contradiction.
Qed.

Lemma charts_no_error (ss : session) (df : DataFrame) (el : element) :
  In el (fst (charts ss df)) -> is_error el = false.
Proof.
  intros H. apply charts_elements in H.
  destruct H as [[_ ->] | [[p [s [_ [_ [_ ->]]]]] | [-> | [-> | [x [y [_ [_ [_ H]]]]]]]]];
    try reflexivity.
  apply (correlation_stage_no_error x y (rows df) el H).
Qed.

Lemma correlation_stage_outputs_scatter (x y : string) (rs : list row)
  (d : list row) (a b : string) :
  In (st_scatter_chart d a b) (fst (correlation_stage x y rs)) -> a = x /\ b = y.
Proof.
  destruct (correlation_stage_cases x y rs)
    as [[_ ->] | [[_ [_ ->]] | [_ [_ ->]]]]; simpl; intros H;
    repeat (destruct H as [H | H]; [try discriminate H |]); try contradiction;
    injection H as _ <- <-; split; reflexivity.
Qed.

(** What a page built from a parsed table can hold. *)
Lemma page_elements (ss : session) (df : DataFrame) (el : element) :
  In el (page ss (Some (inr df))) ->
  In el banner \/ In el (preview df)
  \/ el = st_error msg_missing_data
  \/ (exists e, el = st_error (msg_load_error e))
  \/ el = st_header "Mapa de Localização das Estações"
  \/ (exists p0 p1,
        el = st_pydeck_chart (rows (filtered_frame ss df p0 p1))
        \/ In el (fst (charts ss (filtered_frame ss df p0 p1)))).
Proof.
  rewrite page_parsed. intros H. apply in_app_or in H.
  destruct H as [H | H]; [left; exact H |]. right.
  apply In_try_except in H. destruct H as [H | [e [_ ->]]].
  2: { right. right. left. exists e. reflexivity. }
  destruct (script_paths ss df)
    as [[_ E] | [[_ [e E]] | [[_ [e E]] | [_ [p0 [p1 E]]]]]]; rewrite E in H.
  - cbn [fst] in H. apply in_app_or in H.
    destruct H as [H | [<- | []]]; [left; exact H | right; left; reflexivity].
  - left. exact H.
  - cbn [fst] in H. apply in_app_or in H. destruct H as [H | [<- | []]];
      [left; exact H | right; right; right; left; reflexivity].
  - apply In_prepend in H. destruct H as [H | H].
    + apply in_app_or in H. destruct H as [H | [<- | [<- | []]]].
      * left. exact H.
      * right. right. right. left. reflexivity.
      * right. right. right. right. exists p0, p1. left. reflexivity.
    + right. right. right. right. exists p0, p1. right. exact H.
Qed.

Lemma scatter_section_runs (ss : session) (df : DataFrame) (x y : string) :
  (2 <= List.length (numeric_columns df))%nat ->
  selectbox (numeric_columns df) (x_index ss) = Some x ->
  selectbox (numeric_columns df) (y_index ss) = Some y ->
  try_except (scatter_section ss df) handler
  = (st_header "Gráfico de Dispersão" :: fst (correlation_stage x y (rows df)),
     inr tt).
Proof.
  intros Hlen Hx Hy. unfold scatter_section. cbv zeta.
  rewrite (proj2 (Nat.ltb_ge _ _) Hlen), Hx, Hy, bind_emit.
  destruct (correlation_stage_cases x y (rows df))
    as [[_ E] | [[_ [_ E]] | [_ [_ E]]]]; rewrite E; reflexivity.
Qed.

(** C9.  On a table without a column named exactly [Ano] the bar-chart
    section emits nothing and raises nothing, so the two chart sections
    together are the scatter and correlation section alone.  When the run
    reaches the charts (the table has the columns the filters and the map
    need, with coordinates that can be averaged, and the date widget returns
    a period), the page is the preview, the map of the filtered table and
    then exactly what the scatter and correlation section emits on that same
    filtered table: with two eligible columns or more, the header of the
    section and the output of the Correlation Stage for the chosen axes on
    the rows of the filtered table.  No page built from such a table shows a
    bar chart or the header of the bar-chart section. *)
Theorem no_year_column_no_bar_chart (ss : session) (df : DataFrame)
  (Hno : ~ In "Ano" (column_names df)) :
  (forall p0 p1,
     bar_section ss (filtered_frame ss df p0 p1) = ([], inr tt)
     /\ charts ss (filtered_frame ss df p0 p1)
        = scatter_section ss (filtered_frame ss df p0 p1))
  /\ (forall p0 p1 rest,
        In "Data" (column_names df) -> In "Estação" (column_names df) ->
        In "y" (column_names df) -> In "x" (column_names df) ->
        date_input ss (min_data ss df) (max_data ss df) = inr (p0 :: p1 :: rest) ->
        averageable (column "y" (rows (filtered_frame ss df p0 p1))) = true ->
        averageable (column "x" (rows (filtered_frame ss df p0 p1))) = true ->
        page ss (Some (inr df))
        = banner ++ preview df
          ++ [st_header "Mapa de Localização das Estações";
              st_pydeck_chart (rows (filtered_frame ss df p0 p1))]
          ++ fst (try_except (scatter_section ss (filtered_frame ss df p0 p1))
                             handler))
  /\ (forall el, In el (page ss (Some (inr df))) ->
        is_bar_chart el = false
        /\ el <> st_header "Gráfico de Barras: Ano vs Parâmetro")
  /\ (forall p0 p1 rest x y,
        In "Data" (column_names df) -> In "Estação" (column_names df) ->
        In "y" (column_names df) -> In "x" (column_names df) ->
        date_input ss (min_data ss df) (max_data ss df) = inr (p0 :: p1 :: rest) ->
        averageable (column "y" (rows (filtered_frame ss df p0 p1))) = true ->
        averageable (column "x" (rows (filtered_frame ss df p0 p1))) = true ->
        (2 <= List.length (numeric_columns (filtered_frame ss df p0 p1)))%nat ->
        selectbox (numeric_columns (filtered_frame ss df p0 p1)) (x_index ss)
        = Some x ->
        selectbox (numeric_columns (filtered_frame ss df p0 p1)) (y_index ss)
        = Some y ->
        page ss (Some (inr df))
        = banner ++ preview df
          ++ [st_header "Mapa de Localização das Estações";
              st_pydeck_chart (rows (filtered_frame ss df p0 p1));
              st_header "Gráfico de Dispersão"]
          ++ fst (correlation_stage x y (rows (filtered_frame ss df p0 p1)))).
Proof.
  assert (forall p0 p1, has_column "Ano" (filtered_frame ss df p0 p1) = false) as Hf.
  { intros p0 p1. rewrite has_column_filtered_frame. apply has_column_false, Hno. }
  assert (forall p0 p1,
             bar_section ss (filtered_frame ss df p0 p1) = ([], inr tt)
             /\ charts ss (filtered_frame ss df p0 p1)
                = scatter_section ss (filtered_frame ss df p0 p1)) as Hskip.
  { intros p0 p1.
    assert (bar_section ss (filtered_frame ss df p0 p1) = ret tt) as E
      by (unfold bar_section; rewrite Hf; reflexivity).
    split; [exact E |]. unfold charts. rewrite E.
    exact (bind_ret_l tt (fun _ => scatter_section ss (filtered_frame ss df p0 p1))). }
  assert (forall p0 p1 rest,
        In "Data" (column_names df) -> In "Estação" (column_names df) ->
        In "y" (column_names df) -> In "x" (column_names df) ->
        date_input ss (min_data ss df) (max_data ss df) = inr (p0 :: p1 :: rest) ->
        averageable (column "y" (rows (filtered_frame ss df p0 p1))) = true ->
        averageable (column "x" (rows (filtered_frame ss df p0 p1))) = true ->
        page ss (Some (inr df))
        = banner ++ preview df
          ++ [st_header "Mapa de Localização das Estações";
              st_pydeck_chart (rows (filtered_frame ss df p0 p1))]
          ++ fst (try_except (scatter_section ss (filtered_frame ss df p0 p1))
                             handler)) as Hpage.
  { intros p0 p1 rest Hdata Hest Hy Hx Hw Hay Hax.
    apply has_column_spec in Hdata, Hest, Hy, Hx.
    rewrite <- (proj2 (Hskip p0 p1)).
    apply (page_charts ss df p0 p1 rest Hdata Hw Hest).
    destruct (initial_view_state_cases ss (filtered_frame ss df p0 p1))
      as [[H _] | [[_ [H _]] | [[_ [_ [H _]]] | [[_ [_ [_ [H _]]]] | [_ [_ [_ [_ E]]]]]]]];
      try (rewrite ?has_column_filtered_frame in H; congruence).
    exact E. }
  split; [exact Hskip |]. split; [exact Hpage |]. split.
  2: { intros p0 p1 rest x y Hdata Hest Hy Hx Hw Hay Hax Hlen Hsx Hsy.
       rewrite (Hpage p0 p1 rest Hdata Hest Hy Hx Hw Hay Hax).
       rewrite (scatter_section_runs ss _ x y Hlen Hsx Hsy).
       reflexivity. }
  - intros el H. apply page_elements in H.
    destruct H as [H | [H | [-> | [[e ->] | [-> | [p0 [p1 [-> | H]]]]]]]];
      try (split; [reflexivity | discriminate]).
    + destruct H as [<- | [<- | []]]; split; try reflexivity; discriminate.
    + destruct H as [<- | [<- | [<- | []]]]; split; try reflexivity; discriminate.
    + apply charts_elements in H. rewrite Hf in H.
      destruct H as [[H _] | [[p [s [_ [H _]]]] | [-> | [-> | [x [y [_ [_ [_ H]]]]]]]]];
        try discriminate H; try (split; [reflexivity | discriminate]).
      apply (correlation_stage_no_bar x y _ el H).
Qed.

(** A table with dates, stations, coordinates and two measured columns, and
    no year: after the map the page shows the scatter plot and the
    coefficient. *)
Lemma no_year_column_no_bar_chart_witness :
  ~ In "Ano" (column_names yearless_table)
  /\ page default_session (Some (inr yearless_table))
     = banner ++ preview yearless_table
       ++ [st_header "Mapa de Localização das Estações";
           st_pydeck_chart (rows (filtered_frame default_session yearless_table 0 1))]
       ++ fst (try_except
                 (scatter_section default_session
                    (filtered_frame default_session yearless_table 0 1))
                 handler)
  /\ scatter_section default_session
       (filtered_frame default_session yearless_table 0 1)
     = ([st_header "Gráfico de Dispersão";
         st_scatter_chart (rows yearless_table) "pH" "OD";
         st_subheader "Coeficiente de Correlação de Spearman";
         st_write_coef (spearman_corr "pH" "OD" (rows yearless_table))], inr tt).
Proof.
  assert (~ In "Ano" (column_names yearless_table)) as H.
  { simpl. intros [H | [H | [H | [H | [H | [H | []]]]]]]; discriminate H. }
  split; [exact H |]. split; [| reflexivity].
  destruct (no_year_column_no_bar_chart default_session yearless_table H)
    as [_ [Hpage _]].
  apply (Hpage 0 1 []); try reflexivity; simpl; tauto.
Defined.

(* ------------------------------------------------------------------ *)
(** ** Spearman's coefficient *)
(* ------------------------------------------------------------------ *)

Lemma Qsum_perm (l l' : list Q) : Permutation l l' -> (Qsum l == Qsum l')%Q.
Proof.
  induction 1 as [| a l l' _ IH | a b l | l l' l'' _ IH1 _ IH2]; simpl.
  - reflexivity.
  - rewrite IH. reflexivity.
  - ring.
  - rewrite IH1. exact IH2.
Qed.

Lemma Qsum_map_ext {A : Type} (g h : A -> Q) (l : list A) :
  (forall a, (g a == h a)%Q) -> (Qsum (map g l) == Qsum (map h l))%Q.
Proof.
  intros H. induction l as [| a l IH]; simpl; [reflexivity |].
  rewrite IH, (H a). reflexivity.
Qed.

(** The quadratic form of the three sums is a sum of squares. *)
Lemma quadratic_nonneg (mx my s u : Q) (l : list (Q * Q)) :
  (0 <= sum_xx mx l * s * s + 2 * sum_xy mx my l * s * u + sum_yy my l * u * u)%Q.
Proof.
  unfold sum_xx, sum_xy, sum_yy, Qsum.
  induction l as [| [x y] l IH]; cbn [map fold_right fst snd].
  - nra.
  - set (A := fold_right Qplus 0%Q (map (fun p => (fst p - mx) * (fst p - mx))%Q l)) in *.
    set (B := fold_right Qplus 0%Q (map (fun p => (snd p - my) * (snd p - my))%Q l)) in *.
    set (C := fold_right Qplus 0%Q (map (fun p => (fst p - mx) * (snd p - my))%Q l)) in *.
    clearbody A B C.
    assert (0 <= ((x - mx) * s + (y - my) * u) * ((x - mx) * s + (y - my) * u))%Q
      as Hsq by (generalize ((x - mx) * s + (y - my) * u)%Q; intros t; nra).
    nra.
Qed.

(** Cauchy-Schwarz for the centred sums. *)
Lemma cauchy_schwarz (mx my : Q) (l : list (Q * Q)) :
  (sum_xy mx my l * sum_xy mx my l <= sum_xx mx l * sum_yy my l)%Q.
Proof.
  pose proof (fun s u => quadratic_nonneg mx my s u l) as H.
  set (A := sum_xx mx l) in *. set (B := sum_yy my l) in *.
  set (C := sum_xy mx my l) in *.
  assert (0 <= A)%Q as HA by (pose proof (H 1 0)%Q; nra).
  destruct (Qeq_dec A 0) as [HA0 | HA0].
  - destruct (Qeq_dec C 0) as [HC0 | HC0]; [nra |].
    exfalso. pose proof (H (- (B + 1) / (2 * C)) 1)%Q as H1.
    assert (A * (- (B + 1) / (2 * C)) * (- (B + 1) / (2 * C))
            + 2 * C * (- (B + 1) / (2 * C)) * 1 + B * 1 * 1 == - (1))%Q as E.
    { rewrite HA0. field. exact HC0. }
    rewrite E in H1. revert H1. unfold Qle. simpl. lia.
  - assert (0 < A)%Q as HApos.
    { apply Qle_lt_or_eq in HA. destruct HA as [HA | HA]; [exact HA |].
      exfalso. apply HA0. symmetry. exact HA. }
    pose proof (H (- C) A)%Q as H1. nra.
Qed.

Lemma Q2R_zero : Q2R 0 = 0%R.
Proof. unfold Q2R. simpl. lra. Qed.

Lemma coefficient_of_range (sxy d2 : Q) (r : R) :
  (sxy * sxy <= d2)%Q -> coefficient_of sxy d2 = rho r -> (-1 <= r <= 1)%R.
Proof.
  intros Hcs. unfold coefficient_of.
  destruct (Qeq_bool d2 0) eqn:E; [discriminate |].
  intros Hr. injection Hr as <-.
  assert (0 < d2)%Q as Hpos.
  { assert (0 <= d2)%Q as H0.
    { apply Qle_trans with (sxy * sxy)%Q; [nra | exact Hcs]. }
    apply Qle_lt_or_eq in H0. destruct H0 as [H0 | H0]; [exact H0 |].
    symmetry in H0. apply Qeq_bool_iff in H0. congruence. }
  apply Qlt_Rlt in Hpos. rewrite Q2R_zero in Hpos.
  apply Qle_Rle in Hcs. rewrite Q2R_mult in Hcs.
  set (c := Q2R sxy) in *. set (d := Q2R d2) in *.
  assert (0 < sqrt d)%R as Hs by (apply sqrt_lt_R0; exact Hpos).
  assert (sqrt d * sqrt d = d)%R as Hsq by (apply sqrt_sqrt; lra).
  assert (- sqrt d <= c <= sqrt d)%R as [Hlo Hhi] by (split; nra).
  assert (c / sqrt d * sqrt d = c)%R as Hq by (field; lra).
  split; apply Rmult_le_reg_r with (sqrt d); trivial; rewrite Hq; lra.
Qed.

Lemma coefficient_of_ext (a b a' b' : Q) :
  (a == a')%Q -> (b == b')%Q -> coefficient_of a b = coefficient_of a' b'.
Proof.
  intros Ha Hb. unfold coefficient_of.
  assert (Qeq_bool b 0 = Qeq_bool b' 0) as E.
  { destruct (Qeq_bool b 0) eqn:E1, (Qeq_bool b' 0) eqn:E2; trivial.
    - apply Qeq_bool_iff in E1. rewrite Hb in E1. apply Qeq_bool_iff in E1. congruence.
    - apply Qeq_bool_iff in E2. rewrite <- Hb in E2. apply Qeq_bool_iff in E2. congruence. }
  rewrite E. destruct (Qeq_bool b' 0); [reflexivity |].
  rewrite (Qeq_eqR _ _ Ha), (Qeq_eqR _ _ Hb). reflexivity.
Qed.

Lemma corrcoef_range (l : list (Q * Q)) (r : R) :
  corrcoef l = rho r -> (-1 <= r <= 1)%R.
Proof.
  unfold corrcoef, pearson_parts. simpl. apply coefficient_of_range.
  apply cauchy_schwarz.
Qed.

Lemma spearmanr_range (a b : list cell) (r : R) :
  spearmanr a b = rho r -> (-1 <= r <= 1)%R.
Proof.
  unfold spearmanr, spearman.
  destruct (floats a); [| discriminate].
  destruct (floats b); [| discriminate].
  apply corrcoef_range.
Qed.

(** *** Swapping the two columns *)

Lemma combine_swap {A B : Type} (l1 : list A) (l2 : list B) :
  combine l2 l1 = map (fun p => (snd p, fst p)) (combine l1 l2).
Proof.
  revert l2. induction l1 as [| a l1 IH]; intros [| b l2]; simpl; trivial.
  rewrite IH. reflexivity.
Qed.

Lemma corrcoef_swap (l : list (Q * Q)) :
  corrcoef (map (fun p => (snd p, fst p)) l) = corrcoef l.
Proof.
  unfold corrcoef, pearson_parts. simpl. rewrite !map_map. simpl.
  unfold sum_xy, sum_xx, sum_yy. rewrite !map_map. simpl.
  apply coefficient_of_ext.
  - apply Qsum_map_ext. intros p. apply Qmult_comm.
  - apply Qmult_comm.
Qed.

Lemma spearmanr_sym (a b : list cell) : spearmanr b a = spearmanr a b.
Proof.
  unfold spearmanr, spearman.
  destruct (floats a) as [xs |], (floats b) as [ys |]; trivial.
  rewrite combine_swap. apply corrcoef_swap.
Qed.

Lemma df_corr_sym (x y : string) (rs : list row) : df_corr y x rs = df_corr x y rs.
Proof.
  unfold df_corr, dropna. apply filter_ext. intros r. simpl.
  rewrite !andb_true_r. apply andb_comm.
Qed.

(** *** Strictly increasing transforms *)

Lemma Qcompare_increasing (f : Q -> Q) (w v : Q) :
  strictly_increasing f -> (f w ?= f v)%Q = (w ?= v)%Q.
Proof.
  intros [Heq Hlt]. destruct (w ?= v)%Q eqn:E.
  - apply Qeq_alt. apply Heq. apply Qeq_alt. exact E.
  - apply Qlt_alt. apply Hlt. apply Qlt_alt. exact E.
  - apply Qgt_alt. apply Hlt. apply Qgt_alt in E. exact E.
Qed.

Lemma rank_increasing (f : Q -> Q) (l : list Q) (v : Q) :
  strictly_increasing f -> rank (map f l) (f v) = rank l v.
Proof.
  intros Hf. unfold rank, count_lt, count_eq.
  assert (forall (t : comparison -> bool),
             List.length (filter (fun w => t (w ?= f v)%Q) (map f l))
             = List.length (filter (fun w => t (w ?= v)%Q) l)) as H.
  { intros t. induction l as [| a l IH]; simpl; [reflexivity |].
    rewrite (Qcompare_increasing f a v Hf).
    destruct (t (a ?= v)%Q); simpl; rewrite IH; reflexivity. }
  rewrite (H (fun c => match c with Lt => true | _ => false end)).
  rewrite (H (fun c => match c with Eq => true | _ => false end)).
  reflexivity.
Qed.

Lemma rankdata_increasing (f : Q -> Q) (l : list Q) :
  strictly_increasing f -> rankdata (map f l) = rankdata l.
Proof.
  intros Hf. unfold rankdata. rewrite map_map. apply map_ext.
  intros v. apply rank_increasing, Hf.
Qed.

Lemma floats_map_cell (f : Q -> Q) (cs : list cell) :
  floats (map (map_cell f) cs) = option_map (map f) (floats cs).
Proof.
  induction cs as [| c cs IH]; simpl; [reflexivity |].
  destruct c; simpl; trivial. rewrite IH. destruct (floats cs); reflexivity.
Qed.

Lemma spearmanr_increasing_l (f : Q -> Q) (a b : list cell) :
  strictly_increasing f -> spearmanr (map (map_cell f) a) b = spearmanr a b.
Proof.
  intros Hf. unfold spearmanr, spearman. rewrite floats_map_cell.
  destruct (floats a) as [xs |]; simpl; trivial.
  rewrite (rankdata_increasing f xs Hf). reflexivity.
Qed.

Lemma spearmanr_increasing_r (f : Q -> Q) (a b : list cell) :
  strictly_increasing f -> spearmanr a (map (map_cell f) b) = spearmanr a b.
Proof.
  intros Hf. rewrite (spearmanr_sym (map (map_cell f) b) a).
  rewrite (spearmanr_increasing_l f b a Hf). apply spearmanr_sym.
Qed.

Lemma get_map_column_same (c : string) (f : Q -> Q) (r : row) :
  get c (map_column c f r) = map_cell f (get c r).
Proof.
  induction r as [| [k v] r IH]; simpl; [reflexivity |].
  destruct (String.eqb k c) eqn:E; simpl; rewrite E; [reflexivity | exact IH].
Qed.

Lemma get_map_column_other (c d : string) (f : Q -> Q) (r : row) :
  c <> d -> get d (map_column c f r) = get d r.
Proof.
  intros Hcd. induction r as [| [k v] r IH]; simpl; [reflexivity |].
  destruct (String.eqb k c) eqn:E; simpl.
  - apply String.eqb_eq in E. subst k.
    destruct (String.eqb_spec c d); [contradiction | reflexivity].
  - rewrite IH. reflexivity.
Qed.

Lemma notna_map_cell (f : Q -> Q) (c : cell) : notna (map_cell f c) = notna c.
Proof. destruct c; reflexivity. Qed.

Lemma filter_map {A B : Type} (p : B -> bool) (g : A -> B) (l : list A) :
  filter p (map g l) = map g (filter (fun a => p (g a)) l).
Proof.
  induction l as [| a l IH]; simpl; [reflexivity |].
  destruct (p (g a)); simpl; rewrite IH; reflexivity.
Qed.

Lemma df_corr_map_column (c x y : string) (f : Q -> Q) (rs : list row) :
  df_corr x y (map (map_column c f) rs) = map (map_column c f) (df_corr x y rs).
Proof.
  unfold df_corr, dropna. rewrite filter_map. f_equal.
  apply filter_ext. intros r. simpl.
  assert (forall d, notna (get d (map_column c f r)) = notna (get d r)) as H.
  { intros d. destruct (String.eqb_spec c d) as [-> | Hne].
    - rewrite get_map_column_same. apply notna_map_cell.
    - rewrite (get_map_column_other c d f r Hne). reflexivity. }
  rewrite !H. reflexivity.
Qed.

Lemma column_map_column_same (c : string) (f : Q -> Q) (rs : list row) :
  column c (map (map_column c f) rs) = map (map_cell f) (column c rs).
Proof.
  unfold column. rewrite !map_map. apply map_ext. intros r.
  apply get_map_column_same.
Qed.

Lemma column_map_column_other (c d : string) (f : Q -> Q) (rs : list row) :
  c <> d -> column d (map (map_column c f) rs) = column d rs.
Proof.
  intros H. unfold column. rewrite map_map. apply map_ext. intros r.
  apply get_map_column_other, H.
Qed.

(** *** Permuting the rows *)

Lemma filter_perm {A : Type} (p : A -> bool) (l l' : list A) :
  Permutation l l' -> Permutation (filter p l) (filter p l').
Proof.
  induction 1 as [| a l l' _ IH | a b l | l l' l'' _ IH1 _ IH2]; simpl.
  - constructor.
  - destruct (p a); [constructor |]; exact IH.
  - destruct (p a), (p b); try apply Permutation_refl. constructor.
  - eapply Permutation_trans; eassumption.
Qed.

Lemma forallb_perm {A : Type} (p : A -> bool) (l l' : list A) :
  Permutation l l' -> forallb p l = forallb p l'.
Proof.
  induction 1 as [| a l l' _ IH | a b l | l l' l'' _ IH1 _ IH2]; simpl.
  - reflexivity.
  - rewrite IH. reflexivity.
  - destruct (p a), (p b); reflexivity.
  - congruence.
Qed.

Lemma rank_perm (l l' : list Q) (v : Q) :
  Permutation l l' -> rank l' v = rank l v.
Proof.
  intros H. unfold rank, count_lt, count_eq.
  rewrite (Permutation_length (filter_perm _ l l' H)).
  rewrite (Permutation_length
             (filter_perm (fun w => match (w ?= v)%Q with Eq => true | _ => false end)
                          l l' H)).
  reflexivity.
Qed.

Lemma Qmean_perm (l l' : list Q) : Permutation l l' -> (Qmean l == Qmean l')%Q.
Proof.
  intros H. unfold Qmean, Qlen.
  rewrite (Permutation_length H), (Qsum_perm l l' H). reflexivity.
Qed.

Lemma Qsum_map_perm {A : Type} (g h : A -> Q) (l l' : list A) :
  (forall a, (g a == h a)%Q) -> Permutation l l' ->
  (Qsum (map g l) == Qsum (map h l'))%Q.
Proof.
  intros Hgh Hp. rewrite (Qsum_map_ext g h l Hgh).
  apply Qsum_perm, Permutation_map, Hp.
Qed.

Lemma corrcoef_perm (l l' : list (Q * Q)) :
  Permutation l l' -> corrcoef l' = corrcoef l.
Proof.
  intros Hp. unfold corrcoef, pearson_parts. simpl.
  assert (Qmean (map fst l) == Qmean (map fst l'))%Q as Hx
    by (apply Qmean_perm, Permutation_map, Hp).
  assert (Qmean (map snd l) == Qmean (map snd l'))%Q as Hy
    by (apply Qmean_perm, Permutation_map, Hp).
  symmetry. apply coefficient_of_ext.
  - unfold sum_xy. apply Qsum_map_perm; [| exact Hp].
    intros p. rewrite Hx, Hy. reflexivity.
  - assert (sum_xx (Qmean (map fst l)) l == sum_xx (Qmean (map fst l')) l')%Q as Hxx.
    { unfold sum_xx. apply Qsum_map_perm; [| exact Hp].
      intros p. rewrite Hx. reflexivity. }
    assert (sum_yy (Qmean (map snd l)) l == sum_yy (Qmean (map snd l')) l')%Q as Hyy.
    { unfold sum_yy. apply Qsum_map_perm; [| exact Hp].
      intros p. rewrite Hy. reflexivity. }
    rewrite Hxx, Hyy. reflexivity.
Qed.

Lemma floats_spec (cs : list cell) :
  floats cs = if forallb is_num cs then Some (map num cs) else None.
Proof.
  induction cs as [| c cs IH]; simpl; [reflexivity |].
  destruct c; simpl; trivial. rewrite IH.
  destruct (forallb is_num cs); reflexivity.
Qed.

Lemma combine_map {A B C : Type} (g : A -> B) (h : A -> C) (l : list A) :
  combine (map g l) (map h l) = map (fun a => (g a, h a)) l.
Proof.
  induction l as [| a l IH]; simpl; [reflexivity |]. rewrite IH. reflexivity.
Qed.

(** Spearman's coefficient of two columns of one table, row by row. *)
Lemma spearman_rows {A : Type} (fx fy : A -> Q) (d : list A) :
  spearman (map fx d) (map fy d)
  = corrcoef (map (fun a => (rank (map fx d) (fx a), rank (map fy d) (fy a))) d).
Proof.
  unfold spearman, rankdata. rewrite !map_map, combine_map. reflexivity.
Qed.

Lemma spearman_perm {A : Type} (fx fy : A -> Q) (d d' : list A) :
  Permutation d d' ->
  spearman (map fx d') (map fy d') = spearman (map fx d) (map fy d).
Proof.
  intros Hp. rewrite !spearman_rows.
  assert (map (fun a => (rank (map fx d') (fx a), rank (map fy d') (fy a))) d'
          = map (fun a => (rank (map fx d) (fx a), rank (map fy d) (fy a))) d') as E.
  { apply map_ext. intros a.
    rewrite (rank_perm (map fx d) (map fx d') (fx a) (Permutation_map fx Hp)).
    rewrite (rank_perm (map fy d) (map fy d') (fy a) (Permutation_map fy Hp)).
    reflexivity. }
  rewrite E. apply corrcoef_perm, Permutation_map, Hp.
Qed.

Lemma spearman_corr_perm (x y : string) (rs rs' : list row) :
  Permutation rs rs' -> spearman_corr x y rs' = spearman_corr x y rs.
Proof.
  intros Hp. unfold spearman_corr, spearmanr.
  assert (Permutation (df_corr x y rs) (df_corr x y rs')) as Hd
    by (apply filter_perm, Hp).
  rewrite !floats_spec. unfold column.
  rewrite <- (forallb_perm is_num _ _ (Permutation_map (get x) Hd)).
  rewrite <- (forallb_perm is_num _ _ (Permutation_map (get y) Hd)).
  destruct (forallb is_num (map (get x) (df_corr x y rs))); trivial.
  destruct (forallb is_num (map (get y) (df_corr x y rs))); trivial.
  rewrite !map_map.
  apply (spearman_perm (fun r => num (get x r)) (fun r => num (get y r)) _ _ Hd).
Qed.

(** *** When the coefficient is a number *)

Lemma sum_sq_zero (m : Q) (a : list Q) :
  (Qsum (map (fun v => (v - m) * (v - m)) a) == 0)%Q
  <-> forall v, In v a -> (v == m)%Q.
Proof.
  induction a as [| w a IH]; simpl.
  - split; [intros _ v [] | reflexivity].
  - assert (0 <= (w - m) * (w - m))%Q as Hw
      by (generalize (w - m)%Q; intros t; nra).
    assert (0 <= Qsum (map (fun v => (v - m) * (v - m)) a))%Q as Ha.
    { clear. induction a as [| u a IH]; simpl; [apply Qle_refl |].
      assert (0 <= (u - m) * (u - m))%Q
        by (generalize (u - m)%Q; intros t; nra).
      lra. }
    split.
    + intros H v [<- | Hv].
      * assert ((w - m) * (w - m) == 0)%Q as Hz by lra.
        apply Qmult_integral in Hz. lra.
      * apply IH; [lra | exact Hv].
    + intros H.
      assert (w == m)%Q as E by (apply H; left; reflexivity).
      assert (Qsum (map (fun v => (v - m) * (v - m)) a) == 0)%Q as E'
        by (apply IH; intros v Hv; apply H; right; exact Hv).
      rewrite E', E. ring.
Qed.

Lemma map_fst_combine {A B : Type} (a : list A) (b : list B) :
  List.length a = List.length b -> map fst (combine a b) = a.
Proof.
  revert b. induction a as [| x a IH]; intros [| y b] H; simpl in *;
    try discriminate; trivial.
  f_equal. apply IH. lia.
Qed.

Lemma map_snd_combine {A B : Type} (a : list A) (b : list B) :
  List.length a = List.length b -> map snd (combine a b) = b.
Proof.
  revert b. induction a as [| x a IH]; intros [| y b] H; simpl in *;
    try discriminate; trivial.
  f_equal. apply IH. lia.
Qed.

Lemma sum_xx_combine (m : Q) (a b : list Q) :
  List.length a = List.length b ->
  sum_xx m (combine a b) = Qsum (map (fun v => (v - m) * (v - m))%Q a).
Proof.
  intros H. unfold sum_xx.
  rewrite <- (map_fst_combine a b H) at 2. rewrite map_map. reflexivity.
Qed.

Lemma sum_yy_combine (m : Q) (a b : list Q) :
  List.length a = List.length b ->
  sum_yy m (combine a b) = Qsum (map (fun v => (v - m) * (v - m))%Q b).
Proof.
  intros H. unfold sum_yy.
  rewrite <- (map_snd_combine a b H) at 2. rewrite map_map. reflexivity.
Qed.

Lemma Qmean_all (c : Q) (a : list Q) :
  a <> [] -> (forall v, In v a -> (v == c)%Q) -> (Qmean a == c)%Q.
Proof.
  intros Hne H. unfold Qmean.
  assert (Qsum a == c * Qlen a)%Q as E.
  { clear Hne. unfold Qlen. induction a as [| w a IH].
    - simpl. ring.
    - assert (w == c)%Q as Hw by (apply H; left; reflexivity).
      assert (Qsum a == c * inject_Z (Z.of_nat (List.length a)))%Q as Ha
        by (apply IH; intros v Hv; apply H; right; exact Hv).
      change (Qsum (w :: a)) with (w + Qsum a)%Q.
      cbn [List.length]. rewrite Nat2Z.inj_succ. unfold Z.succ.
      rewrite inject_Z_plus, Ha, Hw. ring. }
  rewrite E. destruct a as [| w a]; [contradiction |].
  field. intros H0. pose proof (Qlen_pos w a) as Hp. rewrite H0 in Hp.
  apply (Qlt_irrefl _ Hp).
Qed.

(** In a constant array every value has the same rank. *)
Lemma rank_constant (l : list Q) (a b : Q) :
  constant l -> In a l -> In b l -> rank l a = rank l b.
Proof.
  intros Hc Ha Hb. unfold rank, count_lt, count_eq.
  assert (forall (t : comparison -> bool),
             filter (fun w => t (w ?= a)%Q) l = filter (fun w => t (w ?= b)%Q) l) as H.
  { intros t. apply filter_ext_in. intros w Hw.
    assert ((w ?= a)%Q = Eq) as -> by (apply Qeq_alt, Hc; assumption).
    assert ((w ?= b)%Q = Eq) as -> by (apply Qeq_alt, Hc; assumption).
    reflexivity. }
  rewrite (H (fun c => match c with Lt => true | _ => false end)).
  rewrite (H (fun c => match c with Eq => true | _ => false end)).
  reflexivity.
Qed.

Lemma count_below (l : list Q) (a b : Q) :
  (a < b)%Q -> (count_lt a l + count_eq a l <= count_lt b l)%nat.
Proof.
  intros Hab. unfold count_lt, count_eq.
  induction l as [| w l IH]; simpl; [lia |].
  destruct (w ?= a)%Q eqn:Ea.
  - apply Qeq_alt in Ea.
    assert ((w ?= b)%Q = Lt) as -> by (apply Qlt_alt; rewrite Ea; exact Hab).
    simpl. lia.
  - apply Qlt_alt in Ea.
    assert ((w ?= b)%Q = Lt) as ->
      by (apply Qlt_alt; apply Qlt_trans with a; assumption).
    simpl. lia.
  - destruct (w ?= b)%Q; simpl; lia.
Qed.

Lemma count_eq_pos (l : list Q) (b : Q) : In b l -> (1 <= count_eq b l)%nat.
Proof.
  unfold count_eq. induction l as [| w l IH]; simpl; [intros [] |].
  intros [-> | H].
  - assert ((b ?= b)%Q = Eq) as -> by (apply Qeq_alt; reflexivity). simpl. lia.
  - destruct (w ?= b)%Q; simpl; [lia | apply IH, H | apply IH, H].
Qed.

Lemma inject_nat_le (n m : nat) :
  (n <= m)%nat -> (inject_Z (Z.of_nat n) <= inject_Z (Z.of_nat m))%Q.
Proof. intros H. rewrite <- Zle_Qle. lia. Qed.

(** Ranks follow the order of the values. *)
Lemma rank_lt (l : list Q) (a b : Q) :
  In b l -> (a < b)%Q -> (rank l a < rank l b)%Q.
Proof.
  intros Hb Hab. unfold rank.
  pose proof (inject_nat_le _ _ (count_below l a b Hab)) as H1.
  rewrite Nat2Z.inj_add, inject_Z_plus in H1.
  pose proof (inject_nat_le _ _ (count_eq_pos l b Hb)) as H2.
  pose proof (inject_nat_le 0 (count_eq a l) (Nat.le_0_l _)) as H3.
  change (inject_Z (Z.of_nat 1)) with 1%Q in H2.
  change (inject_Z (Z.of_nat 0)) with 0%Q in H3.
  set (la := inject_Z (Z.of_nat (count_lt a l))) in *.
  set (ea := inject_Z (Z.of_nat (count_eq a l))) in *.
  set (lb := inject_Z (Z.of_nat (count_lt b l))) in *.
  set (eb := inject_Z (Z.of_nat (count_eq b l))) in *.
  clearbody la ea lb eb.
  unfold Qdiv. change (/ 2)%Q with (1 # 2)%Q. lra.
Qed.

Lemma sum_sq_rank_constant (l : list Q) :
  constant l ->
  (Qsum (map (fun v => (v - Qmean (rankdata l)) * (v - Qmean (rankdata l)))
             (rankdata l)) == 0)%Q.
Proof.
  intros Hc. destruct l as [| a l]; [reflexivity |].
  apply sum_sq_zero.
  assert (forall v, In v (rankdata (a :: l)) -> v == rank (a :: l) a)%Q as Hall.
  { intros v Hv. unfold rankdata in Hv. apply in_map_iff in Hv.
    destruct Hv as [w [<- Hw]].
    rewrite (rank_constant (a :: l) w a Hc Hw (or_introl eq_refl)). reflexivity. }
  intros v Hv. rewrite (Qmean_all (rank (a :: l) a) (rankdata (a :: l))).
  - apply Hall, Hv.
  - discriminate.
  - exact Hall.
Qed.

Lemma sum_sq_rank_varies (l : list Q) :
  varies l ->
  ~ (Qsum (map (fun v => (v - Qmean (rankdata l)) * (v - Qmean (rankdata l)))
               (rankdata l)) == 0)%Q.
Proof.
  intros [a [b [Ha [Hb Hab]]]] H0.
  pose proof (proj1 (sum_sq_zero _ _) H0) as Hall.
  pose proof (rank_lt l a b Hb Hab) as Hlt.
  assert (In (rank l a) (rankdata l)) as Ia by (apply in_map, Ha).
  assert (In (rank l b) (rankdata l)) as Ib by (apply in_map, Hb).
  rewrite (Hall _ Ia), (Hall _ Ib) in Hlt. apply (Qlt_irrefl _ Hlt).
Qed.

Lemma rankdata_length (l : list Q) : List.length (rankdata l) = List.length l.
Proof. unfold rankdata. apply length_map. Qed.

Lemma spearman_constant (xs ys : list Q) :
  List.length xs = List.length ys ->
  constant xs \/ constant ys -> spearman xs ys = nan.
Proof.
  intros Hlen Hc. unfold spearman, corrcoef, pearson_parts. simpl.
  assert (List.length (rankdata xs) = List.length (rankdata ys)) as Hl
    by (rewrite !rankdata_length; exact Hlen).
  rewrite (map_fst_combine _ _ Hl), (map_snd_combine _ _ Hl).
  rewrite (sum_xx_combine _ _ _ Hl), (sum_yy_combine _ _ _ Hl).
  unfold coefficient_of.
  match goal with |- (if Qeq_bool ?d 0 then _ else _) = _ =>
    assert (d == 0)%Q as E end.
  { destruct Hc as [Hc | Hc].
    - rewrite (sum_sq_rank_constant xs Hc). ring.
    - rewrite (sum_sq_rank_constant ys Hc). ring. }
  apply Qeq_bool_iff in E. rewrite E. reflexivity.
Qed.

Lemma spearman_varies (xs ys : list Q) :
  List.length xs = List.length ys ->
  varies xs -> varies ys ->
  exists r, spearman xs ys = rho r /\ (-1 <= r <= 1)%R.
Proof.
  intros Hlen Hx Hy.
  destruct (spearman xs ys) as [| r] eqn:E.
  - exfalso. revert E. unfold spearman, corrcoef, pearson_parts. simpl.
    assert (List.length (rankdata xs) = List.length (rankdata ys)) as Hl
      by (rewrite !rankdata_length; exact Hlen).
    rewrite (map_fst_combine _ _ Hl), (map_snd_combine _ _ Hl).
    rewrite (sum_xx_combine _ _ _ Hl), (sum_yy_combine _ _ _ Hl).
    unfold coefficient_of.
    match goal with |- (if Qeq_bool ?d 0 then _ else _) = _ -> _ =>
      destruct (Qeq_bool d 0) eqn:Ed end; [| discriminate].
    intros _. apply Qeq_bool_iff in Ed. apply Qmult_integral in Ed.
    destruct Ed as [Ed | Ed].
    + apply (sum_sq_rank_varies xs Hx Ed).
    + apply (sum_sq_rank_varies ys Hy Ed).
  - exists r. split; [reflexivity |].
    unfold spearman in E. apply (corrcoef_range _ _ E).
Qed.

Lemma floats_length (cs : list cell) (l : list Q) :
  floats cs = Some l -> List.length l = List.length cs.
Proof.
  revert l. induction cs as [| c cs IH]; intros l; simpl.
  - intros H. injection H as <-. reflexivity.
  - destruct c; try discriminate.
    destruct (floats cs) as [l' |]; [| discriminate].
    intros H. injection H as <-. simpl. f_equal. apply IH. reflexivity.
Qed.

(** *** Values on the sample tables *)

Lemma coefficient_of_one : coefficient_of 5 25 = rho 1.
Proof.
  unfold coefficient_of. simpl. f_equal.
  assert (Q2R 25 = 5 * 5)%R as E25 by (unfold Q2R; simpl; lra).
  assert (Q2R 5 = 5)%R as E5 by (unfold Q2R; simpl; lra).
  rewrite E25, E5, sqrt_square by lra. field.
Qed.

Lemma spearman_corr_monotonic : spearman_corr "pH" "OD" monotonic_table = rho 1.
Proof.
  rewrite <- coefficient_of_one.
  change (spearman_corr "pH" "OD" monotonic_table)
    with (corrcoef (combine (rankdata [1; 2; 3; 4]%Q) (rankdata [10; 20; 30; 40]%Q))).
  unfold corrcoef. apply coefficient_of_ext; vm_compute; reflexivity.
Qed.

Lemma spearman_corr_constant : spearman_corr "pH" "OD" constant_x_table = nan.
Proof.
  change (spearman_corr "pH" "OD" constant_x_table)
    with (corrcoef (combine (rankdata [1; 1]%Q) (rankdata [1; 2]%Q))).
  unfold corrcoef.
  rewrite (coefficient_of_ext _ _ 0 0); [reflexivity | vm_compute; reflexivity ..].
Qed.

Lemma twice_plus_one_increasing : strictly_increasing twice_plus_one.
Proof.
  unfold strictly_increasing, twice_plus_one. split; intros a b H.
  - rewrite H. reflexivity.
  - lra.
Qed.

Lemma spearman_corr_map_x (f : Q -> Q) (x y : string) (rs : list row) :
  strictly_increasing f -> x <> y ->
  spearman_corr x y (map (map_column x f) rs) = spearman_corr x y rs.
Proof.
  intros Hf Hxy. unfold spearman_corr.
  rewrite df_corr_map_column, column_map_column_same.
  rewrite (column_map_column_other x y f _ Hxy).
  apply spearmanr_increasing_l, Hf.
Qed.

Lemma spearman_corr_map_y (f : Q -> Q) (x y : string) (rs : list row) :
  strictly_increasing f -> x <> y ->
  spearman_corr x y (map (map_column y f) rs) = spearman_corr x y rs.
Proof.
  intros Hf Hxy. unfold spearman_corr.
  rewrite df_corr_map_column, column_map_column_same.
  rewrite (column_map_column_other y x f _ (not_eq_sym Hxy)).
  apply spearmanr_increasing_r, Hf.
Qed.

(** C3, as stated, fails: two paired rows whose X value is the same give no
    coefficient in [-1, 1]; the ranks of X are constant, the quotient is
    zero by zero, and the stage writes nan. *)
Lemma spearman_range_counterexample :
  "pH" <> "OD"
  /\ (2 <= List.length (df_corr "pH" "OD" constant_x_table))%nat
  /\ correlation_stage "pH" "OD" constant_x_table
     = ([st_scatter_chart constant_x_table "pH" "OD";
         st_subheader "Coeficiente de Correlação de Spearman";
         st_write_coef nan], inr tt)
  /\ ~ (exists r, spearman_corr "pH" "OD" constant_x_table = rho r
                  /\ (-1 <= r <= 1)%R).
Proof.
  assert ("pH" <> "OD") as Hne by discriminate.
  assert (2 <= List.length (df_corr "pH" "OD" constant_x_table))%nat as Hlen
    by (simpl; lia).
  split; [exact Hne |]. split; [exact Hlen |]. split.
  - rewrite (correlation_stage_coef "pH" "OD" constant_x_table Hlen Hne).
    rewrite spearman_corr_constant. reflexivity.
  - rewrite spearman_corr_constant. intros [r [H _]]. discriminate H.
Qed.

Lemma spearman_corr_floats (x y : string) (rs : list row) (xs ys : list Q) :
  floats (column x (df_corr x y rs)) = Some xs ->
  floats (column y (df_corr x y rs)) = Some ys ->
  spearman_corr x y rs = spearman xs ys /\ List.length xs = List.length ys.
Proof.
  intros Hx Hy. unfold spearman_corr, spearmanr. rewrite Hx, Hy.
  split; [reflexivity |].
  rewrite (floats_length _ _ Hx), (floats_length _ _ Hy).
  unfold column. rewrite !length_map. reflexivity.
Qed.

(** C3, amended.  When the stage produces a coefficient it writes
    [spearman_corr], the Spearman coefficient of the paired rows as the
    specification defines it (Pearson's coefficient of the ranks, in exact
    arithmetic).  With [xs] and [ys] the X and Y values of the paired rows:
    if one of them is constant the coefficient is nan; if both vary it is a
    number in [-1, 1]; in any case a coefficient that is a number lies in
    [-1, 1].  It is the same with X and Y swapped, after a strictly
    increasing transform of either column (the ranks themselves are
    unchanged), and after any permutation of the rows; and for
    X = 1, 2, 3, 4 and Y = 10, 20, 30, 40 it is 1. *)
Theorem spearman_properties (x y : string) (rs : list row) :
  ((2 <= List.length (df_corr x y rs))%nat -> x <> y ->
     correlation_stage x y rs
     = ([st_scatter_chart (df_corr x y rs) x y;
         st_subheader "Coeficiente de Correlação de Spearman";
         st_write_coef (spearman_corr x y rs)], inr tt))
  /\ (forall xs ys,
        floats (column x (df_corr x y rs)) = Some xs ->
        floats (column y (df_corr x y rs)) = Some ys ->
        (constant xs \/ constant ys -> spearman_corr x y rs = nan)
        /\ (varies xs -> varies ys ->
            exists r, spearman_corr x y rs = rho r /\ (-1 <= r <= 1)%R))
  /\ (forall r, spearman_corr x y rs = rho r -> (-1 <= r <= 1)%R)
  /\ spearman_corr y x rs = spearman_corr x y rs
  /\ (forall f, strictly_increasing f -> x <> y ->
        spearman_corr x y (map (map_column x f) rs) = spearman_corr x y rs
        /\ spearman_corr x y (map (map_column y f) rs) = spearman_corr x y rs)
  /\ (forall f xs, strictly_increasing f -> rankdata (map f xs) = rankdata xs)
  /\ (forall rs', Permutation rs rs' -> spearman_corr x y rs' = spearman_corr x y rs)
  /\ spearman_corr "pH" "OD" monotonic_table = rho 1.
Proof.
  split; [apply correlation_stage_coef |].
  split.
  { intros xs ys Hx Hy.
    destruct (spearman_corr_floats x y rs xs ys Hx Hy) as [-> Hlen]. split.
    - apply spearman_constant, Hlen.
    - apply spearman_varies, Hlen. }
  split; [intros r; unfold spearman_corr; apply spearmanr_range |].
  split.
  { unfold spearman_corr. rewrite df_corr_sym. apply spearmanr_sym. }
  split.
  { intros f Hf Hxy. split.
    - apply spearman_corr_map_x; assumption.
    - apply spearman_corr_map_y; assumption. }
  split; [intros f xs Hf; apply rankdata_increasing, Hf |].
  split; [intros rs'; apply spearman_corr_perm |].
  apply spearman_corr_monotonic.
Qed.

(** Scenario 6 through the theorem, with the transform [q |-> 2 q + 1] on X. *)
Lemma spearman_properties_witness :
  strictly_increasing twice_plus_one
  /\ spearman_corr "pH" "OD" (map (map_column "pH" twice_plus_one) monotonic_table)
     = rho 1.
Proof.
  split; [exact twice_plus_one_increasing |].
  destruct (spearman_properties "pH" "OD" monotonic_table)
    as [_ [_ [_ [_ [Hf [_ [_ Hone]]]]]]].
  assert ("pH" <> "OD") as Hne by discriminate.
  destruct (Hf twice_plus_one twice_plus_one_increasing Hne) as [Hx _].
  rewrite Hx. exact Hone.
Defined.

(* ------------------------------------------------------------------ *)
(** ** A date column in which nothing parses *)
(* ------------------------------------------------------------------ *)

Lemma get_set_same (c : string) (v : cell) (r : row) : get c (set c v r) = v.
Proof.
  induction r as [| [k w] r IH]; simpl.
  - rewrite String.eqb_refl. reflexivity.
  - destruct (String.eqb k c) eqn:E; simpl; rewrite E; [reflexivity | exact IH].
Qed.

Lemma times_unparsed (ss : session) (rs : list row) :
  (forall r, In r rs -> parse_date ss (get "Data" r) = None) ->
  times (column "Data" (map (fun r => set "Data" (coerce ss (get "Data" r)) r) rs))
  = [].
Proof.
  intros H. induction rs as [| r rs IH]; simpl; [reflexivity |].
  rewrite get_set_same. unfold coerce at 1.
  rewrite (H r (or_introl eq_refl)). simpl.
  apply IH. intros r' Hr'. apply H. right. exact Hr'.
Qed.

(** When no value of [Data] parses (or the table has no rows), the minimum
    and the maximum are NaT and the date widget is called with NaT as value
    and bounds; what the page shows next is the widget's doing.  If the
    widget raises, the page ends with the catch-all message. *)
Lemma unparsed_dates_reach_widget (ss : session) (df : DataFrame) (e : exn) :
  In "Data" (column_names df) ->
  (forall r, In r (rows df) -> parse_date ss (get "Data" r) = None) ->
  date_input ss None None = inl e ->
  page ss (Some (inr df))
  = [st_title "Análise de Qualidade da Água";
     st_sidebar_header "Configurações";
     st_success "Dados carregados com sucesso!";
     st_subheader "Prévia dos Dados";
     st_write_head (firstn 5 (rows df));
     st_error (msg_load_error e)].
Proof.
  intros Hcol Hparse Hwidget. unfold page, script. simpl.
  rewrite (proj2 (has_column_spec "Data" df) Hcol). simpl.
  unfold series_min, series_max.
  rewrite (times_unparsed ss (rows df) Hparse). simpl.
  rewrite Hwidget. reflexivity.
Qed.

(* ================================================================== *)
(** * Further properties of the script *)
(* ================================================================== *)

(* ------------------------------------------------------------------ *)
(** ** The two filters together *)
(* ------------------------------------------------------------------ *)

Lemma filter_all {A : Type} (p : A -> bool) (l : list A) :
  (forall a, In a l -> p a = true) -> filter p l = l.
Proof.
  induction l as [| a l IH]; intros H; simpl; [reflexivity |].
  rewrite (H a (or_introl eq_refl)). f_equal.
  apply IH. intros b Hb. apply H. right. exact Hb.
Qed.

Lemma to_datetime_le (a b : Z) : a <= b -> to_datetime a <= to_datetime b.
Proof. unfold to_datetime, ns_per_day. lia. Qed.

Lemma date_mask_narrow (s e s' e' : Z) (r : row) :
  s <= s' -> e' <= e -> date_mask s' e' r = true -> date_mask s e r = true.
Proof.
  intros Hs He. rewrite !date_mask_spec. intros [t [Ht Hb]].
  exists t. split; [exact Ht |].
  pose proof (to_datetime_le s s' Hs). pose proof (to_datetime_le e' e He). lia.
Qed.

(** X1.  Narrowing the period after filtering gives the same rows as
    filtering the whole table by the narrower period, and these rows are a
    subsequence of the wider selection. *)
Theorem filter_periodo_narrow (s e s' e' : Z) (rs : list row)
  (Hs : s <= s') (He : e' <= e) :
  filter_periodo s' e' (filter_periodo s e rs) = filter_periodo s' e' rs
  /\ subseq (filter_periodo s' e' rs) (filter_periodo s e rs).
Proof.
  assert (filter_periodo s' e' (filter_periodo s e rs) = filter_periodo s' e' rs) as E.
  { unfold filter_periodo. rewrite filter_twice. apply filter_ext. intros r.
    destruct (date_mask s' e' r) eqn:E'.
    - rewrite (date_mask_narrow s e s' e' r Hs He E'). reflexivity.
    - apply andb_false_r. }
  split; [exact E |]. rewrite <- E. apply filter_subseq.
Qed.

Lemma filter_periodo_narrow_witness :
  1 <= 2 /\ 2 <= 3
  /\ filter_periodo 2 2 (filter_periodo 1 3 noon_table) = filter_periodo 2 2 noon_table.
Proof.
  assert (1 <= 2) as H1 by lia. assert (2 <= 3) as H2 by lia.
  split; [exact H1 |]. split; [exact H2 |].
  apply (filter_periodo_narrow 1 3 2 2 noon_table H1 H2).
Defined.


(** X3.  With every offered station selected (the default of the widget) the
    station filter drops no row: the filtered table is the table of the
    period.  With no station selected it is empty. *)
Theorem default_selection_keeps_period (s e : Z) (rs : list row) :
  df_filtrado s e (estacoes s e rs) rs = filter_periodo s e rs
  /\ df_filtrado s e [] rs = [].
Proof.
  split.
  - unfold df_filtrado, filter_estacao. apply filter_all. intros r Hr.
    unfold estacoes. apply isin_unique, isin_spec.
    exists (get "Estação" r). split; [| apply cell_eqb_refl].
    unfold column. apply in_map, Hr.
  - unfold df_filtrado, filter_estacao.
    induction (filter_periodo s e rs) as [| r l IH]; simpl; trivial.
Qed.

(* ------------------------------------------------------------------ *)
(** ** The default period *)
(* ------------------------------------------------------------------ *)

Lemma fold_min_spec (ts : list Z) (t : Z) :
  In (fold_right Z.min t ts) (t :: ts)
  /\ forall u, In u (t :: ts) -> fold_right Z.min t ts <= u.
Proof.
  induction ts as [| a ts [IHin IHle]]; simpl.
  - split; [left; reflexivity | intros u [<- | []]; lia].
  - split.
    + destruct (Z.min_spec a (fold_right Z.min t ts)) as [[_ ->] | [_ ->]].
      * right. left. reflexivity.
      * simpl in IHin. tauto.
    + intros u [<- | [<- | Hu]].
      * pose proof (IHle t (or_introl eq_refl)). lia.
      * lia.
      * pose proof (IHle u (or_intror Hu)). lia.
Qed.

Lemma fold_max_spec (ts : list Z) (t : Z) :
  In (fold_right Z.max t ts) (t :: ts)
  /\ forall u, In u (t :: ts) -> u <= fold_right Z.max t ts.
Proof.
  induction ts as [| a ts [IHin IHle]]; simpl.
  - split; [left; reflexivity | intros u [<- | []]; lia].
  - split.
    + destruct (Z.max_spec a (fold_right Z.max t ts)) as [[_ ->] | [_ ->]].
      * simpl in IHin. tauto.
      * right. left. reflexivity.
    + intros u [<- | [<- | Hu]].
      * pose proof (IHle t (or_introl eq_refl)). lia.
      * lia.
      * pose proof (IHle u (or_intror Hu)). lia.
Qed.

Lemma times_In (rs : list row) (r : row) (t : Z) :
  In r rs -> get "Data" r = Time t -> In t (times (column "Data" rs)).
Proof.
  intros Hr Ht. unfold times, column. apply in_flat_map.
  exists (get "Data" r). split; [apply in_map, Hr |].
  rewrite Ht. left. reflexivity.
Qed.

Lemma series_min_le (rs : list row) (lo : Z) :
  date_of (series_min (column "Data" rs)) = Some lo ->
  forall r t, In r rs -> get "Data" r = Time t -> to_datetime lo <= t.
Proof.
  unfold series_min. intros H r t Hr Ht.
  pose proof (times_In rs r t Hr Ht) as Hin.
  destruct (times (column "Data" rs)) as [| a ts]; [discriminate |].
  simpl in H. injection H as <-.
  pose proof (proj2 (fold_min_spec ts a) t Hin) as Hle.
  unfold to_datetime.
  pose proof (Z.mul_div_le (fold_right Z.min a ts) ns_per_day eq_refl). lia.
Qed.

Lemma series_max_ge (rs : list row) (hi : Z) :
  date_of (series_max (column "Data" rs)) = Some hi ->
  forall r t, In r rs -> get "Data" r = Time t -> t / ns_per_day <= hi.
Proof.
  unfold series_max. intros H r t Hr Ht.
  pose proof (times_In rs r t Hr Ht) as Hin.
  destruct (times (column "Data" rs)) as [| a ts]; [discriminate |].
  simpl in H. injection H as <-.
  pose proof (proj2 (fold_max_spec ts a) t Hin) as Hle.
  apply Z.div_le_mono; [reflexivity | exact Hle].
Qed.

Lemma midnight_le (t hi : Z) :
  at_midnight t -> t / ns_per_day <= hi -> t <= to_datetime hi.
Proof.
  unfold at_midnight, to_datetime. intros Hm Hle.
  pose proof (Z.div_mod t ns_per_day) as E.
  assert (ns_per_day <> 0) as Hd by discriminate.
  specialize (E Hd). rewrite Hm in E. unfold ns_per_day in *. lia.
Qed.

(** X4.  With the default period (the dates of the earliest and the latest
    timestamp) a row is kept exactly when its date parsed and its timestamp
    is not later than midnight of the last day: the lower bound never drops
    a row, a reading later in the last day is dropped, and when every
    timestamp is at midnight every row with a date is kept. *)
Theorem default_period_rows (rs : list row) (lo hi : Z)
  (Hlo : date_of (series_min (column "Data" rs)) = Some lo)
  (Hhi : date_of (series_max (column "Data" rs)) = Some hi) :
  (forall r, In r (filter_periodo lo hi rs)
             <-> In r rs /\ exists t, get "Data" r = Time t /\ t <= to_datetime hi)
  /\ (forall r t, In r rs -> get "Data" r = Time t -> to_datetime hi < t ->
                  ~ In r (filter_periodo lo hi rs))
  /\ ((forall r t, In r rs -> get "Data" r = Time t -> at_midnight t) ->
      forall r, In r (filter_periodo lo hi rs)
                <-> In r rs /\ exists t, get "Data" r = Time t).
Proof.
  assert (forall r, In r (filter_periodo lo hi rs)
             <-> In r rs /\ exists t, get "Data" r = Time t /\ t <= to_datetime hi)
    as Hchar.
  { intros r. unfold filter_periodo. rewrite filter_In, date_mask_spec. split.
    - intros [Hr [t [Ht Hb]]]. split; [exact Hr |]. exists t. split; [exact Ht | lia].
    - intros [Hr [t [Ht Hb]]]. split; [exact Hr |]. exists t. split; [exact Ht |].
      pose proof (series_min_le rs lo Hlo r t Hr Ht). lia. }
  split; [exact Hchar |]. split.
  - intros r t Hr Ht Hlate Hin. apply Hchar in Hin.
    destruct Hin as [_ [t' [Ht' Hle]]]. rewrite Ht in Ht'. injection Ht' as <-. lia.
  - intros Hmid r. rewrite Hchar. split.
    + intros [Hr [t [Ht _]]]. split; [exact Hr |]. exists t. exact Ht.
    + intros [Hr [t Ht]]. split; [exact Hr |]. exists t. split; [exact Ht |].
      apply midnight_le; [apply (Hmid r t Hr Ht) |].
      apply (series_max_ge rs hi Hhi r t Hr Ht).
Qed.

(** The reading at noon of the last day is not in the default selection. *)
Lemma default_period_rows_witness :
  date_of (series_min (column "Data" noon_table)) = Some 1
  /\ date_of (series_max (column "Data" noon_table)) = Some 3
  /\ ~ In (stamped (to_datetime 3 + 43200000000000) (Str "A"))
          (filter_periodo 1 3 noon_table).
Proof.
  assert (date_of (series_min (column "Data" noon_table)) = Some 1) as H1
    by reflexivity.
  assert (date_of (series_max (column "Data" noon_table)) = Some 3) as H3
    by reflexivity.
  split; [exact H1 |]. split; [exact H3 |].
  destruct (default_period_rows noon_table 1 3 H1 H3) as [_ [Hlate _]].
  apply (Hlate _ (to_datetime 3 + 43200000000000)).
  - simpl. tauto.
  - reflexivity.
  - unfold to_datetime, ns_per_day. lia.
Defined.

(* ------------------------------------------------------------------ *)
(** ** Parsing the date column *)
(* ------------------------------------------------------------------ *)

Lemma get_set_other (c d : string) (v : cell) (r : row) :
  c <> d -> get d (set c v r) = get d r.
Proof.
  intros Hcd. induction r as [| [k w] r IH]; simpl.
  - destruct (String.eqb_spec c d); [contradiction | reflexivity].
  - destruct (String.eqb k c) eqn:E; simpl.
    + apply String.eqb_eq in E. subst k.
      destruct (String.eqb_spec c d); [contradiction | reflexivity].
    + rewrite IH. reflexivity.
Qed.

(** X5.  Parsing the date column keeps the column names and their order and
    the number of rows, leaves every other column as it was, and leaves in
    [Data] only timestamps and NaT: each cell is the parsed value of the
    cell it replaces, NaT when that did not parse. *)
Theorem parse_Data_invariants (ss : session) (df : DataFrame) :
  column_names (parse_Data ss df) = column_names df
  /\ List.length (rows (parse_Data ss df)) = List.length (rows df)
  /\ (forall c, c <> "Data" ->
        column c (rows (parse_Data ss df)) = column c (rows df))
  /\ column "Data" (rows (parse_Data ss df))
     = map (coerce ss) (column "Data" (rows df))
  /\ (forall r, In r (rows (parse_Data ss df)) ->
        get "Data" r = NaN \/ exists t, get "Data" r = Time t).
Proof.
  split; [apply column_names_parse_Data |].
  split; [simpl; apply length_map |].
  split; [| split].
  - intros c Hc. unfold column. simpl. rewrite map_map. apply map_ext.
    intros r. apply get_set_other. congruence.
  - unfold column. simpl. rewrite !map_map. apply map_ext.
    intros r. apply get_set_same.
  - intros r Hr. simpl in Hr. apply in_map_iff in Hr.
    destruct Hr as [r0 [<- _]]. rewrite get_set_same. unfold coerce.
    destruct (parse_date ss (get "Data" r0)) as [t |]; [right; exists t |]; auto.
Qed.

(* ------------------------------------------------------------------ *)
(** ** What the correlation stage shows, and when *)
(* ------------------------------------------------------------------ *)

(** X6.  The correlation stage never raises.  It writes a coefficient only
    for two different columns with at least two paired rows, and that
    coefficient is the one of the paired rows; it draws the scatter plot
    exactly when at least two paired rows remain, from rows that all hold
    both values. *)
Theorem correlation_stage_outputs (x y : string) (rs : list row) :
  snd (correlation_stage x y rs) = inr tt
  /\ (forall c, In (st_write_coef c) (fst (correlation_stage x y rs)) ->
        x <> y /\ (2 <= List.length (df_corr x y rs))%nat
        /\ c = spearman_corr x y rs)
  /\ (forall d a b, In (st_scatter_chart d a b) (fst (correlation_stage x y rs)) ->
        d = df_corr x y rs /\ a = x /\ b = y /\ (2 <= List.length d)%nat
        /\ forall r, In r d -> get x r <> NaN /\ get y r <> NaN)
  /\ ((2 <= List.length (df_corr x y rs))%nat ->
        In (st_scatter_chart (df_corr x y rs) x y) (fst (correlation_stage x y rs))).
Proof.
  assert (forall r, In r (df_corr x y rs) -> get x r <> NaN /\ get y r <> NaN) as Hna
    by (intros r Hr; apply df_corr_In in Hr; tauto).
  destruct (correlation_stage_cases x y rs)
    as [[Hlen ->] | [[Hlen [Hxy ->]] | [Hlen [Hxy ->]]]]; simpl.
  - split; [reflexivity |]. split; [| split].
    + intros c [H | []]. discriminate H.
    + intros d a b [H | []]. discriminate H.
    + intros H. lia.
  - split; [reflexivity |]. split; [| split].
    + intros c [H | [H | []]]; discriminate H.
    + intros d a b [H | [H | []]]; [| discriminate H].
      injection H as <- <- <-. auto.
    + intros _. left. reflexivity.
  - split; [reflexivity |]. split; [| split].
    + intros c [H | [H | [H | []]]]; try discriminate H.
      injection H as <-. auto.
    + intros d a b [H | [H | [H | []]]]; try discriminate H.
      injection H as <- <- <-. auto.
    + intros _. left. reflexivity.
Qed.

(** X7.  Dropping the rows with a missing X or Y is idempotent, changes
    nothing in a table without missing values in X and Y, and may be done
    beforehand: the stage shows the same on the table already reduced to its
    paired rows. *)
Theorem dropna_beforehand (x y : string) (rs : list row) :
  df_corr x y (df_corr x y rs) = df_corr x y rs
  /\ ((forall r, In r rs -> get x r <> NaN /\ get y r <> NaN) -> df_corr x y rs = rs)
  /\ spearman_corr x y (df_corr x y rs) = spearman_corr x y rs
  /\ correlation_stage x y (df_corr x y rs) = correlation_stage x y rs.
Proof.
  assert (df_corr x y (df_corr x y rs) = df_corr x y rs) as E
    by (unfold df_corr, dropna; apply filter_idem).
  split; [exact E |]. split; [| split].
  - intros H. unfold df_corr, dropna. apply filter_all. intros r Hr.
    simpl. destruct (H r Hr) as [Hx Hy].
    rewrite (proj2 (notna_spec _) Hx), (proj2 (notna_spec _) Hy). reflexivity.
  - unfold spearman_corr. rewrite E. reflexivity.
  - unfold correlation_stage. rewrite E. reflexivity.
Qed.

(* ------------------------------------------------------------------ *)
(** ** The yearly means and the order of the rows *)
(* ------------------------------------------------------------------ *)

Lemma existsb_perm {A : Type} (p : A -> bool) (l l' : list A) :
  Permutation l l' -> existsb p l = existsb p l'.
Proof.
  induction 1 as [| a l l' _ IH | a b l | l l' l'' _ IH1 _ IH2]; simpl.
  - reflexivity.
  - rewrite IH. reflexivity.
  - destruct (p a), (p b); reflexivity.
  - congruence.
Qed.

Lemma label_lt_same_r (a b b' : cell) :
  same_value b b' -> label_lt a b -> label_lt a b'.
Proof.
  destruct a, b, b'; simpl; try contradiction; trivial;
    intros E H; try (rewrite <- E; exact H); contradiction.
Qed.

Lemma label_lt_irrefl (a b : cell) : same_value a b -> ~ label_lt a b.
Proof. intros E H. apply (label_lt_differ a b H E). Qed.

(** Two ascending lists of labels that hold the same values are the same,
    label by label. *)
Lemma sorted_keys_unique (K K' : list cell) :
  StronglySorted label_lt K -> StronglySorted label_lt K' ->
  (forall c, (exists k, In k K /\ same_value c k)
             <-> (exists k, In k K' /\ same_value c k)) ->
  Forall2 same_value K K'.
Proof.
  assert (forall c, same_value c c) as Hrefl
    by (intros c; apply cell_eqb_same, cell_eqb_refl).
  revert K'. induction K as [| h t IH]; intros [| h' t'] HK HK' Hmem.
  - constructor.
  - exfalso. destruct (proj2 (Hmem h')) as [k [[] _]].
    exists h'. split; [left; reflexivity | apply Hrefl].
  - exfalso. destruct (proj1 (Hmem h)) as [k [[] _]].
    exists h. split; [left; reflexivity | apply Hrefl].
  - inversion HK as [| ? ? Ht Hh]; subst. inversion HK' as [| ? ? Ht' Hh']; subst.
    rewrite Forall_forall in Hh, Hh'.
    assert (same_value h h') as Ehh.
    { destruct (proj1 (Hmem h)) as [k [Hk Ek]];
        [exists h; split; [left; reflexivity | apply Hrefl] |].
      destruct (proj2 (Hmem h')) as [k' [Hk' Ek']];
        [exists h'; split; [left; reflexivity | apply Hrefl] |].
      destruct Hk as [<- | Hk]; [exact Ek |].
      destruct Hk' as [<- | Hk']; [apply same_value_sym, Ek' |].
      exfalso. pose proof (Hh' k Hk) as H1. pose proof (Hh k' Hk') as H2.
      apply (label_lt_same_r _ _ _ (same_value_sym _ _ Ek)) in H1.
      apply (label_lt_same_r _ _ _ (same_value_sym _ _ Ek')) in H2.
      apply (label_lt_irrefl h h (Hrefl h)).
      apply label_lt_trans with h'; assumption. }
    constructor; [exact Ehh |].
    apply IH; trivial. intros c. split.
    + intros [k [Hk Ek]].
      destruct (proj1 (Hmem c)) as [k' [Hk' Ek']];
        [exists k; split; [right; exact Hk | exact Ek] |].
      destruct Hk' as [<- | Hk']; [| exists k'; split; assumption].
      exfalso. pose proof (Hh k Hk) as H1.
      apply (label_lt_irrefl h k); [| exact H1].
      apply same_value_trans with h'; [exact Ehh |].
      apply same_value_trans with c; [apply same_value_sym, Ek' | exact Ek].
    + intros [k' [Hk' Ek']].
      destruct (proj2 (Hmem c)) as [k [Hk Ek]];
        [exists k'; split; [right; exact Hk' | exact Ek'] |].
      destruct Hk as [<- | Hk]; [| exists k; split; assumption].
      exfalso. pose proof (Hh' k' Hk') as H1.
      apply (label_lt_irrefl h' k'); [| exact H1].
      apply same_value_trans with h; [apply same_value_sym, Ehh |].
      apply same_value_trans with c; [apply same_value_sym, Ek | exact Ek'].
Qed.

Lemma group_keys_mem (c : cell) (cs : list cell) :
  (exists k, In k (group_keys cs) /\ same_value c k)
  <-> c <> NaN /\ exists d, In d cs /\ same_value c d.
Proof.
  split.
  - intros [k [Hk Hs]]. apply group_keys_In in Hk. destruct Hk as [Hin Hna].
    split; [| exists k; tauto].
    intros ->. destruct k; simpl in Hs; try contradiction; congruence.
  - intros [Hna [d [Hd Hs]]].
    assert (d <> NaN) as Hd'.
    { intros ->. destruct c; simpl in Hs; try contradiction; congruence. }
    destruct (group_keys_has d cs Hd Hd') as [k [Hk Hdk]].
    exists k. split; [exact Hk | apply same_value_trans with d; assumption].
Qed.

Lemma group_same (key : string) (k k' : cell) (rs : list row) :
  same_value k k' -> group key k rs = group key k' rs.
Proof.
  intros E. unfold group. apply filter_ext. intros r.
  apply cell_eqb_same in E.
  destruct (cell_eqb (get key r) k) eqn:E1, (cell_eqb (get key r) k') eqn:E2; trivial.
  - rewrite (cell_eqb_trans _ _ _ E1 E) in E2. discriminate E2.
  - rewrite cell_eqb_sym in E.
    rewrite (cell_eqb_trans _ _ _ E2 E) in E1. discriminate E1.
Qed.

Lemma Zabs_sum_perm (zs zs' : list Z) :
  Permutation zs zs' -> Zabs_sum zs = Zabs_sum zs'.
Proof.
  induction 1 as [| a l l' _ IH | a b l | l l' l'' _ IH1 _ IH2]; simpl; lia.
Qed.

Lemma exact_sums_perm (vs vs' : list Q) :
  Permutation vs vs' -> exact_sums vs -> exact_sums vs'.
Proof.
  intros Hp [zs [Hvs Hb]].
  destruct (Permutation_Forall2 Hp Hvs) as [zs' [Hz Hvs']].
  exists zs'. split; [exact Hvs' |]. rewrite <- (Zabs_sum_perm _ _ Hz). exact Hb.
Qed.

Lemma mean_exact_perm (cs cs' : list cell) :
  Permutation (present cs) (present cs') -> exact_sums (present cs) ->
  mean cs = mean cs'.
Proof.
  intros Hp Hex. destruct (present cs) as [| a vs] eqn:E.
  - apply Permutation_nil in Hp.
    rewrite (proj2 (mean_NaN cs) E), (proj2 (mean_NaN cs') Hp). reflexivity.
  - rewrite <- E in Hp, Hex.
    assert (present cs <> []) as Hne by (rewrite E; discriminate).
    assert (present cs' <> []) as Hne'.
    { intros H0. rewrite H0 in Hp. apply Permutation_sym, Permutation_nil in Hp.
      contradiction. }
    rewrite (mean_exact_sums cs Hne Hex).
    rewrite (mean_exact_sums cs' Hne' (exact_sums_perm _ _ Hp Hex)).
    f_equal. apply round64_Qeq. unfold Qlen.
    rewrite (Permutation_length Hp), (Qsum_perm _ _ Hp). reflexivity.
Qed.

Lemma Forall2_map_both {A B : Type} (R : A -> A -> Prop) (S : B -> B -> Prop)
  (F G : A -> B) (l l' : list A) :
  (forall a a', R a a' -> S (F a) (G a')) ->
  Forall2 R l l' -> Forall2 S (map F l) (map G l').
Proof.
  intros H. induction 1; simpl; constructor; auto.
Qed.

(** X10.  The years of the aggregated series and their order do not depend
    on the order of the rows: two tables with the same rows in different
    orders either both raise or give series with the same labels, in the
    same order.  The means are the same when the values of the year are
    whole numbers whose sums stay below 2^53; other values are summed in
    float64 in the order of the rows, and the mean can differ in its last
    digit (0.1, 0.2, 0.9 against 0.9, 0.2, 0.1). *)
Theorem aggregator_row_order (ss : session) (p : string) (rs rs' : list row)
  (Hperm : Permutation rs rs') :
  (forall out, df_barras ss p rs = inr out ->
     exists out',
       df_barras ss p rs' = inr out'
       /\ Forall2
            (fun a b =>
               same_value (fst a) (fst b)
               /\ (exact_sums (present (column p (group "Ano" (fst a) rs))) ->
                   snd a = snd b))
            out out')
  /\ (forall e, df_barras ss p rs = inl e -> exists e', df_barras ss p rs' = inl e')
  /\ (Permutation rising_decimal_rows falling_decimal_rows
      /\ df_barras ss "Turbidez" rising_decimal_rows
         = inr [(Num 2021, Num (7205759403792795 # 18014398509481984))]
      /\ df_barras ss "Turbidez" falling_decimal_rows
         = inr [(Num 2021, Num (7205759403792793 # 18014398509481984))]).
Proof.
  assert (unsortable (column "Ano" rs') = unsortable (column "Ano" rs)) as Hu.
  { unfold unsortable, column.
    rewrite <- (existsb_perm is_num _ _ (Permutation_map (get "Ano") Hperm)).
    rewrite <- (existsb_perm is_time _ _ (Permutation_map (get "Ano") Hperm)).
    reflexivity. }
  assert (numeric_cells
            (column p (filter (fun r => notna (get "Ano" r)) rs'))
          = numeric_cells
              (column p (filter (fun r => notna (get "Ano" r)) rs))) as Hn.
  { unfold numeric_cells, column. symmetry. apply forallb_perm.
    apply Permutation_map, filter_perm, Hperm. }
  split; [| split].
  - intros out Hout. pose proof Hout as Hout'.
    apply df_barras_inr in Hout. destruct Hout as [-> _].
    revert Hout'. unfold df_barras, groupby_mean. cbv zeta. rewrite Hu, Hn.
    clear Hu Hn.
    destruct (unsortable (column "Ano" rs)); [discriminate |].
    destruct (numeric_cells _); cbn [negb]; [| discriminate].
    intros _. eexists. split; [reflexivity |].
    apply Forall2_map_both with (R := same_value).
    + intros k k' Hk. simpl. split; [exact Hk |]. intros Hex.
      rewrite <- (group_same "Ano" k k' rs' Hk).
      apply mean_exact_perm; [| exact Hex].
      unfold present, column. apply Permutation_flat_map, Permutation_map.
      unfold group. apply filter_perm, Hperm.
    + apply sorted_keys_unique.
      * apply Sorted_StronglySorted; [intros a b c; apply label_lt_trans |].
        apply group_keys_sorted.
      * apply Sorted_StronglySorted; [intros a b c; apply label_lt_trans |].
        apply group_keys_sorted.
      * intros c. rewrite !group_keys_mem. unfold column.
        split; intros [Hna [d [Hd Hs]]]; (split; [exact Hna |]); exists d;
          (split; [| exact Hs]).
        -- apply (Permutation_in _ (Permutation_map (get "Ano") Hperm)), Hd.
        -- apply (Permutation_in _
                    (Permutation_sym (Permutation_map (get "Ano") Hperm))), Hd.
  - intros e. unfold df_barras, groupby_mean. cbv zeta. rewrite Hu, Hn.
    clear Hu Hn.
    destruct (unsortable (column "Ano" rs)); [eexists; reflexivity |].
    destruct (numeric_cells _); cbn [negb]; [discriminate | eexists; reflexivity].
  - split; [| split; vm_compute; reflexivity].
    unfold rising_decimal_rows, falling_decimal_rows.
    apply (Permutation_rev [decimal 2021 1; decimal 2021 2; decimal 2021 9]).
Qed.

Lemma aggregator_row_order_witness :
  Permutation three_year_rows three_year_rows_reordered
  /\ exists out',
       df_barras default_session "Turbidez" three_year_rows_reordered = inr out'
       /\ Forall2
            (fun a b =>
               same_value (fst a) (fst b)
               /\ (exact_sums
                     (present (column "Turbidez"
                                (group "Ano" (fst a) three_year_rows))) ->
                   snd a = snd b))
            [(Num 2021, Num 5); (Num 2022, Num 10)] out'.
Proof.
  assert (Permutation three_year_rows three_year_rows_reordered) as H.
  { unfold three_year_rows, three_year_rows_reordered.
    apply Permutation_sym.
    apply (Permutation_cons_append [yearly 2021 4; yearly 2021 6] (yearly 2022 10)). }
  split; [exact H |].
  destruct (aggregator_row_order default_session "Turbidez" _ _ H) as [Hret _].
  apply Hret. vm_compute. reflexivity.
Defined.

(* ------------------------------------------------------------------ *)
(** ** Which columns the charts may use *)
(* ------------------------------------------------------------------ *)

Lemma select_dtypes_numeric_In (c : string) (df : DataFrame) :
  In c (select_dtypes_numeric df)
  <-> In (c, float64) (columns df) \/ In (c, int64) (columns df).
Proof.
  unfold select_dtypes_numeric. rewrite in_map_iff. split.
  - intros [[c' d] [Hc Hin]]. simpl in Hc. subst c'.
    apply filter_In in Hin. destruct Hin as [Hin Hd]. simpl in Hd.
    destruct d; try discriminate; auto.
  - intros [H | H]; [exists (c, float64) | exists (c, int64)];
      (split; [reflexivity | apply filter_In; split; [exact H | reflexivity]]).
Qed.

Lemma numeric_columns_In (c : string) (df : DataFrame) :
  In c (numeric_columns df)
  <-> In c (select_dtypes_numeric df) /\ c <> "Ano" /\ c <> "x" /\ c <> "y".
Proof.
  unfold numeric_columns. rewrite filter_In. simpl.
  rewrite negb_true_iff, !orb_false_iff, !String.eqb_neq. tauto.
Qed.

Lemma columns_parse_Data_In (ss : session) (df : DataFrame) (c : string) (d : dtype) :
  In (c, d) (columns (parse_Data ss df))
  <-> (c <> "Data" /\ In (c, d) (columns df))
      \/ (c = "Data" /\ d = datetime64 /\ In "Data" (column_names df)).
Proof.
  unfold parse_Data, column_names. simpl. rewrite in_map_iff. split.
  - intros [[c' d'] [He Hin]]. simpl in He.
    destruct (String.eqb_spec c' "Data") as [-> | Hne].
    + injection He as <- <-. right. split; [reflexivity |]. split; [reflexivity |].
      apply in_map_iff. exists ("Data", d'). split; [reflexivity | exact Hin].
    + injection He as <- <-. left. split; assumption.
  - intros [[Hne Hin] | [-> [-> Hin]]].
    + exists (c, d). split; [| exact Hin]. simpl.
      destruct (String.eqb_spec c "Data"); [contradiction | reflexivity].
    + apply in_map_iff in Hin. destruct Hin as [[c' d'] [Hc Hin]].
      simpl in Hc. subst c'. exists ("Data", d'). split; [| exact Hin].
      simpl. reflexivity.
Qed.

Lemma parameters_In (ss : session) (df : DataFrame) (c : string) :
  In c (numeric_columns (parse_Data ss df))
  <-> In c (select_dtypes_numeric df) /\ ~ In c reserved_columns.
Proof.
  rewrite numeric_columns_In, !select_dtypes_numeric_In, !columns_parse_Data_In.
  unfold reserved_columns. simpl. split.
  - intros [[[[Hne H] | [_ [Hd _]]] | [[Hne H] | [_ [Hd _]]]] [Ha [Hx Hy]]];
      try discriminate; (split; [tauto |]);
      intros [E | [E | [E | [E | []]]]]; congruence.
  - intros [H Hres].
    assert (c <> "Data") as Hd by (intros E; apply Hres; left; congruence).
    assert (c <> "Ano") as Ha by (intros E; apply Hres; right; left; congruence).
    assert (c <> "x") as Hx by (intros E; apply Hres; right; right; left; congruence).
    assert (c <> "y") as Hy
      by (intros E; apply Hres; right; right; right; left; congruence).
    split; [| tauto]. destruct H as [H | H]; [left | right]; left; tauto.
Qed.

(** X11.  The columns a chart may use are the float64 and int64 columns of
    the uploaded table other than [Data], [Ano], [x] and [y]: on every page
    the two axes of a scatter plot and the parameter of a bar chart are
    such columns, and these are exactly the numeric columns left after the
    date column has been parsed. *)
Theorem chart_parameters (ss : session) (df : DataFrame) :
  (forall c, In c (numeric_columns (parse_Data ss df))
             <-> In c (select_dtypes_numeric df) /\ ~ In c reserved_columns)
  /\ (forall d a b, In (st_scatter_chart d a b) (page ss (Some (inr df))) ->
        In a (numeric_columns (parse_Data ss df))
        /\ In b (numeric_columns (parse_Data ss df)))
  /\ (forall s p, In (st_bar_chart s p) (page ss (Some (inr df))) ->
        In p (numeric_columns (parse_Data ss df))).
Proof.
  split; [intros c; apply parameters_In |]. split.
  - intros d a b H. apply page_elements in H.
    destruct H as [H | [H | [H | [[e H] | [H | [p0 [p1 [H | H]]]]]]]];
      try discriminate H.
    + simpl in H. destruct H as [H | [H | []]]; discriminate H.
    + simpl in H. destruct H as [H | [H | [H | []]]]; discriminate H.
    + apply charts_elements in H.
      destruct H as [[_ H] | [[p [s [_ [_ [_ H]]]]] | [H | [H | [x [y [Hx [Hy [_ H]]]]]]]]];
        try discriminate H.
      apply correlation_stage_outputs_scatter in H. destruct H as [-> ->].
      split; assumption.
  - intros s p H. apply page_elements in H.
    destruct H as [H | [H | [H | [[e H] | [H | [p0 [p1 [H | H]]]]]]]];
      try discriminate H.
    + simpl in H. destruct H as [H | [H | []]]; discriminate H.
    + simpl in H. destruct H as [H | [H | [H | []]]]; discriminate H.
    + apply charts_elements in H.
      destruct H as [[_ H] | [[q [s' [Hq [_ [_ H]]]]] | [H | [H | [x [y [_ [_ [_ H]]]]]]]]];
        try discriminate H.
      * injection H as _ ->. exact Hq.
      * exfalso. apply correlation_stage_no_bar in H. destruct H as [H _].
        discriminate H.
Qed.

(* ------------------------------------------------------------------ *)
(** ** Error messages on the page *)
(* ------------------------------------------------------------------ *)

Lemma banner_no_error (el : element) : In el banner -> is_error el = false.
Proof. intros [<- | [<- | []]]; reflexivity. Qed.

Lemma preview_no_error (df : DataFrame) (el : element) :
  In el (preview df) -> is_error el = false.
Proof. intros [<- | [<- | [<- | []]]]; reflexivity. Qed.

Lemma no_error_app (l l' : list element) :
  (forall el, In el l -> is_error el = false) ->
  (forall el, In el l' -> is_error el = false) ->
  forall el, In el (l ++ l') -> is_error el = false.
Proof.
  intros H H' el Hel. apply in_app_or in Hel. destruct Hel; auto.
Qed.

(** X12.  Every page is a run of elements none of which is an error
    message, followed by at most one error message: an error is never
    followed by anything, and what was emitted before an exception stays
    on the page. *)
Theorem at_most_one_error (ss : session) (uploaded : option (exn + DataFrame)) :
  exists body tail,
    page ss uploaded = body ++ tail
    /\ (forall el, In el body -> is_error el = false)
    /\ (tail = [] \/ exists m, tail = [st_error m]).
Proof.
  destruct uploaded as [[e | df] |].
  - exists banner, [st_error (msg_load_error e)].
    split; [reflexivity |]. split; [apply banner_no_error |].
    right. eexists. reflexivity.
  - rewrite page_parsed.
    destruct (script_paths ss df)
      as [[_ E] | [[_ [e E]] | [[_ [e E]] | [_ [p0 [p1 E]]]]]]; rewrite E.
    + exists (banner ++ preview df), [st_error msg_missing_data].
      split; [cbn [try_except fst]; apply app_assoc |].
      split; [| right; eexists; reflexivity].
      apply no_error_app; [apply banner_no_error | apply preview_no_error].
    + exists (banner ++ preview df), [st_error (msg_load_error e)].
      split; [rewrite try_except_raised; cbn [fst]; apply app_assoc |].
      split; [| right; eexists; reflexivity].
      apply no_error_app; [apply banner_no_error | apply preview_no_error].
    + exists (banner ++ preview df ++ [st_header "Mapa de Localização das Estações"]),
             [st_error (msg_load_error e)].
      split; [rewrite try_except_raised; cbn [fst]; rewrite !app_assoc; reflexivity |].
      split; [| right; eexists; reflexivity].
      apply no_error_app; [apply banner_no_error |].
      apply no_error_app; [apply preview_no_error |].
      intros el [<- | []]. reflexivity.
    + rewrite try_except_prepend.
      pose proof (charts_no_error ss (filtered_frame ss df p0 p1)) as Hc.
      destruct (charts ss (filtered_frame ss df p0 p1)) as [out [e | []]].
      * exists (banner ++ (preview df
                           ++ [st_header "Mapa de Localização das Estações";
                               st_pydeck_chart (rows (filtered_frame ss df p0 p1))])
                       ++ out),
               [st_error (msg_load_error e)].
        split; [rewrite try_except_raised; unfold prepend; cbn [fst];
                rewrite !app_assoc; reflexivity |].
        split; [| right; eexists; reflexivity].
        apply no_error_app; [apply banner_no_error |].
        apply no_error_app; [| exact Hc].
        apply no_error_app; [apply preview_no_error |].
        intros el [<- | [<- | []]]; reflexivity.
      * exists (banner ++ (preview df
                           ++ [st_header "Mapa de Localização das Estações";
                               st_pydeck_chart (rows (filtered_frame ss df p0 p1))])
                       ++ out), [].
        split; [unfold prepend, try_except; cbn [fst]; rewrite app_nil_r; reflexivity |].
        split; [| left; reflexivity].
        apply no_error_app; [apply banner_no_error |].
        apply no_error_app; [| exact Hc].
        apply no_error_app; [apply preview_no_error |].
        intros el [<- | [<- | []]]; reflexivity.
  - exists (page ss None), []. split; [symmetry; apply app_nil_r |].
    split; [| left; reflexivity].
    intros el [<- | [<- | [<- | []]]]; reflexivity.
Qed.

(** X13.  Every table that [read_excel] returns gets the success note and
    the preview of its first five rows, as uploaded, right after the title:
    also when the [Data] column is missing or a later step raises. *)
Theorem upload_preview (ss : session) (df : DataFrame) :
  (exists rest,
     page ss (Some (inr df))
     = banner
       ++ [st_success "Dados carregados com sucesso!";
           st_subheader "Prévia dos Dados";
           st_write_head (firstn 5 (rows df))]
       ++ rest)
  /\ List.length (firstn 5 (rows df)) = Nat.min 5 (List.length (rows df))
  /\ rows df = firstn 5 (rows df) ++ skipn 5 (rows df).
Proof.
  split; [| split; [apply length_firstn | symmetry; apply firstn_skipn]].
  fold (preview df). rewrite page_parsed.
  destruct (script_paths ss df)
    as [[_ E] | [[_ [e E]] | [[_ [e E]] | [_ [p0 [p1 E]]]]]]; rewrite E.
  - eexists. cbn [try_except fst]. reflexivity.
  - eexists. rewrite try_except_raised. cbn [fst]. reflexivity.
  - eexists. rewrite try_except_raised. cbn [fst]. rewrite <- app_assoc. reflexivity.
  - eexists. rewrite try_except_prepend. unfold prepend. cbn [fst].
    rewrite <- app_assoc. reflexivity.
Qed.

(* ------------------------------------------------------------------ *)
(** ** Runs stopped by an exception, and runs that reach the charts *)
(* ------------------------------------------------------------------ *)

(** X14.  While a range is being picked the date widget holds fewer than
    two dates; reading [periodo[0]] and [periodo[1]] then raises, and the
    page shows the preview and the catch-all message with the text of the
    IndexError, nothing else. *)
Theorem incomplete_period (ss : session) (df : DataFrame) (periodo : list Z)
  (Hdata : In "Data" (column_names df))
  (Hwidget : date_input ss (min_data ss df) (max_data ss df) = inr periodo)
  (Hshort : (List.length periodo < 2)%nat) :
  page ss (Some (inr df))
  = banner ++ preview df
    ++ [st_error "Erro ao carregar o arquivo: tuple index out of range"].
Proof.
  apply has_column_spec in Hdata.
  rewrite (page_raised ss df [] IndexError).
  - reflexivity.
  - rewrite app_nil_r. apply (script_short_period ss df periodo); assumption.
Qed.

Lemma incomplete_period_witness :
  In "Data" (column_names one_parameter_sheet)
  /\ date_input picking_session (min_data picking_session one_parameter_sheet)
                (max_data picking_session one_parameter_sheet) = inr [1]
  /\ page picking_session (Some (inr one_parameter_sheet))
     = banner ++ preview one_parameter_sheet
       ++ [st_error "Erro ao carregar o arquivo: tuple index out of range"].
Proof.
  assert (In "Data" (column_names one_parameter_sheet)) as H1
    by (left; reflexivity).
  assert (date_input picking_session (min_data picking_session one_parameter_sheet)
                     (max_data picking_session one_parameter_sheet) = inr [1]) as H2
    by reflexivity.
  split; [exact H1 |]. split; [exact H2 |].
  apply (incomplete_period picking_session one_parameter_sheet [1] H1 H2).
  simpl. lia.
Defined.

(** X15.  A table with dates but without the [Estação] column, or whose
    [y] or [x] column is absent or cannot be averaged, is not reported like
    a missing [Data] column: the lookup raises KeyError, the mean raises
    TypeError, and the page ends with the catch-all message carrying the
    text of the exception, after the preview (and after the map header when
    a coordinate is at fault); no map and no chart is shown.  The latitude
    is evaluated first: [x] is only reported when [y] has a mean. *)
Theorem missing_map_column (ss : session) (df : DataFrame) (p0 p1 : Z)
  (rest : list Z)
  (Hdata : In "Data" (column_names df))
  (Hwidget : date_input ss (min_data ss df) (max_data ss df) = inr (p0 :: p1 :: rest)) :
  (~ In "Estação" (column_names df) ->
     page ss (Some (inr df))
     = banner ++ preview df ++ [st_error (msg_load_error (KeyError "Estação"))])
  /\ (In "Estação" (column_names df) -> ~ In "y" (column_names df) ->
        page ss (Some (inr df))
        = banner ++ preview df
          ++ [st_header "Mapa de Localização das Estações";
              st_error (msg_load_error (KeyError "y"))])
  /\ (In "Estação" (column_names df) -> In "y" (column_names df) ->
      averageable (column "y" (rows (filtered_frame ss df p0 p1))) = false ->
        page ss (Some (inr df))
        = banner ++ preview df
          ++ [st_header "Mapa de Localização das Estações";
              st_error
                (msg_load_error
                   (TypeError
                      (type_error ss
                         (column "y" (rows (filtered_frame ss df p0 p1))))))])
  /\ (In "Estação" (column_names df) -> In "y" (column_names df) ->
      averageable (column "y" (rows (filtered_frame ss df p0 p1))) = true ->
      ~ In "x" (column_names df) ->
        page ss (Some (inr df))
        = banner ++ preview df
          ++ [st_header "Mapa de Localização das Estações";
              st_error (msg_load_error (KeyError "x"))])
  /\ (In "Estação" (column_names df) -> In "y" (column_names df) ->
      averageable (column "y" (rows (filtered_frame ss df p0 p1))) = true ->
      In "x" (column_names df) ->
      averageable (column "x" (rows (filtered_frame ss df p0 p1))) = false ->
        page ss (Some (inr df))
        = banner ++ preview df
          ++ [st_header "Mapa de Localização das Estações";
              st_error
                (msg_load_error
                   (TypeError
                      (type_error ss
                         (column "x" (rows (filtered_frame ss df p0 p1))))))])
  /\ (forall c txt r, In r (rows (filtered_frame ss df p0 p1)) ->
        get c r = Str txt ->
        averageable (column c (rows (filtered_frame ss df p0 p1))) = false).
Proof.
  apply has_column_spec in Hdata.
  assert (forall e,
             In "Estação" (column_names df) ->
             initial_view_state ss (filtered_frame ss df p0 p1) = ([], inl e) ->
             page ss (Some (inr df))
             = banner ++ preview df
               ++ [st_header "Mapa de Localização das Estações";
                   st_error (msg_load_error e)]) as Hmap.
  { intros e Hest Hv. apply has_column_spec in Hest.
    apply (page_raised ss df [st_header "Mapa de Localização das Estações"]).
    apply (script_map_raises ss df p0 p1 rest); assumption. }
  split; [| split; [| split; [| split; [| split]]]].
  6: { intros c txt r Hr Hc. apply text_not_averageable with txt.
       rewrite <- Hc. apply in_map, Hr. }
  - intros Hest. apply has_column_false in Hest.
    rewrite (page_raised ss df [] (KeyError "Estação")); [reflexivity |].
    rewrite app_nil_r. apply (script_no_station ss df p0 p1 rest); assumption.
  - intros Hest Hy. apply Hmap; [exact Hest |]. apply has_column_false in Hy.
    destruct (initial_view_state_cases ss (filtered_frame ss df p0 p1))
      as [[_ E] | [[H _] | [[H _] | [[H _] | [H _]]]]];
      [exact E | | | |]; rewrite has_column_filtered_frame in H; congruence.
  - intros Hest Hy Hay. apply Hmap; [exact Hest |].
    destruct (initial_view_state_cases ss (filtered_frame ss df p0 p1))
      as [[H _] | [[_ [_ E]] | [[_ [H _]] | [[_ [H _]] | [_ [H _]]]]]];
      [| exact E | | |]; try congruence.
    apply has_column_spec in Hy. rewrite has_column_filtered_frame in H. congruence.
  - intros Hest Hy Hay Hx. apply Hmap; [exact Hest |]. apply has_column_false in Hx.
    apply has_column_spec in Hy.
    destruct (initial_view_state_cases ss (filtered_frame ss df p0 p1))
      as [[H _] | [[_ [H _]] | [[_ [_ [_ E]]] | [[_ [_ [H _]]] | [_ [_ [H _]]]]]]];
      [| | exact E | |]; try congruence;
      rewrite has_column_filtered_frame in H; congruence.
  - intros Hest Hy Hay Hx Hax. apply Hmap; [exact Hest |].
    apply has_column_spec in Hy, Hx.
    destruct (initial_view_state_cases ss (filtered_frame ss df p0 p1))
      as [[H _] | [[_ [H _]] | [[_ [_ [H _]]] | [[_ [_ [_ [_ E]]]] | [_ [_ [_ [H _]]]]]]]];
      [| | | exact E |]; try congruence;
      rewrite has_column_filtered_frame in H; congruence.
Qed.

(** A sheet whose latitudes are text: the page ends after the map header. *)
Lemma missing_map_column_witness :
  In "Data" (column_names text_latitude_sheet)
  /\ date_input default_session (min_data default_session text_latitude_sheet)
                (max_data default_session text_latitude_sheet) = inr [1; 2]
  /\ page default_session (Some (inr text_latitude_sheet))
     = banner ++ preview text_latitude_sheet
       ++ [st_header "Mapa de Localização das Estações";
           st_error "Erro ao carregar o arquivo: Could not convert to numeric"].
Proof.
  assert (In "Data" (column_names text_latitude_sheet)) as H1 by (left; reflexivity).
  assert (date_input default_session (min_data default_session text_latitude_sheet)
                     (max_data default_session text_latitude_sheet) = inr [1; 2]) as H2
    by reflexivity.
  split; [exact H1 |]. split; [exact H2 |].
  destruct (missing_map_column default_session text_latitude_sheet 1 2 [] H1 H2)
    as [_ [_ [Hy _]]].
  apply Hy; [simpl; tauto | simpl; tauto | reflexivity].
Defined.

(** X16.  When the table has the columns [Data], [Estação], [x] and [y],
    the coordinates of the filtered rows can be averaged and the date widget
    returns a period, the run reaches the charts: the page is the preview,
    the map of the filtered table, and what the two chart sections emit
    (with the catch-all message last if they raise).  The map and both chart
    sections receive the same table: the rows of the parsed table left by
    [df_filtrado] for that period and the stations selected among those of
    the period, under the columns of the upload. *)
Theorem run_reaches_charts (ss : session) (df : DataFrame) (p0 p1 : Z)
  (rest : list Z)
  (Hdata : In "Data" (column_names df))
  (Hest : In "Estação" (column_names df))
  (Hx : In "x" (column_names df))
  (Hy : In "y" (column_names df))
  (Hwidget : date_input ss (min_data ss df) (max_data ss df) = inr (p0 :: p1 :: rest))
  (Hlat : averageable (column "y" (rows (filtered_frame ss df p0 p1))) = true)
  (Hlon : averageable (column "x" (rows (filtered_frame ss df p0 p1))) = true) :
  page ss (Some (inr df))
  = banner ++ preview df
    ++ [st_header "Mapa de Localização das Estações";
        st_pydeck_chart (rows (filtered_frame ss df p0 p1))]
    ++ fst (try_except (charts ss (filtered_frame ss df p0 p1)) handler)
  /\ rows (filtered_frame ss df p0 p1)
     = df_filtrado p0 p1
         (multiselect ss (estacoes p0 p1 (rows (parse_Data ss df))))
         (rows (parse_Data ss df))
  /\ column_names (filtered_frame ss df p0 p1) = column_names df.
Proof.
  apply has_column_spec in Hdata, Hest, Hx, Hy.
  split; [| split; [reflexivity | apply column_names_parse_Data]].
  apply (page_charts ss df p0 p1 rest Hdata Hwidget Hest).
  apply (initial_view_state_ok ss (filtered_frame ss df p0 p1));
    rewrite ?has_column_filtered_frame; assumption.
Qed.

Lemma run_reaches_charts_witness :
  In "Data" (column_names one_parameter_sheet)
  /\ In "Estação" (column_names one_parameter_sheet)
  /\ In "x" (column_names one_parameter_sheet)
  /\ In "y" (column_names one_parameter_sheet)
  /\ date_input default_session (min_data default_session one_parameter_sheet)
                (max_data default_session one_parameter_sheet) = inr [1; 2]
  /\ rows (filtered_frame default_session one_parameter_sheet 1 2)
     = df_filtrado 1 2
         (multiselect default_session
            (estacoes 1 2 (rows (parse_Data default_session one_parameter_sheet))))
         (rows (parse_Data default_session one_parameter_sheet)).
Proof.
  assert (In "Data" (column_names one_parameter_sheet)) as H1 by (simpl; tauto).
  assert (In "Estação" (column_names one_parameter_sheet)) as H2 by (simpl; tauto).
  assert (In "x" (column_names one_parameter_sheet)) as H3 by (simpl; tauto).
  assert (In "y" (column_names one_parameter_sheet)) as H4 by (simpl; tauto).
  assert (date_input default_session (min_data default_session one_parameter_sheet)
                     (max_data default_session one_parameter_sheet) = inr [1; 2]) as H5
    by reflexivity.
  split; [exact H1 |]. split; [exact H2 |]. split; [exact H3 |].
  split; [exact H4 |]. split; [exact H5 |].
  apply (run_reaches_charts default_session one_parameter_sheet 1 2 [] H1 H2 H3 H4 H5);
    reflexivity.
Defined.

(** X17.  With fewer than two eligible numeric columns the scatter section
    emits the warning alone, whatever the rows, and no page built from the
    table shows a scatter plot or a coefficient. *)
Theorem few_numeric_columns (ss : session) (df : DataFrame)
  (Hfew : (List.length (numeric_columns (parse_Data ss df)) < 2)%nat) :
  (forall p0 p1, scatter_section ss (filtered_frame ss df p0 p1)
                 = ([st_warning msg_two_numeric], inr tt))
  /\ (forall el, In el (page ss (Some (inr df))) ->
        is_scatter_chart el = false /\ is_coefficient el = false).
Proof.
  split.
  - intros p0 p1.
    destruct (scatter_section_cases ss (filtered_frame ss df p0 p1))
      as [[_ E] | [[H _] | [H _]]]; [exact E | |];
      change (numeric_columns (filtered_frame ss df p0 p1))
        with (numeric_columns (parse_Data ss df)) in H; lia.
  - intros el H. apply page_elements in H.
    destruct H as [H | [H | [-> | [[e ->] | [-> | [p0 [p1 [-> | H]]]]]]]];
      try (split; reflexivity).
    + destruct H as [<- | [<- | []]]; split; reflexivity.
    + destruct H as [<- | [<- | [<- | []]]]; split; reflexivity.
    + apply charts_elements in H.
      destruct H as [[_ ->] | [[p [s [_ [_ [_ ->]]]]] | [-> | [-> | [x [y [_ [_ [Hn _]]]]]]]]];
        try (split; reflexivity).
      change (numeric_columns (filtered_frame ss df p0 p1))
        with (numeric_columns (parse_Data ss df)) in Hn. lia.
Qed.

Lemma few_numeric_columns_witness :
  (List.length (numeric_columns (parse_Data default_session one_parameter_sheet)) < 2)%nat
  /\ scatter_section default_session
       (filtered_frame default_session one_parameter_sheet 1 2)
     = ([st_warning msg_two_numeric], inr tt).
Proof.
  assert (List.length (numeric_columns (parse_Data default_session one_parameter_sheet))
          < 2)%nat as H by (simpl; lia).
  split; [exact H |].
  apply (few_numeric_columns default_session one_parameter_sheet H).
Defined.

(** X18.  When the table has a year column but no eligible numeric column,
    the bar-chart section raises after its header (the select box has no
    option and returns None, and the group-by finds no column None): the
    page ends with the catch-all message carrying the text of that KeyError,
    without a bar chart, and the scatter section does not run. *)
Theorem bar_chart_without_parameter (ss : session) (df : DataFrame) (p0 p1 : Z)
  (rest : list Z)
  (Hdata : In "Data" (column_names df))
  (Hest : In "Estação" (column_names df))
  (Hx : In "x" (column_names df))
  (Hy : In "y" (column_names df))
  (Hwidget : date_input ss (min_data ss df) (max_data ss df) = inr (p0 :: p1 :: rest))
  (Hlat : averageable (column "y" (rows (filtered_frame ss df p0 p1))) = true)
  (Hlon : averageable (column "x" (rows (filtered_frame ss df p0 p1))) = true)
  (Hano : In "Ano" (column_names df))
  (Hnone : numeric_columns (parse_Data ss df) = []) :
  page ss (Some (inr df))
  = banner ++ preview df
    ++ [st_header "Mapa de Localização das Estações";
        st_pydeck_chart (rows (filtered_frame ss df p0 p1));
        st_header "Gráfico de Barras: Ano vs Parâmetro";
        st_error "Erro ao carregar o arquivo: 'Column not found: None'"].
Proof.
  apply has_column_spec in Hdata, Hest, Hx, Hy, Hano.
  rewrite (page_charts ss df p0 p1 rest Hdata Hwidget Hest).
  2: { apply (initial_view_state_ok ss (filtered_frame ss df p0 p1));
         rewrite ?has_column_filtered_frame; assumption. }
  assert (charts ss (filtered_frame ss df p0 p1)
          = ([st_header "Gráfico de Barras: Ano vs Parâmetro"],
             inl (KeyError "Column not found: None")))
    as Ec.
  { unfold charts, bar_section.
    rewrite has_column_filtered_frame, Hano.
    change (numeric_columns (filtered_frame ss df p0 p1))
      with (numeric_columns (parse_Data ss df)).
    rewrite Hnone. destruct (bar_index ss); reflexivity. }
  rewrite Ec, try_except_raised. reflexivity.
Qed.

Lemma bar_chart_without_parameter_witness :
  In "Ano" (column_names year_only_sheet)
  /\ numeric_columns (parse_Data default_session year_only_sheet) = []
  /\ page default_session (Some (inr year_only_sheet))
     = banner ++ preview year_only_sheet
       ++ [st_header "Mapa de Localização das Estações";
           st_pydeck_chart (rows (filtered_frame default_session year_only_sheet 1 2));
           st_header "Gráfico de Barras: Ano vs Parâmetro";
           st_error "Erro ao carregar o arquivo: 'Column not found: None'"].
Proof.
  assert (In "Data" (column_names year_only_sheet)) as H1 by (simpl; tauto).
  assert (In "Estação" (column_names year_only_sheet)) as H2 by (simpl; tauto).
  assert (In "x" (column_names year_only_sheet)) as H3 by (simpl; tauto).
  assert (In "y" (column_names year_only_sheet)) as H4 by (simpl; tauto).
  assert (date_input default_session (min_data default_session year_only_sheet)
                     (max_data default_session year_only_sheet) = inr [1; 2]) as H5
    by reflexivity.
  assert (In "Ano" (column_names year_only_sheet)) as H6 by (simpl; tauto).
  assert (numeric_columns (parse_Data default_session year_only_sheet) = []) as H7
    by reflexivity.
  split; [exact H6 |]. split; [exact H7 |].
  apply (bar_chart_without_parameter default_session year_only_sheet 1 2 []
           H1 H2 H3 H4 H5); [reflexivity | reflexivity | exact H6 | exact H7].
Defined.

(* ------------------------------------------------------------------ *)
(** ** The order of the station options *)
(* ------------------------------------------------------------------ *)

Lemma unique_from_subseq (l seen : list cell) : subseq (unique_from seen l) l.
Proof.
  revert seen. induction l as [| c l IH]; intros seen; simpl.
  - constructor.
  - destruct (isin c seen); constructor; apply IH.
Qed.

Lemma unique_from_fixed (l seen : list cell) :
  distinct l -> (forall c, In c l -> isin c seen = false) ->
  unique_from seen l = l.
Proof.
  revert seen. induction l as [| c l IH]; intros seen Hd Hs; simpl; [reflexivity |].
  inversion Hd as [| ? ? Hc Hl]; subst.
  rewrite (Hs c (or_introl eq_refl)). f_equal. apply IH; [exact Hl |].
  intros d Hd'. simpl. rewrite (Hs d (or_intror Hd')), orb_false_r.
  destruct (cell_eqb d c) eqn:E; trivial.
  assert (isin c l = true) as X; [| congruence].
  apply isin_spec. exists d. split; [exact Hd' |].
  rewrite cell_eqb_sym. exact E.
Qed.

(** What has been seen matters only through the values it holds. *)
Lemma unique_from_ext (l s1 s2 : list cell) :
  (forall c, isin c s1 = isin c s2) -> unique_from s1 l = unique_from s2 l.
Proof.
  revert s1 s2. induction l as [| c l IH]; intros s1 s2 H; simpl; [reflexivity |].
  rewrite <- (H c). destruct (isin c s1).
  - apply IH, H.
  - f_equal. apply IH. intros d. simpl. rewrite (H d). reflexivity.
Qed.

Lemma isin_app (c : cell) (l1 l2 : list cell) :
  isin c (l1 ++ l2) = isin c l1 || isin c l2.
Proof. unfold isin. apply existsb_app. Qed.

Lemma unique_from_app (l1 l2 seen : list cell) :
  unique_from seen (l1 ++ l2)
  = unique_from seen l1 ++ unique_from (l1 ++ seen) l2.
Proof.
  revert seen. induction l1 as [| c l1 IH]; intros seen; simpl; [reflexivity |].
  destruct (isin c seen) eqn:E.
  - rewrite IH. f_equal. apply unique_from_ext. intros d. simpl.
    rewrite !isin_app. destruct (cell_eqb d c) eqn:Edc; [| reflexivity].
    rewrite (isin_eqb d c seen Edc), E. simpl. rewrite orb_true_r. reflexivity.
  - simpl. f_equal. rewrite IH. f_equal. apply unique_from_ext. intros d.
    simpl. rewrite !isin_app. simpl.
    destruct (cell_eqb d c), (isin d l1); reflexivity.
Qed.

Lemma unique_from_filter (l seen extra : list cell) :
  unique_from (extra ++ seen) l
  = filter (fun c => negb (isin c extra)) (unique_from seen l).
Proof.
  revert seen extra. induction l as [| c l IH]; intros seen extra; simpl;
    [reflexivity |].
  rewrite isin_app. destruct (isin c seen) eqn:Es.
  - rewrite orb_true_r. apply IH.
  - rewrite orb_false_r. destruct (isin c extra) eqn:Ee; simpl; rewrite Ee; simpl.
    + rewrite IH.
      rewrite (unique_from_ext l (c :: seen) ([c] ++ seen)) by reflexivity.
      rewrite (IH seen [c]), filter_twice. apply filter_ext. intros d.
      simpl. rewrite orb_false_r.
      destruct (cell_eqb d c) eqn:Edc; simpl; [| reflexivity].
      rewrite (isin_eqb d c extra Edc), Ee. reflexivity.
    + f_equal. rewrite <- IH. apply unique_from_ext. intros d.
      simpl. rewrite !isin_app. simpl.
      destruct (cell_eqb d c), (isin d extra); reflexivity.
Qed.

Lemma unique_app (l1 l2 : list cell) :
  unique (l1 ++ l2)
  = unique l1 ++ filter (fun c => negb (isin c l1)) (unique l2).
Proof.
  unfold unique. rewrite unique_from_app. f_equal.
  apply (unique_from_filter l2 [] l1).
Qed.

Lemma estacoes_app (s e : Z) (rs1 rs2 : list row) :
  estacoes s e (rs1 ++ rs2)
  = estacoes s e rs1
    ++ filter (fun c => negb (isin c (estacoes s e rs1))) (estacoes s e rs2).
Proof.
  unfold estacoes, filter_periodo, column.
  rewrite filter_app, map_app, unique_app. f_equal.
  apply filter_ext. intros c. f_equal.
  pose proof (isin_unique c (map (get "Estação") (filter (date_mask s e) rs1))) as H.
  destruct (isin c (map (get "Estação") (filter (date_mask s e) rs1)));
    destruct (isin c (unique (map (get "Estação") (filter (date_mask s e) rs1))));
    trivial.
  - symmetry. apply H. reflexivity.
  - apply H. reflexivity.
Qed.

(** X20.  The station options are listed in the order in which the
    stations first appear in the rows of the period, each once: the options
    of a table are the options of its first rows followed by the stations
    that first appear in the rows after them, so the station of the first
    row of the period that holds it stands right after the stations of the
    rows before it.  Taking the distinct values again changes nothing, and
    narrowing the period can only remove options. *)
Theorem station_options_order (s e : Z) (rs : list row) :
  subseq (estacoes s e rs) (column "Estação" (filter_periodo s e rs))
  /\ unique (estacoes s e rs) = estacoes s e rs
  /\ (forall rs1 rs2, rs = rs1 ++ rs2 ->
        estacoes s e rs
        = estacoes s e rs1
          ++ filter (fun c => negb (isin c (estacoes s e rs1))) (estacoes s e rs2))
  /\ (forall rs1 r rs2, rs = rs1 ++ r :: rs2 ->
        stamped_within s e r ->
        ~ (exists r', In r' rs1 /\ stamped_within s e r'
                      /\ same_value (get "Estação" r) (get "Estação" r')) ->
        exists later,
          estacoes s e rs = estacoes s e rs1 ++ get "Estação" r :: later)
  /\ (forall s' e' c, s <= s' -> e' <= e ->
        isin c (estacoes s' e' rs) = true -> isin c (estacoes s e rs) = true).
Proof.
  split; [apply unique_from_subseq |]. split; [| split; [| split]].
  - unfold unique at 1. apply unique_from_fixed.
    + apply unique_from_distinct.
    + intros c _. reflexivity.
  - intros rs1 rs2 ->. apply estacoes_app.
  - intros rs1 r rs2 -> Hr Hfirst.
    rewrite estacoes_app.
    change (r :: rs2) with ([r] ++ rs2). rewrite (estacoes_app s e [r] rs2).
    assert (estacoes s e [r] = [get "Estação" r]) as ->.
    { unfold estacoes, filter_periodo. simpl.
      rewrite (proj2 (date_mask_stamped s e r) Hr). reflexivity. }
    simpl.
    assert (isin (get "Estação" r) (estacoes s e rs1) = false) as ->.
    { destruct (isin (get "Estação" r) (estacoes s e rs1)) eqn:E; trivial.
      exfalso. apply Hfirst.
      destruct (proj1 (estacoes_spec s e rs1 (get "Estação" r))) as [r' Hr'].
      - apply isin_spec in E. destruct E as [d [Hd Hs]].
        exists d. split; [exact Hd | apply cell_eqb_same, Hs].
      - exists r'. exact Hr'. }
    simpl. eexists. reflexivity.
  - intros s' e' c Hs He. unfold estacoes. rewrite !isin_unique, !isin_spec.
    intros [d [Hd Hc]]. exists d. split; [| exact Hc].
    unfold column in *. apply in_map_iff in Hd. destruct Hd as [r [<- Hr]].
    apply in_map. unfold filter_periodo in *. apply filter_In in Hr.
    apply filter_In. split; [tauto |].
    apply (date_mask_narrow s e s' e' r Hs He). tauto.
Qed.
